(** * Dream Weaver image tools: a shallow embedding of [tools.py]

    The two operations of [tools.py], [generate_image] and [edit_image],
    are embedded as computations in a state-and-exception monad over an
    explicit world (file system, open streams, log of remote calls).
    Python values are modelled as the interpreter has them: [str] is a
    sequence of Unicode code points, [int] is [Z], [float] is IEEE 754
    binary64 ([spec_float] with precision 53 and maximal exponent 1024). *)

From Stdlib Require Import ZArith NArith List String Ascii Bool Lia.
From Stdlib Require Import Floats.SpecFloat DecimalPos.
From stdpp Require Import base option list gmap.
Import ListNotations.

Local Open Scope Z_scope.

(** ** Python strings *)

Module PyStr.

(** A Python [str]: the sequence of its code points. *)
Abbreviation pystr := (list N).

(** UTF-8 decoding of a literal of this file, so that the templates of
    the source can be written down as they stand there. *)
Fixpoint utf8_decode (bs : list N) : pystr :=
  match bs with
  | [] => []
  | b0 :: r0 =>
    if (b0 <? 128)%N then b0 :: utf8_decode r0
    else if (b0 <? 224)%N then
      match r0 with
      | b1 :: r1 =>
        N.lor (N.shiftl (N.land b0 31) 6) (N.land b1 63) :: utf8_decode r1
      | _ => []
      end
    else if (b0 <? 240)%N then
      match r0 with
      | b1 :: b2 :: r2 =>
        N.lor (N.shiftl (N.land b0 15) 12)
          (N.lor (N.shiftl (N.land b1 63) 6) (N.land b2 63)) :: utf8_decode r2
      | _ => []
      end
    else
      match r0 with
      | b1 :: b2 :: b3 :: r3 =>
        N.lor (N.shiftl (N.land b0 7) 18)
          (N.lor (N.shiftl (N.land b1 63) 12)
             (N.lor (N.shiftl (N.land b2 63) 6) (N.land b3 63))) :: utf8_decode r3
      | _ => []
      end
  end.

Fixpoint bytes_of_string (s : string) : list N :=
  match s with
  | EmptyString => []
  | String c r => N_of_ascii c :: bytes_of_string r
  end.

Definition lit (s : string) : pystr := utf8_decode (bytes_of_string s).

Definition nl : pystr := [10%N].
Definition dquote : pystr := [34%N].

(** [len(s)] of a [str] or a list, [s[:k]]. *)
Definition len {A} (s : list A) : Z := Z.of_nat (length s).
Definition slice_to (k : nat) (s : pystr) : pystr := take k s.

(** [str.isspace] on one code point (CPython's [Py_UNICODE_ISSPACE]). *)
Definition isspace (c : N) : bool :=
  ((9 <=? c) && (c <=? 13) || (28 <=? c) && (c <=? 32)
   || (c =? 133) || (c =? 160) || (c =? 5760)
   || (8192 <=? c) && (c <=? 8202)
   || (c =? 8232) || (c =? 8233) || (c =? 8239) || (c =? 8287)
   || (c =? 12288))%N.

Fixpoint lstrip (s : pystr) : pystr :=
  match s with
  | [] => []
  | c :: r => if isspace c then lstrip r else s
  end.

Definition rstrip (s : pystr) : pystr := rev (lstrip (rev s)).

(** [s.strip()] *)
Definition strip (s : pystr) : pystr := rstrip (lstrip s).

(** Truth value of a [str]: non-empty. *)
Definition truthy (s : pystr) : bool :=
  match s with [] => false | _ => true end.

Definition eqb (s t : pystr) : bool := bool_decide (s = t).

(** [s.upper()] maps each code point on its own.  The ASCII letters are
    mapped here; the mapping of the code points beyond ASCII is
    CPython's Unicode table, taken as [table]. *)
Definition upper_char (table : N -> pystr) (c : N) : pystr :=
  if ((97 <=? c) && (c <=? 122))%N then [(c - 32)%N]
  else if (c <? 128)%N then [c]
  else table c.

Definition upper (table : N -> pystr) (s : pystr) : pystr :=
  flat_map (upper_char table) s.

(** Decimal digits, [str(i)] for an [int]. *)
Fixpoint digits_of_uint (d : Decimal.uint) : pystr :=
  match d with
  | Decimal.Nil => []
  | Decimal.D0 r => 48%N :: digits_of_uint r
  | Decimal.D1 r => 49%N :: digits_of_uint r
  | Decimal.D2 r => 50%N :: digits_of_uint r
  | Decimal.D3 r => 51%N :: digits_of_uint r
  | Decimal.D4 r => 52%N :: digits_of_uint r
  | Decimal.D5 r => 53%N :: digits_of_uint r
  | Decimal.D6 r => 54%N :: digits_of_uint r
  | Decimal.D7 r => 55%N :: digits_of_uint r
  | Decimal.D8 r => 56%N :: digits_of_uint r
  | Decimal.D9 r => 57%N :: digits_of_uint r
  end.

Definition digits_of_N (n : N) : pystr :=
  match n with
  | N0 => [48%N]
  | Npos p => digits_of_uint (Pos.to_uint p)
  end.

Definition minus_sign : pystr := [45%N].

Definition str_of_int (i : Z) : pystr :=
  match i with
  | Zneg p => minus_sign ++ digits_of_N (Npos p)
  | _ => digits_of_N (Z.to_N i)
  end.

(** Thousands separators of the format [{i:,}]: a comma before every
    group of three digits, counted from the right. *)
Fixpoint group3 (rev_digits : pystr) (k : nat) : pystr :=
  match rev_digits with
  | [] => []
  | d :: r =>
    match k with
    | O => match r with
           | [] => [d]
           | _ => d :: 44%N :: group3 r 2
           end
    | S k' => d :: group3 r k'
    end
  end.

Definition with_commas (digits : pystr) : pystr :=
  rev (group3 (rev digits) 2).

Definition format_int_commas (i : Z) : pystr :=
  match i with
  | Zneg p => minus_sign ++ with_commas (digits_of_N (Npos p))
  | _ => with_commas (digits_of_N (Z.to_N i))
  end.

(** [s.startswith(t)], [s.endswith(t)]. *)
Fixpoint startswith (s t : pystr) {struct t} : bool :=
  match t, s with
  | [], _ => true
  | a :: t', b :: s' => (a =? b)%N && startswith s' t'
  | _ :: _, [] => false
  end.

Definition endswith (s t : pystr) : bool := startswith (rev s) (rev t).

(** Substrings: [t in s]. *)
Definition contains (s t : pystr) : Prop :=
  exists pre post, s = pre ++ t ++ post.

Fixpoint containsb (s t : pystr) : bool :=
  startswith s t ||
  match s with
  | [] => false
  | _ :: s' => containsb s' t
  end.

End PyStr.
Import PyStr.

(** ** Exceptions and floats *)

(** The exceptions raised in the two operations are all instances of
    [Exception]; [exn_str] is what [str(e)] gives. *)
Inductive exn_class :=
| ZeroDivisionError | OverflowError | IndexError | TypeError
| AttributeError | ValueError | ExternalError.

Record exn := Exn { exn_kind : exn_class; exn_str : pystr }.

Inductive outcome (A : Type) :=
| Return (a : A)
| Raise (e : exn).
Arguments Return {A} a.
Arguments Raise {A} e.

Definition obind {A B} (o : outcome A) (k : A -> outcome B) : outcome B :=
  match o with
  | Return a => k a
  | Raise e => Raise e
  end.

Notation "'let+' x ':=' c 'in' k" := (obind c (fun x => k))
  (at level 10, x name, c at level 100, k at level 200).

Module PyFloat.

Abbreviation float := spec_float.

Definition fmul : float -> float -> float := SFmul 53 1024.
Definition fadd : float -> float -> float := SFadd 53 1024.
Definition fdiv : float -> float -> float := SFdiv 53 1024.

(** The value of a float literal with an integral value, as [5.00]. *)
Definition float_lit (z : Z) : float := binary_normalize 53 1024 z 0 false.

(** [float(i)] as the arithmetic operators convert an [int] operand:
    rounded to nearest even, [OverflowError] beyond the range. *)
Definition float_of_int (i : Z) : outcome float :=
  match binary_normalize 53 1024 i 0 false with
  | S754_infinity _ =>
    Raise (Exn OverflowError (lit "int too large to convert to float"))
  | f => Return f
  end.

(** [a / b] on two [int]s: the quotient rounded once. *)
Definition int_truediv (a b : Z) : outcome float :=
  let negative := xorb (a <? 0) (b <? 0) in
  match Z.abs a, Z.abs b with
  | _, Z0 => Raise (Exn ZeroDivisionError (lit "division by zero"))
  | Zpos p, Zpos q =>
    match fdiv (S754_finite negative p 0) (S754_finite false q 0) with
    | S754_infinity _ =>
      Raise (Exn OverflowError (lit "integer division result too large for a float"))
    | f => Return f
    end
  | _, _ => Return (S754_zero negative)
  end.

(** [x / k] for a float [x] and an [int] [k]. *)
Definition float_div_int (x : float) (k : Z) : outcome float :=
  match float_of_int k with
  | Raise e => Raise e
  | Return (S754_zero _) =>
    Raise (Exn ZeroDivisionError (lit "float division by zero"))
  | Return d => Return (fdiv x d)
  end.

(** The format [{x:.4f}]: the exact binary value times [10^4], rounded to
    the nearest integer (ties to even), printed with four decimals. *)
Definition round_half_even (num den : Z) : Z :=
  let q := num / den in
  let r := num mod den in
  match 2 * r ?= den with
  | Lt => q
  | Gt => q + 1
  | Eq => if Z.even q then q else q + 1
  end.

Definition scaled4 (m : positive) (e : Z) : Z :=
  match e with
  | Zneg k => round_half_even (Zpos m * 10000) (2 ^ Zpos k)
  | _ => Zpos m * 2 ^ e * 10000
  end.

Definition pad4 (ds : pystr) : pystr :=
  replicate (4 - length ds)%nat 48%N ++ ds.

Definition fixed4 (q : Z) : pystr :=
  digits_of_N (Z.to_N (q / 10000)) ++ lit "." ++ pad4 (digits_of_N (Z.to_N (q mod 10000))).

Definition format_4f (x : float) : pystr :=
  match x with
  | S754_nan => lit "nan"
  | S754_infinity false => lit "inf"
  | S754_infinity true => lit "-inf"
  | S754_zero false => lit "0.0000"
  | S754_zero true => lit "-0.0000"
  | S754_finite s m e => (if s then minus_sign else []) ++ fixed4 (scaled4 m e)
  end.

End PyFloat.
Import PyFloat.

(** ** The world around the two operations *)

Abbreviation handle := nat.
Abbreviation bytes := (list Byte.byte).

(** The [image] argument of the remote edit call: one stream, or the
    list of streams. *)
Inductive image_arg :=
| OneStream (h : handle)
| StreamList (hs : list handle).

Record generate_params := GenerateParams {
  gp_model : pystr; gp_prompt : pystr; gp_background : pystr;
  gp_moderation : pystr; gp_n : Z; gp_output_compression : Z;
  gp_output_format : pystr; gp_quality : pystr; gp_size : pystr }.

Record edit_params := EditParams {
  ep_model : pystr; ep_image : image_arg; ep_prompt : pystr;
  ep_background : pystr; ep_n : Z; ep_quality : pystr; ep_size : pystr;
  ep_mask : option handle }.

Inductive remote_call :=
| CallGenerate (p : generate_params)
| CallEdit (p : edit_params).

(** The response of the image service ([ImagesResponse]); [usage] and
    [data] are optional there, and so is the payload of an image. *)
Record Usage := {
  text_tokens : Z;      (* usage.input_tokens_details.text_tokens *)
  image_tokens : Z;     (* usage.input_tokens_details.image_tokens *)
  output_tokens : Z;
  total_tokens : Z }.

Record Image := { b64_json : option pystr }.

Record ImagesResponse := {
  created : Z;
  usage : option Usage;
  data : option (list Image) }.

Inductive open_mode := ReadBinary | WriteBinary.

(** Everything the operations call and do not define: the loaded
    configuration, the client library, the file system's failures and
    three library functions. *)
Record Env := {
  config : gmap pystr (option pystr);            (* dotenv_values(".env") *)
  OpenAI_error : pystr -> option exn;            (* OpenAI(api_key=...) *)
  generate_response : generate_params -> outcome ImagesResponse;
  edit_response : edit_params -> outcome ImagesResponse;
  makedirs_error : pystr -> option exn;
  open_error : pystr -> open_mode -> option exn;
  write_error : pystr -> bytes -> option exn;
  b64decode : option pystr -> outcome bytes;     (* base64.b64decode *)
  strftime_local : Z -> outcome pystr;
    (* datetime.fromtimestamp(t).strftime('%Y-%m-%d %H:%M:%S') *)
  upper_table : N -> pystr }.

Record World := {
  files : gmap pystr bytes;          (* contents of the files written *)
  streams : gmap handle pystr;       (* the open streams and their paths *)
  next_handle : handle;
  remote_calls : list remote_call }. (* calls made to the image service *)

(** ** State and exception monad *)

Definition M (A : Type) : Type := World -> outcome A * World.

Definition ret {A} (a : A) : M A := fun w => (Return a, w).
Definition raise {A} (e : exn) : M A := fun w => (Raise e, w).

Definition bind {A B} (c : M A) (k : A -> M B) : M B :=
  fun w =>
    match c w with
    | (Return a, w') => k a w'
    | (Raise e, w') => (Raise e, w')
    end.

Definition lift {A} (o : outcome A) : M A := fun w => (o, w).

Definition fail_if (o : option exn) : M unit :=
  match o with
  | Some e => raise e
  | None => ret tt
  end.

(** [try: body except Exception as e: handler]. *)
Definition try_except {A} (body : M A) (handler : exn -> M A) : M A :=
  fun w =>
    match body w with
    | (Return a, w') => (Return a, w')
    | (Raise e, w') => handler e w'
    end.

(** [try: body finally: cleanup], as [with] leaves its block. *)
Definition finally {A} (body : M A) (cleanup : World -> World) : M A :=
  fun w => let '(r, w') := body w in (r, cleanup w').

Notation "'let*' x ':=' c 'in' k" := (bind c (fun x => k))
  (at level 10, x name, c at level 100, k at level 200).

(** ** Primitive effects *)

Definition config_get (env : Env) (key : pystr) : option pystr :=
  match config env !! key with
  | Some v => v
  | None => None
  end.

(** Truth value of an optional [str]: [None] and [""] are false. *)
Definition truthy_opt (v : option pystr) : bool :=
  match v with
  | Some s => truthy s
  | None => false
  end.

Definition images_generate (env : Env) (p : generate_params) : M ImagesResponse :=
  fun w =>
    (generate_response env p,
     {| files := files w; streams := streams w; next_handle := next_handle w;
        remote_calls := remote_calls w ++ [CallGenerate p] |}).

Definition images_edit (env : Env) (p : edit_params) : M ImagesResponse :=
  fun w =>
    (edit_response env p,
     {| files := files w; streams := streams w; next_handle := next_handle w;
        remote_calls := remote_calls w ++ [CallEdit p] |}).

(** [OpenAI(api_key=api_key)] and [os.makedirs(path, exist_ok=True)]. *)
Definition OpenAI (env : Env) (api_key : pystr) : M unit :=
  fail_if (OpenAI_error env api_key).

Definition makedirs (env : Env) (path : pystr) : M unit :=
  fail_if (makedirs_error env path).

(** [open(path, mode)]: a new stream; mode ["wb"] creates or empties the
    file. *)
Definition open (env : Env) (path : pystr) (mode : open_mode) : M handle :=
  fun w =>
    match open_error env path mode with
    | Some e => (Raise e, w)
    | None =>
      (Return (next_handle w),
       {| files := match mode with
                   | WriteBinary => <[path := []]> (files w)
                   | ReadBinary => files w
                   end;
          streams := <[next_handle w := path]> (streams w);
          next_handle := S (next_handle w);
          remote_calls := remote_calls w |})
    end.

Definition close_world (h : handle) (w : World) : World :=
  {| files := files w; streams := delete h (streams w);
     next_handle := next_handle w; remote_calls := remote_calls w |}.

Definition close (h : handle) : M unit := fun w => (Return tt, close_world h w).

Definition write (env : Env) (h : handle) (b : bytes) : M unit :=
  fun w =>
    match streams w !! h with
    | None => (Raise (Exn ValueError (lit "I/O operation on closed file.")), w)
    | Some path =>
      match write_error env path b with
      | Some e => (Raise e, w)
      | None =>
        (Return tt,
         {| files := <[path := b]> (files w); streams := streams w;
            next_handle := next_handle w; remote_calls := remote_calls w |})
      end
    end.

(** [with open(path, mode) as f: body f] *)
Definition with_open {A} (env : Env) (path : pystr) (mode : open_mode)
    (body : handle -> M A) : M A :=
  let* f := open env path mode in
  finally (body f) (close_world f).

(** ** Pieces shared by the two operations *)

Definition OPENAI_API_KEY : pystr := lit "OPENAI_API_KEY".

(** A text given line by line, each line ended by a newline. *)
Definition lines (ls : list pystr) : pystr :=
  concat (map (fun l => l ++ nl) ls).

(** [os.path.join(a, b)] of [posixpath]. *)
Definition path_join (a b : pystr) : pystr :=
  if startswith b (lit "/") then b
  else if negb (truthy a) || endswith a (lit "/") then a ++ b
  else a ++ lit "/" ++ b.

(** [response.data] as the [for] loop iterates over it. *)
Definition iterate (d : option (list Image)) : M (list Image) :=
  match d with
  | Some l => ret l
  | None => raise (Exn TypeError (lit "'NoneType' object is not iterable"))
  end.

(** [usage.input_tokens_details], and with it the counters of [usage]. *)
Definition input_tokens_details (u : option Usage) : M Usage :=
  match u with
  | Some u => ret u
  | None =>
    raise (Exn AttributeError
             (lit "'NoneType' object has no attribute 'input_tokens_details'"))
  end.

(** The body of [for i, image_data in enumerate(response.data)], from
    index [i] on; [filename i] is the f-string of the file name. *)
Fixpoint save_images (env : Env) (filename : Z -> pystr) (i : Z)
    (items : list Image) (image_paths : list pystr) : M (list pystr) :=
  match items with
  | [] => ret image_paths
  | image_data :: rest =>
    let filepath := path_join (lit "generated_images") (filename i) in
    let* image_bytes := lift (b64decode env (b64_json image_data)) in
    let* _ := with_open env filepath WriteBinary
                (fun f => write env f image_bytes) in
    save_images env filename (i + 1) rest (image_paths ++ [filepath])
  end.

(** ["{prompt[:300]}{'...' if len(prompt) > 300 else ''}"] with its quotes. *)
Definition prompt_echo (prompt : pystr) : pystr :=
  dquote ++ slice_to 300 prompt
  ++ (if 300 <? len prompt then lit "..." else []) ++ dquote.

Record Costs := { input_cost : float; output_cost : float; total_cost : float }.

(** ** [generate_image] *)

Definition generate_filename (created_timestamp : Z) (extension : pystr)
    (i : Z) : pystr :=
  lit "generated_" ++ str_of_int created_timestamp ++ lit "_"
  ++ str_of_int (i + 1) ++ lit "." ++ extension.

Definition generate_costs (u : Usage) : outcome Costs :=
  let+ text_share := int_truediv (text_tokens u) 1000000 in
  let input_cost := fmul text_share (float_lit 5) in
  let+ output_share := int_truediv (output_tokens u) 1000000 in
  let output_cost := fmul output_share (float_lit 40) in
  let total_cost := fadd input_cost output_cost in
  Return {| input_cost := input_cost; output_cost := output_cost;
            total_cost := total_cost |}.

Definition generation_info (env : Env) (model : pystr) (image_paths : list pystr)
    (quality size output_format background : pystr) (output_compression : Z)
    (created_text : pystr) (u : Usage) (c : Costs) (per_image : float)
    (prompt : pystr) : pystr :=
  lines
    [ lit "## ✅ Images Generated Successfully!";
      [];
      lit "### 📊 Generation Details";
      lit "- **Model:** " ++ model;
      lit "- **Images Created:** " ++ str_of_int (len image_paths);
      lit "- **Quality:** " ++ quality;
      lit "- **Size:** " ++ size ++ lit " ";
      lit "- **Format:** " ++ upper (upper_table env) output_format;
      lit "- **Background:** " ++ background;
      lit "- **Compression:** " ++ str_of_int output_compression ++ lit "%";
      lit "- **Created:** " ++ created_text;
      [];
      lit "### 🔢 Token Usage";
      lit "- **Text Tokens:** " ++ format_int_commas (text_tokens u);
      lit "- **Image Tokens:** " ++ format_int_commas (image_tokens u);
      lit "- **Output Tokens:** " ++ format_int_commas (output_tokens u);
      lit "- **Total Tokens:** " ++ format_int_commas (total_tokens u);
      [];
      lit "### 💰 Cost Breakdown";
      lit "- **Input Cost:** $" ++ format_4f (input_cost c);
      lit "- **Output Cost:** $" ++ format_4f (output_cost c);
      lit "- **Total Cost:** $" ++ format_4f (total_cost c);
      lit "- **Cost per Image:** $" ++ format_4f per_image;
      [];
      lit "### 📝 Prompt";
      prompt_echo prompt ].

Definition generation_failed (e : exn) : pystr :=
  lines
    [ lit "## ❌ Generation Failed";
      [];
      lit "**Error:** " ++ exn_str e;
      [];
      lit "**Troubleshooting:**";
      lit "- Verify OpenAI API key is valid";
      lit "- Check prompt length (max 32,000 characters)";
      lit "- Ensure sufficient API credits";
      lit "- Try different quality/size settings" ].

Definition prompt_empty : pystr :=
  lit "❌ **Error:** Prompt cannot be empty.".

Definition key_not_found : pystr :=
  lit "❌ **Error:** OpenAI API key not found in environment variables.".

Definition generate_image (env : Env)
    (prompt background model moderation : pystr) (n output_compression : Z)
    (output_format quality size : pystr) : M (list pystr * pystr) :=
  try_except
    (if negb (truthy (strip prompt)) then ret ([], prompt_empty)
     else
       match config_get env OPENAI_API_KEY with
       | None => ret ([], key_not_found)
       | Some api_key =>
         if negb (truthy api_key) then ret ([], key_not_found)
         else
           let* _ := OpenAI env api_key in
           let* response :=
             images_generate env
               {| gp_model := model; gp_prompt := prompt;
                  gp_background := background; gp_moderation := moderation;
                  gp_n := n; gp_output_compression := output_compression;
                  gp_output_format := output_format; gp_quality := quality;
                  gp_size := size |} in
           let created_timestamp := created response in
           let usage := usage response in
           let* _ := makedirs env (lit "generated_images") in
           let extension :=
             if eqb output_format (lit "jpeg") then lit "jpg" else output_format in
           let* items := iterate (data response) in
           let* image_paths :=
             save_images env (generate_filename created_timestamp extension)
               0 items [] in
           let* u := input_tokens_details usage in
           let* c := lift (generate_costs u) in
           let* created_text := lift (strftime_local env created_timestamp) in
           let* per_image :=
             lift (float_div_int (total_cost c) (len image_paths)) in
           ret (image_paths,
                generation_info env model image_paths quality size
                  output_format background output_compression created_text
                  u c per_image prompt)
       end)
    (fun e => ret ([], generation_failed e)).

(** ** [edit_image] *)

(** The untyped [image_files] argument: [None], one path, or a list of
    paths. *)
Inductive image_files_arg :=
| NoFiles
| OneFile (path : pystr)
| FileList (paths : list pystr).

Definition edited_filename (created_timestamp : Z) (i : Z) : pystr :=
  lit "edited_" ++ str_of_int created_timestamp ++ lit "_"
  ++ str_of_int (i + 1) ++ lit ".png".

(** [[open(img_path, "rb") for img_path in image_files]] *)
Fixpoint open_all (env : Env) (paths : list pystr) : M (list handle) :=
  match paths with
  | [] => ret []
  | img_path :: rest =>
    let* f := open env img_path ReadBinary in
    let* fs := open_all env rest in
    ret (f :: fs)
  end.

(** [for img in images: img.close()] *)
Fixpoint close_all (images : list handle) : M unit :=
  match images with
  | [] => ret tt
  | img :: rest => let* _ := close img in close_all rest
  end.

Definition edit_costs (u : Usage) : outcome Costs :=
  let+ text_share := int_truediv (text_tokens u) 1000000 in
  let+ image_share := int_truediv (image_tokens u) 1000000 in
  let input_cost :=
    fadd (fmul text_share (float_lit 5)) (fmul image_share (float_lit 10)) in
  let+ output_share := int_truediv (output_tokens u) 1000000 in
  let output_cost := fmul output_share (float_lit 40) in
  let total_cost := fadd input_cost output_cost in
  Return {| input_cost := input_cost; output_cost := output_cost;
            total_cost := total_cost |}.

Definition edit_info (model : pystr) (image_count : Z) (image_paths : list pystr)
    (quality size background : pystr) (mask_file : option pystr)
    (created_text : pystr) (u : Usage) (c : Costs) (per_image : float)
    (prompt : pystr) : pystr :=
  lines
    [ lit "## ✅ Images Edited Successfully!";
      [];
      lit "### 📊 Edit Details";
      lit "- **Model:** " ++ model;
      lit "- **Input Images:** " ++ str_of_int image_count;
      lit "- **Output Images:** " ++ str_of_int (len image_paths);
      lit "- **Quality:** " ++ quality;
      lit "- **Size:** " ++ size;
      lit "- **Background:** " ++ background;
      lit "- **Mask Applied:** "
        ++ (if truthy_opt mask_file then lit "Yes" else lit "No");
      lit "- **Created:** " ++ created_text;
      [];
      lit "### 🔢 Token Usage";
      lit "- **Text Tokens:** " ++ format_int_commas (text_tokens u);
      lit "- **Input Image Tokens:** " ++ format_int_commas (image_tokens u);
      lit "- **Output Tokens:** " ++ format_int_commas (output_tokens u);
      lit "- **Total Tokens:** " ++ format_int_commas (total_tokens u);
      [];
      lit "### 💰 Cost Breakdown";
      lit "- **Input Cost:** $" ++ format_4f (input_cost c) ++ lit " (text + images)";
      lit "- **Output Cost:** $" ++ format_4f (output_cost c);
      lit "- **Total Cost:** $" ++ format_4f (total_cost c);
      lit "- **Cost per Output Image:** $" ++ format_4f per_image;
      [];
      lit "### 📝 Edit Instructions";
      prompt_echo prompt ].

Definition edit_failed (e : exn) : pystr :=
  lines
    [ lit "## ❌ Edit Failed";
      [];
      lit "**Error:** " ++ exn_str e;
      [];
      lit "**Troubleshooting:**";
      lit "- Ensure images are PNG, JPEG, or WebP format";
      lit "- Check file sizes (max 50MB per image)";
      lit "- Verify mask has alpha channel and matches image dimensions";
      lit "- Try simpler edit instructions";
      lit "- Reduce number of input images" ].

Definition upload_an_image : pystr :=
  lit "❌ **Error:** Please upload at least one image file.".

Definition edit_prompt_empty : pystr :=
  lit "❌ **Error:** Edit prompt cannot be empty.".

Definition is_None (image_files : image_files_arg) : bool :=
  match image_files with NoFiles => true | _ => false end.

(** The streams opened for [image_files]. *)
Definition open_images (env : Env) (image_files : image_files_arg)
    : M (list handle) :=
  match image_files with
  | OneFile path => let* f := open env path ReadBinary in ret [f]
  | FileList paths => open_all env paths
  | NoFiles => raise (Exn TypeError (lit "'NoneType' object is not iterable"))
  end.

(** [images if image_count > 1 else images[0]] *)
Definition image_param (images : list handle) (image_count : Z) : M image_arg :=
  if 1 <? image_count then ret (StreamList images)
  else match images with
       | first :: _ => ret (OneStream first)
       | [] => raise (Exn IndexError (lit "list index out of range"))
       end.

(** [if mask_file: edit_params["mask"] = open(mask_file, "rb")] *)
Definition open_mask (env : Env) (mask_file : option pystr) : M (option handle) :=
  match mask_file with
  | Some path =>
    if truthy path then let* f := open env path ReadBinary in ret (Some f)
    else ret None
  | None => ret None
  end.

(** [if mask_file: edit_params["mask"].close()] *)
Definition close_mask (mask : option handle) : M unit :=
  match mask with
  | Some f => close f
  | None => ret tt
  end.

Definition edit_image (env : Env) (image_files : image_files_arg)
    (prompt background : pystr) (mask_file : option pystr) (model : pystr)
    (n : Z) (quality size : pystr) : M (list pystr * pystr) :=
  try_except
    (if is_None image_files then ret ([], upload_an_image)
     else if negb (truthy (strip prompt)) then ret ([], edit_prompt_empty)
     else
       match config_get env OPENAI_API_KEY with
       | None => ret ([], key_not_found)
       | Some api_key =>
         if negb (truthy api_key) then ret ([], key_not_found)
         else
           let* _ := OpenAI env api_key in
           let* images := open_images env image_files in
           let image_count := len images in
           let* image := image_param images image_count in
           let* mask := open_mask env mask_file in
           let* response :=
             images_edit env
               {| ep_model := model; ep_image := image; ep_prompt := prompt;
                  ep_background := background; ep_n := n;
                  ep_quality := quality; ep_size := size; ep_mask := mask |} in
           let* _ := close_all images in
           let* _ := close_mask mask in
           let created_timestamp := created response in
           let usage := usage response in
           let* _ := makedirs env (lit "generated_images") in
           let* items := iterate (data response) in
           let* image_paths :=
             save_images env (edited_filename created_timestamp) 0 items [] in
           let* u := input_tokens_details usage in
           let* c := lift (edit_costs u) in
           let* created_text := lift (strftime_local env created_timestamp) in
           let* per_image :=
             lift (float_div_int (total_cost c) (len image_paths)) in
           ret (image_paths,
                edit_info model image_count image_paths quality size background
                  mask_file created_text u c per_image prompt)
       end)
    (fun e => ret ([], edit_failed e)).

(** ** Notions used in the statements *)

(** A file is saved in a world when the file system holds it. *)
Definition saved (w : World) (path : pystr) : Prop := is_Some (files w !! path).

(** A file is stored when opening it for writing did not fail and the
    file system holds it. *)
Definition stored (env : Env) (w : World) (path : pystr) : Prop :=
  open_error env path WriteBinary = None /\ saved w path.

(** The path the loop gives the image at index [k]. *)
Definition filepath_at (filename : Z -> pystr) (k : Z) : pystr :=
  path_join (lit "generated_images") (filename k).

(** Opening streams for reading and closing streams leave the files and
    the log of remote calls as they are. *)
Definition same_files (w w' : World) : Prop :=
  files w' = files w /\ remote_calls w' = remote_calls w.

(** The error reports of the two operations. *)
Definition generate_error_report (report : pystr) : Prop :=
  report = prompt_empty \/ report = key_not_found
  \/ exists e, report = generation_failed e.

Definition edit_error_report (report : pystr) : Prop :=
  report = upload_an_image \/ report = edit_prompt_empty
  \/ report = key_not_found \/ exists e, report = edit_failed e.

(** No source image: [None], or an empty list. *)
Definition no_source_images (image_files : image_files_arg) : Prop :=
  image_files = NoFiles \/ image_files = FileList [].

(** The first line of both success reports begins like this. *)
Definition success_mark : pystr := lit "## ✅".

(** The float a decimal literal denotes, as [0.005] is [decimal 5 1000]:
    the float nearest to the fraction. *)
Definition decimal (num den : Z) : float :=
  match int_truediv num den with
  | Return f => f
  | Raise _ => S754_nan
  end.

(** The value a run returned ([d] if it raised). *)
Definition returned {A} (run : outcome A * World) (d : A) : A :=
  match fst run with
  | Return a => a
  | Raise _ => d
  end.

(** *** A small world to run the operations in *)

Definition demo_usage : Usage :=
  {| text_tokens := 1000; image_tokens := 500; output_tokens := 2000;
     total_tokens := 3500 |}.

(** A response of the service with [k] images. *)
Definition demo_response (k : nat) : ImagesResponse :=
  {| created := 1700000000; usage := Some demo_usage;
     data := Some (replicate k {| b64_json := Some (lit "aGk=") |}) |}.

(** An environment with the given configuration, in which the service
    answers every call with [service] and the file system never fails. *)
Definition demo_env (cfg : gmap pystr (option pystr))
    (service : outcome ImagesResponse) : Env :=
  {| config := cfg;
     OpenAI_error := fun _ => None;
     generate_response := fun _ => service;
     edit_response := fun _ => service;
     makedirs_error := fun _ => None;
     open_error := fun _ _ => None;
     write_error := fun _ _ => None;
     b64decode := fun payload =>
       match payload with
       | Some _ => Return [Byte.x68; Byte.x69]
       | None =>
         Raise (Exn TypeError
                  (lit "argument should be a bytes-like object or ASCII string, not 'NoneType'"))
       end;
     strftime_local := fun _ => Return (lit "2023-11-14 22:13:20");
     upper_table := fun c => [c] |}.

Definition demo_config : gmap pystr (option pystr) :=
  {[ OPENAI_API_KEY := Some (lit "sk-demo") ]}.

Definition empty_world : World :=
  {| files := ∅; streams := ∅; next_handle := 0; remote_calls := [] |}.

(** A failure of the image service. *)
Definition rate_limited : exn :=
  Exn ExternalError (lit "Rate limit reached for gpt-image-1").

(** A run of [generate_image] on a valid request for [n] images in the
    given format, against a service that returns [k] images. *)
Definition demo_generate (k : nat) (n : Z) (output_format : pystr)
    : outcome (list pystr * pystr) * World :=
  generate_image (demo_env demo_config (Return (demo_response k)))
    (lit "A serene mountain lake") (lit "auto") (lit "gpt-image-1") (lit "low")
    n 85 output_format (lit "medium") (lit "auto") empty_world.

(** A run of [edit_image] on one source image, without and with a mask,
    against a service with the given answer. *)
Definition demo_edit (mask_file : option pystr)
    (service : outcome ImagesResponse) : outcome (list pystr * pystr) * World :=
  edit_image (demo_env demo_config service) (OneFile (lit "photo.png"))
    (lit "Add a rainbow") (lit "auto") mask_file (lit "gpt-image-1") 1
    (lit "medium") (lit "auto") empty_world.

(** ** Notions used in the further properties *)

(** A computation preserves a relation between worlds when every run,
    returning or raising, relates the world before to the world after. *)
Definition preserves {A} (R : World -> World -> Prop) (c : M A) : Prop :=
  forall w o w', c w = (o, w') -> R w w'.

(** No call to the image service. *)
Definition quiet (w w' : World) : Prop := remote_calls w' = remote_calls w.

(** No entry of the file system is removed, and the entries whose path
    does not begin [generated_images/] are as they were.  The entries
    are keyed by the path as the program spells it. *)
Definition files_kept (w w' : World) : Prop :=
  forall p,
    (saved w p -> saved w' p)
    /\ (startswith p (lit "generated_images/") = false ->
        files w' !! p = files w !! p).

(** Handles are handed out in increasing order: every open stream has a
    handle below the next one. *)
Definition fresh_handles (w : World) : Prop :=
  map_Forall (fun h _ => (h < next_handle w)%nat) (streams w).

#[global] Instance fresh_handles_dec w : Decision (fresh_handles w).
Proof. unfold fresh_handles. apply _. Defined.

(** The open streams are the same again. *)
Definition streams_restored (w w' : World) : Prop :=
  fresh_handles w -> fresh_handles w' /\ streams w' = streams w.

(** A world that already holds a file of the user and an open stream. *)
Definition busy_world : World :=
  {| files := {[ lit "notes.txt" := [Byte.x68; Byte.x69] ]};
     streams := {[ 0%nat := lit "other.bin" ]};
     next_handle := 1;
     remote_calls := [] |}.

(** The number of source images given. *)
Definition count_files (image_files : image_files_arg) : nat :=
  match image_files with
  | NoFiles => 0
  | OneFile _ => 1
  | FileList paths => length paths
  end.

(** The shape of the [image] argument of a request for [k] source
    images: the stream itself for one image, the list of streams for
    more. *)
Definition image_shape (image : image_arg) (k : nat) : Prop :=
  match image with
  | OneStream _ => k = 1%nat
  | StreamList hs => length hs = k /\ (1 < k)%nat
  end.

(** What a phase of opening streams does: the handles [hs] it returns
    are new, and the other streams are as they were. *)
Definition opened (hs : list handle) (w w' : World) : Prop :=
  (next_handle w <= next_handle w')%nat
  /\ (forall h, h ∈ hs -> (next_handle w <= h < next_handle w')%nat)
  /\ (forall h, h ∉ hs -> streams w' !! h = streams w !! h).

(** The prompt as the reports show it: whole when it has at most 300
    characters, else its first 300 characters and an ellipsis. *)
Definition shown_prompt (prompt : pystr) : pystr :=
  if 300 <? len prompt then take 300 prompt ++ lit "..." else prompt.

(** *** Further runs in the small world *)

(** A response of the service with [k] images and no usage record. *)
Definition response_without_usage (k : nat) : ImagesResponse :=
  {| created := 1700000000; usage := None;
     data := Some (replicate k {| b64_json := Some (lit "aGk=") |}) |}.

(** A configuration that holds the credential with an empty value. *)
Definition empty_credential : gmap pystr (option pystr) :=
  {[ OPENAI_API_KEY := Some [] ]}.

(** A run of [edit_image] on two source images and a mask, in a world
    that already holds a file and an open stream. *)
Definition demo_edit_two : outcome (list pystr * pystr) * World :=
  edit_image (demo_env demo_config (Return (demo_response 1)))
    (FileList [lit "photo.png"; lit "logo.png"]) (lit "Add a rainbow")
    (lit "auto") (Some (lit "mask.png")) (lit "gpt-image-1") 1 (lit "medium")
    (lit "auto") busy_world.

(** A second run of [generate_image], with another prompt, in the world
    the run [demo_generate 2 2 (lit "png")] leaves. *)
Definition demo_generate_again : outcome (list pystr * pystr) * World :=
  generate_image (demo_env demo_config (Return (demo_response 2)))
    (lit "A stormy sea") (lit "auto") (lit "gpt-image-1") (lit "low") 2 85
    (lit "png") (lit "high") (lit "auto") (snd (demo_generate 2 2 (lit "png"))).

(** A prompt of 301 characters. *)
Definition long_prompt : pystr := replicate 301 97%N.

(** A run of [generate_image] on the long prompt. *)
Definition demo_generate_long : outcome (list pystr * pystr) * World :=
  generate_image (demo_env demo_config (Return (demo_response 1)))
    long_prompt (lit "auto") (lit "gpt-image-1") (lit "low") 1 85 (lit "png")
    (lit "medium") (lit "auto") empty_world.

(** *** Invocations of the client *)

(** The log [remote_calls] has one entry for each invocation of
    [client.images.generate] or [client.images.edit] by the two
    operations.  What the client library does within one invocation,
    such as sending a failed request again, is not recorded. *)
Definition client_invocations (w : World) : list remote_call := remote_calls w.

(** *** The files and the request of one call of [edit_image] *)

(** The paths [edit_image] opens for reading: the source images, and
    the mask when a non-empty mask path is given. *)
Definition source_paths (image_files : image_files_arg) : list pystr :=
  match image_files with
  | NoFiles => []
  | OneFile path => [path]
  | FileList paths => paths
  end.

Definition mask_path (mask_file : option pystr) : list pystr :=
  match mask_file with
  | Some path => if truthy path then [path] else []
  | None => []
  end.

(** The request [edit_image] makes once its files are open, in a world
    whose next handle is [h0]: the streams of the source images are
    [h0], [h0 + 1], ..., and the stream of the mask comes next. *)
Definition edit_request (h0 : handle) (image_files : image_files_arg)
    (prompt background : pystr) (mask_file : option pystr) (model : pystr)
    (n : Z) (quality size : pystr) : edit_params :=
  {| ep_model := model;
     ep_image := if 1 <? Z.of_nat (count_files image_files)
                 then StreamList (seq h0 (count_files image_files))
                 else OneStream h0;
     ep_prompt := prompt; ep_background := background; ep_n := n;
     ep_quality := quality; ep_size := size;
     ep_mask := if truthy_opt mask_file
                then Some (h0 + count_files image_files)%nat else None |}.

(** An environment in which only [photo.png] and [mask.png] can be read,
    the service answers only the request that carries the streams 1 and
    2, and the output directory cannot be made. *)
Definition strict_env : Env :=
  {| config := demo_config;
     OpenAI_error := fun _ => None;
     generate_response := fun _ => Raise rate_limited;
     edit_response := fun p =>
       match ep_image p, ep_mask p with
       | OneStream 1%nat, Some 2%nat => Return (demo_response 1)
       | _, _ => Raise rate_limited
       end;
     makedirs_error := fun _ =>
       Some (Exn ExternalError
               (lit "[Errno 13] Permission denied: 'generated_images'"));
     open_error := fun path mode =>
       match mode with
       | ReadBinary =>
         if eqb path (lit "photo.png") || eqb path (lit "mask.png") then None
         else Some (Exn ExternalError
                      (lit "[Errno 2] No such file or directory"))
       | WriteBinary => None
       end;
     write_error := fun _ _ => None;
     b64decode := fun _ => Return [Byte.x68; Byte.x69];
     strftime_local := fun _ => Return (lit "2023-11-14 22:13:20");
     upper_table := fun c => [c] |}.

(** A run of [edit_image] in it, on one source image and a mask. *)
Definition strict_edit : outcome (list pystr * pystr) * World :=
  edit_image strict_env (OneFile (lit "photo.png")) (lit "Add a rainbow")
    (lit "auto") (Some (lit "mask.png")) (lit "gpt-image-1") 1 (lit "medium")
    (lit "auto") busy_world.

(** *** Spellings of a path *)


(** ** The library model on examples *)

Example strip_example : strip (lit "  a serene lake ") = lit "a serene lake".
Proof. reflexivity. Qed.

Example strip_blank : strip (lit "   ") = [] /\ strip [9; 10; 160; 8195; 12288]%N = [].
Proof. split; reflexivity. Qed.

Example upper_example table : upper table (lit "jpeg") = lit "JPEG".
Proof. reflexivity. Qed.

Example str_of_int_example :
  str_of_int 1700000000 = lit "1700000000" /\ str_of_int (-12) = lit "-12".
Proof. split; reflexivity. Qed.

Example format_int_commas_example :
  format_int_commas 1234567 = lit "1,234,567"
  /\ format_int_commas 999 = lit "999"
  /\ format_int_commas 1000 = lit "1,000"
  /\ format_int_commas (-123456) = lit "-123,456".
Proof. repeat split; reflexivity. Qed.

(** [0.005] is [0x1.47ae147ae147bp-8]. *)
Example decimal_example :
  decimal 5 1000 = S754_finite false 5764607523034235 (-60).
Proof. vm_compute. reflexivity. Qed.

(** [{x:.4f}] rounds the exact binary value: [0.00005] lies above the
    tie and [0.00015] below it. *)
Example format_4f_example :
  format_4f (decimal 5 100000) = lit "0.0001"
  /\ format_4f (decimal 15 100000) = lit "0.0001"
  /\ format_4f (decimal (-1) 100000) = lit "-0.0000"
  /\ format_4f (decimal 123456789 1000) = lit "123456.7890".
Proof. repeat split; vm_compute; reflexivity. Qed.

Example path_join_example :
  path_join (lit "generated_images") (lit "edited_1_1.png")
  = lit "generated_images/edited_1_1.png"
  /\ path_join (lit "generated_images") (lit "/tmp/x.png") = lit "/tmp/x.png".
Proof. split; vm_compute; reflexivity. Qed.

(** ** Reasoning about the embedding *)

Arguments lit : simpl never.

Lemma bind_Return {A B} (c : M A) (k : A -> M B) w a w' :
  c w = (Return a, w') -> bind c k w = k a w'.
Proof. intros H. unfold bind. now rewrite H. Qed.

Lemma bind_Raise {A B} (c : M A) (k : A -> M B) w e w' :
  c w = (Raise e, w') -> bind c k w = (Raise e, w').
Proof. intros H. unfold bind. now rewrite H. Qed.

Lemma bind_inv {A B} (c : M A) (k : A -> M B) w o w' :
  bind c k w = (o, w') ->
  (exists a w1, c w = (Return a, w1) /\ k a w1 = (o, w'))
  \/ (exists e, c w = (Raise e, w') /\ o = Raise e).
Proof.
  unfold bind. destruct (c w) as [[a|e] w1]; intros H.
  - left. eauto.
  - right. inversion H; subst. eauto.
Qed.

Lemma lift_inv {A} (x : outcome A) w o w' :
  lift x w = (o, w') -> o = x /\ w' = w.
Proof. unfold lift. now inversion 1. Qed.

Lemma ret_inv {A} (a : A) w o w' :
  ret a w = (o, w') -> o = Return a /\ w' = w.
Proof. unfold ret. now inversion 1. Qed.

Lemma fail_if_inv (x : option exn) w o w' :
  fail_if x w = (o, w') ->
  w' = w /\ forall u, o = Return u -> x = None.
Proof.
  destruct x; unfold fail_if, raise, ret; intros [= <- <-];
    split; auto; discriminate.
Qed.

(** The next step of a body that returned, and an early [return]. *)
Tactic Notation "next" hyp(H) "as" simple_intropattern(x)
    simple_intropattern(w) simple_intropattern(Hx) :=
  apply bind_inv in H as [(x & w & Hx & H)|(? & _ & [=])].

Tactic Notation "early_return" hyp(H) :=
  apply ret_inv in H as [[= -> ->] <-].

(** One iteration of the loop: the image is decoded, the file written
    and the stream closed again. *)
Lemma save_one_inv env filepath image_bytes w o w' :
  with_open env filepath WriteBinary (fun f => write env f image_bytes) w = (o, w') ->
  remote_calls w' = remote_calls w
  /\ (forall p, saved w p -> saved w' p)
  /\ (forall u, o = Return u ->
        files w' !! filepath = Some image_bytes
        /\ open_error env filepath WriteBinary = None).
Proof.
  unfold with_open, bind, open, finally, write, saved.
  destruct (open_error env filepath WriteBinary) as [e|].
  - intros [= <- <-]. repeat split; auto; discriminate.
  - cbv beta iota. cbn [streams files next_handle remote_calls].
    rewrite lookup_insert_eq.
    destruct (write_error env filepath image_bytes) as [e|];
      intros [= <- <-]; cbn [streams files next_handle remote_calls close_world];
      split; [reflexivity| |reflexivity|]; (split; [|try discriminate]).
    + intros p Hp. rewrite lookup_insert_is_Some. destruct (decide (filepath = p)); auto.
    + intros p Hp. rewrite !lookup_insert_is_Some.
      destruct (decide (filepath = p)); auto.
    + intros _ _. split; [apply lookup_insert_eq|reflexivity].
Qed.

Lemma save_images_inv env filename items : forall i acc w o w',
  save_images env filename i items acc w = (o, w') ->
  remote_calls w' = remote_calls w
  /\ (forall p, saved w p -> saved w' p)
  /\ (forall paths, o = Return paths ->
        paths = acc ++ imap (fun k _ => filepath_at filename (i + Z.of_nat k)) items
        /\ Forall (stored env w')
             (imap (fun k _ => filepath_at filename (i + Z.of_nat k)) items)).
Proof.
  induction items as [|image_data rest IH]; intros i acc w o w' H.
  - apply ret_inv in H as [-> ->]. split; [reflexivity|]. split; [auto|].
    intros paths [= <-]. cbn. rewrite app_nil_r. split; [reflexivity|constructor].
  - cbn [save_images] in H.
    apply bind_inv in H as [(image_bytes & w1 & Hd & H)|(e & Hd & ->)].
    2:{ apply lift_inv in Hd as [_ ->]. split; [reflexivity|]. split; [auto|discriminate]. }
    apply lift_inv in Hd as [_ ->].
    apply bind_inv in H as [(u & w2 & Hw & H)|(e & Hw & ->)].
    2:{ apply save_one_inv in Hw as (? & ? & ?). split; [auto|]. split; [auto|discriminate]. }
    apply save_one_inv in Hw as (Hr & Hmono & Hfile).
    apply IH in H as (Hr' & Hmono' & Hpaths).
    split; [congruence|]. split; [auto|].
    intros paths ->. destruct (Hpaths paths eq_refl) as [-> Hall].
    destruct (Hfile u eq_refl) as [Hfile' Hopen].
    assert (Hshift : imap (fun k _ => filepath_at filename (i + Z.of_nat (S k))) rest
                     = imap (fun k _ => filepath_at filename (i + 1 + Z.of_nat k)) rest).
    { apply imap_ext. intros k x _. cbn beta. f_equal. lia. }
    rewrite imap_cons. unfold compose. rewrite Hshift.
    replace (i + Z.of_nat 0) with i by lia.
    split.
    + rewrite <- app_assoc. reflexivity.
    + constructor; [|exact Hall].
      split; [exact Hopen|].
      apply Hmono'. unfold saved, filepath_at.
      rewrite Hfile'. eauto.
Qed.

Lemma images_generate_inv env p w o w' :
  images_generate env p w = (o, w') ->
  o = generate_response env p
  /\ remote_calls w' = remote_calls w ++ [CallGenerate p]
  /\ files w' = files w /\ streams w' = streams w.
Proof. unfold images_generate. intros [= <- <-]. auto. Qed.

Lemma iterate_inv d w o w' :
  iterate d w = (o, w') ->
  w' = w /\ forall items, o = Return items -> d = Some items.
Proof.
  destruct d; cbn; intros [= <- <-]; split; auto; [congruence|discriminate].
Qed.

Lemma input_tokens_details_inv u w o w' :
  input_tokens_details u w = (o, w') ->
  w' = w /\ forall v, o = Return v -> u = Some v.
Proof.
  destruct u; cbn; intros [= <- <-]; split; auto; [congruence|discriminate].
Qed.

(** What a call of [generate_image] that returns has done: either it
    reports an error with no paths, or every step of the body went
    through. *)
Lemma generate_image_inv env prompt background model moderation n
    output_compression output_format quality size w paths report w' :
  generate_image env prompt background model moderation n output_compression
    output_format quality size w = (Return (paths, report), w') ->
  (paths = [] /\ generate_error_report report)
  \/ (exists response items u c created_text per_image,
        let params :=
          {| gp_model := model; gp_prompt := prompt;
             gp_background := background; gp_moderation := moderation;
             gp_n := n; gp_output_compression := output_compression;
             gp_output_format := output_format; gp_quality := quality;
             gp_size := size |} in
        let extension :=
          if eqb output_format (lit "jpeg") then lit "jpg" else output_format in
        truthy (strip prompt) = true
        /\ truthy_opt (config_get env OPENAI_API_KEY) = true
        /\ generate_response env params = Return response
        /\ remote_calls w' = remote_calls w ++ [CallGenerate params]
        /\ data response = Some items
        /\ usage response = Some u
        /\ paths = imap (fun k _ =>
                           filepath_at (generate_filename (created response) extension)
                             (Z.of_nat k)) items
        /\ makedirs_error env (lit "generated_images") = None
        /\ Forall (stored env w') paths
        /\ generate_costs u = Return c
        /\ strftime_local env (created response) = Return created_text
        /\ float_div_int (total_cost c) (len paths) = Return per_image
        /\ report = generation_info env model paths quality size output_format
                      background output_compression created_text u c per_image
                      prompt).
Proof.
  unfold generate_image, try_except, generate_error_report. intros H.
  destruct (truthy (strip prompt)) eqn:Hprompt; unfold negb in H; cbv iota in H.
  2:{ early_return H. left. split; [reflexivity|]. now left. }
  destruct (config_get env OPENAI_API_KEY) as [api_key|] eqn:Hkey.
  2:{ early_return H. left. split; [reflexivity|].
      right. now left. }
  destruct (truthy api_key) eqn:Htruthy; unfold negb in H; cbv iota in H.
  2:{ early_return H. left. split; [reflexivity|].
      right. now left. }
  match type of H with
  | match ?body with _ => _ end = _ => destruct body as [[r|e] w1] eqn:Hbody
  end.
  2:{ early_return H. left. split; [reflexivity|].
      right. right. now exists e. }
  injection H as -> ->. right.
  next Hbody as ? w2 Hclient.
  apply fail_if_inv in Hclient as [-> _].
  next Hbody as response w3 Hcall.
  apply images_generate_inv in Hcall as (Hresp & Hcalls & _ & _).
  next Hbody as ? w4 Hdir.
  apply fail_if_inv in Hdir as [-> Hdir]. specialize (Hdir _ eq_refl).
  next Hbody as items w5 Hdata.
  apply iterate_inv in Hdata as [-> Hdata]. specialize (Hdata _ eq_refl).
  next Hbody as image_paths w6 Hsave.
  apply save_images_inv in Hsave as (Hcalls' & _ & Hpaths).
  destruct (Hpaths _ eq_refl) as [Hp Hsaved]. cbn [app] in Hp.
  next Hbody as u w7 Hu.
  apply input_tokens_details_inv in Hu as [-> Hu]. specialize (Hu _ eq_refl).
  next Hbody as c w8 Hc.
  apply lift_inv in Hc as [Hc ->].
  next Hbody as created_text w9 Ht.
  apply lift_inv in Ht as [Ht ->].
  next Hbody as per_image w10 Hdiv.
  apply lift_inv in Hdiv as [Hdiv ->].
  early_return Hbody.
  exists response, items, u, c, created_text, per_image. cbv zeta.
  split_and!; try assumption; try reflexivity; congruence.
Qed.

(** Steps that leave the files and the log of remote calls alone. *)
Lemma same_files_refl w : same_files w w.
Proof. now split. Qed.

Lemma same_files_trans w1 w2 w3 :
  same_files w1 w2 -> same_files w2 w3 -> same_files w1 w3.
Proof. intros [? ?] [? ?]. split; congruence. Qed.

Lemma open_read_inv env path w o w' :
  open env path ReadBinary w = (o, w') -> same_files w w'.
Proof.
  unfold open. destruct (open_error env path ReadBinary);
    intros [= <- <-]; now split.
Qed.

Lemma close_inv h w o w' : close h w = (o, w') -> o = Return tt /\ same_files w w'.
Proof. unfold close. intros [= <- <-]. split; [reflexivity|now split]. Qed.

Lemma open_all_inv env paths : forall w o w',
  open_all env paths w = (o, w') -> same_files w w'.
Proof.
  induction paths as [|p rest IH]; intros w o w' H.
  - apply ret_inv in H as [_ ->]. apply same_files_refl.
  - cbn [open_all] in H.
    apply bind_inv in H as [(f & w1 & Ho & H)|(e & Ho & _)];
      apply open_read_inv in Ho; [|exact Ho].
    apply bind_inv in H as [(fs & w2 & Hr & H)|(e & Hr & _)];
      apply IH in Hr; [|eapply same_files_trans; eauto].
    apply ret_inv in H as [_ ->]. eapply same_files_trans; eauto.
Qed.

Lemma close_all_inv images : forall w o w',
  close_all images w = (o, w') -> o = Return tt /\ same_files w w'.
Proof.
  induction images as [|img rest IH]; intros w o w' H.
  - apply ret_inv in H as [-> ->]. split; [reflexivity|apply same_files_refl].
  - cbn [close_all] in H.
    apply bind_inv in H as [(u & w1 & Hc & H)|(e & Hc & _)];
      apply close_inv in Hc as [Hc Hs]; [|discriminate].
    apply IH in H as [-> H]. split; [reflexivity|].
    eapply same_files_trans; eauto.
Qed.

Lemma open_images_inv env image_files w o w' :
  open_images env image_files w = (o, w') -> same_files w w'.
Proof.
  destruct image_files as [|path|paths]; cbn [open_images]; intros H.
  - unfold raise in H. injection H as <- <-. apply same_files_refl.
  - apply bind_inv in H as [(f & w1 & Ho & H)|(e & Ho & _)];
      apply open_read_inv in Ho; [|exact Ho].
    apply ret_inv in H as [_ ->]. exact Ho.
  - eapply open_all_inv; eauto.
Qed.

Lemma image_param_inv images image_count w o w' :
  image_param images image_count w = (o, w') -> w' = w.
Proof.
  unfold image_param. destruct (1 <? image_count); [|destruct images];
    unfold ret, raise; now intros [= <- <-].
Qed.

Lemma open_mask_inv env mask_file w o w' :
  open_mask env mask_file w = (o, w') -> same_files w w'.
Proof.
  unfold open_mask. destruct mask_file as [path|]; [destruct (truthy path)|];
    intros H.
  - apply bind_inv in H as [(f & w1 & Ho & H)|(e & Ho & _)];
      apply open_read_inv in Ho; [|exact Ho].
    apply ret_inv in H as [_ ->]. exact Ho.
  - apply ret_inv in H as [_ ->]. apply same_files_refl.
  - apply ret_inv in H as [_ ->]. apply same_files_refl.
Qed.

Lemma close_mask_inv mask w o w' :
  close_mask mask w = (o, w') -> o = Return tt /\ same_files w w'.
Proof.
  destruct mask; cbn [close_mask]; intros H.
  - now apply close_inv in H.
  - apply ret_inv in H as [-> ->]. split; [reflexivity|apply same_files_refl].
Qed.

Lemma images_edit_inv env p w o w' :
  images_edit env p w = (o, w') ->
  o = edit_response env p
  /\ remote_calls w' = remote_calls w ++ [CallEdit p]
  /\ files w' = files w /\ streams w' = streams w.
Proof. unfold images_edit. intros [= <- <-]. auto. Qed.

(** The same for [edit_image]. *)
Lemma edit_image_inv env image_files prompt background mask_file model n
    quality size w paths report w' :
  edit_image env image_files prompt background mask_file model n quality size w
    = (Return (paths, report), w') ->
  (paths = [] /\ edit_error_report report)
  \/ (exists (images : list handle) image mask response items u c created_text
        per_image,
        let params :=
          {| ep_model := model; ep_image := image; ep_prompt := prompt;
             ep_background := background; ep_n := n; ep_quality := quality;
             ep_size := size; ep_mask := mask |} in
        is_None image_files = false
        /\ truthy (strip prompt) = true
        /\ truthy_opt (config_get env OPENAI_API_KEY) = true
        /\ edit_response env params = Return response
        /\ remote_calls w' = remote_calls w ++ [CallEdit params]
        /\ data response = Some items
        /\ usage response = Some u
        /\ paths = imap (fun k _ =>
                           filepath_at (edited_filename (created response))
                             (Z.of_nat k)) items
        /\ makedirs_error env (lit "generated_images") = None
        /\ Forall (stored env w') paths
        /\ edit_costs u = Return c
        /\ strftime_local env (created response) = Return created_text
        /\ float_div_int (total_cost c) (len paths) = Return per_image
        /\ report = edit_info model (len images) paths quality size background
                      mask_file created_text u c per_image prompt).
Proof.
  unfold edit_image, try_except, edit_error_report. intros H.
  destruct (is_None image_files) eqn:Hfiles.
  { early_return H. left. split; [reflexivity|]. now left. }
  destruct (truthy (strip prompt)) eqn:Hprompt; unfold negb in H; cbv iota in H.
  2:{ early_return H. left. split; [reflexivity|].
      right. now left. }
  destruct (config_get env OPENAI_API_KEY) as [api_key|] eqn:Hkey.
  2:{ early_return H. left. split; [reflexivity|].
      right. right. now left. }
  destruct (truthy api_key) eqn:Htruthy; unfold negb in H; cbv iota in H.
  2:{ early_return H. left. split; [reflexivity|].
      right. right. now left. }
  match type of H with
  | match ?body with _ => _ end = _ => destruct body as [[r|e] w1] eqn:Hbody
  end.
  2:{ early_return H. left. split; [reflexivity|].
      right. right. right. now exists e. }
  injection H as -> ->. right.
  next Hbody as ? w2 Hclient.
  apply fail_if_inv in Hclient as [-> _].
  next Hbody as images w3 Himages.
  apply open_images_inv in Himages as [_ Hc3].
  next Hbody as image w4 Himage.
  apply image_param_inv in Himage as ->.
  next Hbody as mask w5 Hmask.
  apply open_mask_inv in Hmask as [_ Hc5].
  next Hbody as response w6 Hcall.
  apply images_edit_inv in Hcall as (Hresp & Hc6 & _ & _).
  next Hbody as ? w7 Hclose.
  apply close_all_inv in Hclose as [_ [_ Hc7]].
  next Hbody as ? w8 Hclosem.
  apply close_mask_inv in Hclosem as [_ [_ Hc8]].
  next Hbody as ? w9 Hdir.
  apply fail_if_inv in Hdir as [-> Hdir]. specialize (Hdir _ eq_refl).
  next Hbody as items w10 Hdata.
  apply iterate_inv in Hdata as [-> Hdata]. specialize (Hdata _ eq_refl).
  next Hbody as image_paths w11 Hsave.
  apply save_images_inv in Hsave as (Hc11 & _ & Hpaths).
  destruct (Hpaths _ eq_refl) as [Hp Hsaved]. cbn [app] in Hp.
  next Hbody as u w12 Hu.
  apply input_tokens_details_inv in Hu as [-> Hu]. specialize (Hu _ eq_refl).
  next Hbody as c w13 Hc.
  apply lift_inv in Hc as [Hc ->].
  next Hbody as created_text w14 Ht.
  apply lift_inv in Ht as [Ht ->].
  next Hbody as per_image w15 Hdiv.
  apply lift_inv in Hdiv as [Hdiv ->].
  early_return Hbody.
  exists images, image, mask, response, items, u, c, created_text, per_image.
  cbv zeta.
  split_and!; try assumption; try reflexivity; congruence.
Qed.

(** A [try] whose handler returns a value returns on every path. *)
Lemma try_except_returns {A} (body : M A) (h : exn -> A) w :
  exists a w', try_except body (fun e => ret (h e)) w = (Return a, w').
Proof.
  unfold try_except. destruct (body w) as [[a|e] w1]; unfold ret; eauto.
Qed.

(** Division of a float by the [int] 0 raises. *)
Lemma float_div_int_zero x :
  float_div_int x 0
  = Raise (Exn ZeroDivisionError (lit "float division by zero")).
Proof. reflexivity. Qed.

Lemma division_needs_paths x (paths : list pystr) y :
  float_div_int x (len paths) = Return y -> paths <> [].
Proof.
  intros H ->. change (len []) with 0 in H.
  rewrite float_div_int_zero in H. discriminate.
Qed.

(** *** Substrings *)

Lemma contains_here (a t b : pystr) : contains (a ++ t ++ b) t.
Proof. now exists a, b. Qed.

Lemma contains_refl (t : pystr) : contains t t.
Proof. exists [], []. now rewrite app_nil_r. Qed.

Lemma contains_end (a t : pystr) : contains (a ++ t) t.
Proof. exists a, []. now rewrite app_nil_r. Qed.

Lemma contains_app_l (s s' t : pystr) : contains s t -> contains (s ++ s') t.
Proof.
  intros (pre & post & ->). exists pre, (post ++ s'). now rewrite <- !app_assoc.
Qed.

Lemma contains_app_r (s s' t : pystr) : contains s' t -> contains (s ++ s') t.
Proof.
  intros (pre & post & ->). exists (s ++ pre), post. now rewrite <- app_assoc.
Qed.

Lemma contains_lines (ls : list pystr) (l t : pystr) :
  In l ls -> contains l t -> contains (lines ls) t.
Proof.
  unfold lines. induction ls as [|l0 ls IH]; intros Hin Hc; [destruct Hin|].
  cbn [map concat]. destruct Hin as [->|Hin].
  - apply contains_app_l, contains_app_l, Hc.
  - apply contains_app_r, IH; assumption.
Qed.

Lemma startswith_app (t s : pystr) : startswith (t ++ s) t = true.
Proof. induction t as [|a t IH]; cbn; [reflexivity|]. now rewrite N.eqb_refl. Qed.

Lemma containsb_complete (s t : pystr) : contains s t -> containsb s t = true.
Proof.
  intros (pre & post & ->). induction pre as [|a pre IH].
  - cbn [app]. destruct (t ++ post) eqn:E; cbn [containsb];
      rewrite <- E, startswith_app; reflexivity.
  - cbn [app containsb]. rewrite IH. apply orb_true_r.
Qed.

Lemma startswith_inv (t : pystr) : forall s,
  startswith s t = true -> exists post, s = t ++ post.
Proof.
  induction t as [|a t IH]; intros s H; [now exists s|].
  destruct s as [|b s]; cbn in H; [discriminate|].
  apply andb_true_iff in H as [Hab H]. apply N.eqb_eq in Hab as ->.
  destruct (IH s H) as [post ->]. now exists post.
Qed.

Lemma containsb_sound (t s : pystr) : containsb s t = true -> contains s t.
Proof.
  induction s as [|b s IH]; cbn [containsb]; intros H.
  - rewrite orb_false_r in H. apply startswith_inv in H as [post ->].
    now exists [], post.
  - apply orb_true_iff in H as [H|H].
    + apply startswith_inv in H as [post ->]. now exists [], post.
    + destruct (IH H) as (pre & post & ->). now exists (b :: pre), post.
Qed.

Lemma not_contains (s t : pystr) : containsb s t = false -> ~ contains s t.
Proof. intros Hb Hc. apply containsb_complete in Hc. congruence. Qed.

Lemma generate_image_returns env prompt background model moderation n
    output_compression output_format quality size w :
  exists r w',
    generate_image env prompt background model moderation n output_compression
      output_format quality size w = (Return r, w').
Proof. unfold generate_image. apply try_except_returns. Qed.

Lemma edit_image_returns env image_files prompt background mask_file model n
    quality size w :
  exists r w',
    edit_image env image_files prompt background mask_file model n quality
      size w = (Return r, w').
Proof. unfold edit_image. apply try_except_returns. Qed.

(** *** File names *)

Lemma path_join_relative (a b : pystr) :
  startswith b (lit "/") = false ->
  negb (truthy a) || endswith a (lit "/") = false ->
  path_join a b = a ++ lit "/" ++ b.
Proof. intros Hb Ha. unfold path_join. now rewrite Hb, Ha. Qed.

Lemma filepath_generated ts ext k :
  filepath_at (generate_filename ts ext) k
  = lit "generated_images/generated_" ++ str_of_int ts ++ lit "_"
    ++ str_of_int (k + 1) ++ lit "." ++ ext.
Proof.
  unfold filepath_at, generate_filename.
  rewrite path_join_relative; [|reflexivity|reflexivity].
  change (lit "generated_images/generated_")
    with (lit "generated_images" ++ lit "/" ++ lit "generated_").
  now rewrite <- !app_assoc.
Qed.

Lemma filepath_edited ts k :
  filepath_at (edited_filename ts) k
  = lit "generated_images/edited_" ++ str_of_int ts ++ lit "_"
    ++ str_of_int (k + 1) ++ lit ".png".
Proof.
  unfold filepath_at, edited_filename.
  rewrite path_join_relative; [|reflexivity|reflexivity].
  change (lit "generated_images/edited_")
    with (lit "generated_images" ++ lit "/" ++ lit "edited_").
  now rewrite <- !app_assoc.
Qed.

Lemma imap_lookup_const {A B} (f : nat -> B) (l : list A) k y :
  imap (fun i _ => f i) l !! k = Some y -> y = f k.
Proof.
  rewrite list_lookup_imap. destruct (l !! k); cbn; congruence.
Qed.

(** *** Costs *)

Lemma obind_inv {A B} (o : outcome A) (k : A -> outcome B) b :
  obind o k = Return b -> exists a, o = Return a /\ k a = Return b.
Proof. destruct o as [a|e]; cbn; [eauto|discriminate]. Qed.

Lemma float_div_int_inv x k y :
  float_div_int x k = Return y ->
  exists d, float_of_int k = Return d /\ y = fdiv x d.
Proof.
  unfold float_div_int. destruct (float_of_int k) as [d|e]; [|discriminate].
  destruct d; intros [= <-]; eauto.
Qed.

(** *** Error reports and success reports *)

Lemma generate_error_report_unmarked report :
  generate_error_report report -> startswith report success_mark = false.
Proof.
  intros [->|[->|[e ->]]]; vm_compute; reflexivity.
Qed.

Lemma edit_error_report_unmarked report :
  edit_error_report report -> startswith report success_mark = false.
Proof.
  intros [->|[->|[->|[e ->]]]]; vm_compute; reflexivity.
Qed.

(** *** Failures of the service *)

(** When the service fails, [generate_image] reports the failure; the
    call is on the log. *)
Lemma generate_image_service_failure env prompt background model moderation n
    output_compression output_format quality size w api_key e :
  truthy (strip prompt) = true ->
  config_get env OPENAI_API_KEY = Some api_key ->
  truthy api_key = true ->
  OpenAI_error env api_key = None ->
  generate_response env
    {| gp_model := model; gp_prompt := prompt; gp_background := background;
       gp_moderation := moderation; gp_n := n;
       gp_output_compression := output_compression;
       gp_output_format := output_format; gp_quality := quality;
       gp_size := size |}
  = Raise e ->
  exists w',
    generate_image env prompt background model moderation n output_compression
      output_format quality size w
    = (Return ([], generation_failed e), w')
    /\ files w' = files w /\ length (remote_calls w') = S (length (remote_calls w)).
Proof.
  intros Hprompt Hkey Htruthy Hclient Hservice.
  unfold generate_image, try_except.
  rewrite Hprompt, Hkey, Htruthy.
  cbv beta iota delta [negb bind OpenAI fail_if]. rewrite Hclient.
  cbv beta iota zeta delta [ret bind images_generate].
  rewrite Hservice. eexists. split; [reflexivity|].
  cbn [files remote_calls]. split; [reflexivity|].
  rewrite length_app. cbn [length]. lia.
Qed.

(** ** The operations never raise *)

(** C1. For every input, [generate_image] and [edit_image] return to
    the caller and never raise.  The result is either no path and an
    error report, or the success report and the list of the paths of the
    files the call has stored; the latter only when nothing failed: the
    service answered the call, the directory was made and every file
    was opened and written. *)
Theorem generate_edit_never_raise :
  (forall env prompt background model moderation n output_compression
      output_format quality size w,
    exists paths report w',
      generate_image env prompt background model moderation n
        output_compression output_format quality size w
      = (Return (paths, report), w')
      /\ (paths = [] /\ generate_error_report report
          \/ paths <> []
             /\ (exists response,
                generate_response env
                  {| gp_model := model; gp_prompt := prompt;
                     gp_background := background; gp_moderation := moderation;
                     gp_n := n; gp_output_compression := output_compression;
                     gp_output_format := output_format; gp_quality := quality;
                     gp_size := size |}
                = Return response)
             /\ makedirs_error env (lit "generated_images") = None
             /\ Forall (stored env w') paths
             /\ exists created_text u c per_image,
                 report = generation_info env model paths quality size
                            output_format background output_compression
                            created_text u c per_image prompt))
  /\ (forall env image_files prompt background mask_file model n quality size w,
      exists paths report w',
        edit_image env image_files prompt background mask_file model n
          quality size w
        = (Return (paths, report), w')
        /\ (paths = [] /\ edit_error_report report
            \/ paths <> []
               /\ (exists image mask response,
                    edit_response env
                      {| ep_model := model; ep_image := image;
                         ep_prompt := prompt; ep_background := background;
                         ep_n := n; ep_quality := quality; ep_size := size;
                         ep_mask := mask |}
                    = Return response)
               /\ makedirs_error env (lit "generated_images") = None
               /\ Forall (stored env w') paths
               /\ exists image_count created_text u c per_image,
                   report = edit_info model image_count paths quality size
                              background mask_file created_text u c per_image
                              prompt)).
Proof.
  split; intros.
  - destruct (generate_image_returns env prompt background model moderation n
                output_compression output_format quality size w)
      as ([paths report] & w' & H).
    exists paths, report, w'. split; [exact H|].
    apply generate_image_inv in H as [H|H]; [now left|right].
    destruct H as (response & items & u & c & created_text & per_image & H).
    cbv zeta in H. destruct H as
      (Hprompt & Hkey & Hresp & Hcalls & Hdata & Hu & Hpaths & Hdir & Hstored & Hc
      & Ht & Hdiv & Hrep).
    split; [exact (division_needs_paths _ _ _ Hdiv)|].
    split; [now exists response|]. split; [exact Hdir|]. split; [exact Hstored|].
    now exists created_text, u, c, per_image.
  - destruct (edit_image_returns env image_files prompt background mask_file
                model n quality size w) as ([paths report] & w' & H).
    exists paths, report, w'. split; [exact H|].
    apply edit_image_inv in H as [H|H]; [now left|right].
    destruct H as (images & image & mask & response & items & u & c
                   & created_text & per_image & H).
    cbv zeta in H.
    destruct H as
      (Hfiles & Hprompt & Hkey & Hresp & Hcalls & Hdata & Hu & Hpaths & Hdir
      & Hstored & Hc & Ht & Hdiv & Hrep).
    split; [exact (division_needs_paths _ _ _ Hdiv)|].
    split; [exists image, mask, response; exact Hresp|]. split; [exact Hdir|].
    split; [exact Hstored|].
    now exists (len images), created_text, u, c, per_image.
Qed.

(** ** Input validation *)

(** C5. A prompt that is empty after trimming whitespace makes
    [generate_image] return no path and an error report, and so does an
    empty edit instruction for [edit_image], whatever the other
    parameters are; the image service is not called. *)
Theorem empty_prompt_rejected :
  forall prompt, strip prompt = [] ->
  (forall env background model moderation n output_compression output_format
      quality size w,
    exists report w',
      generate_image env prompt background model moderation n
        output_compression output_format quality size w
      = (Return ([], report), w')
      /\ generate_error_report report
      /\ remote_calls w' = remote_calls w)
  /\ (forall env image_files background mask_file model n quality size w,
      exists report w',
        edit_image env image_files prompt background mask_file model n
          quality size w
        = (Return ([], report), w')
        /\ edit_error_report report
        /\ remote_calls w' = remote_calls w).
Proof.
  intros prompt Hempty. split; intros.
  - exists prompt_empty, w. unfold generate_image, try_except.
    rewrite Hempty. cbv beta iota delta [truthy negb ret].
    split; [reflexivity|]. split; [now left|reflexivity].
  - unfold edit_image, try_except. rewrite Hempty.
    destruct image_files as [|path|paths];
      cbv beta iota delta [is_None truthy negb ret].
    + exists upload_an_image, w.
      split; [reflexivity|]. split; [now left|reflexivity].
    + exists edit_prompt_empty, w.
      split; [reflexivity|]. split; [right; now left|reflexivity].
    + exists edit_prompt_empty, w.
      split; [reflexivity|]. split; [right; now left|reflexivity].
Qed.

Lemma empty_prompt_rejected_witness :
  strip (lit "  ") = []
  /\ exists report w',
       generate_image (demo_env demo_config (Return (demo_response 1)))
         (lit "  ") (lit "auto") (lit "gpt-image-1") (lit "low") 1 85
         (lit "jpeg") (lit "medium") (lit "auto") empty_world
       = (Return ([], report), w')
       /\ generate_error_report report
       /\ remote_calls w' = remote_calls empty_world.
Proof.
  split; [reflexivity|].
  apply (empty_prompt_rejected (lit "  ")). reflexivity.
Defined.

(** C6. When the configuration holds no API credential, both operations
    return no path and an error report for every input, and the image
    service is not called. *)
Theorem missing_credential_rejected :
  forall env, config env !! OPENAI_API_KEY = None ->
  (forall prompt background model moderation n output_compression
      output_format quality size w,
    exists report w',
      generate_image env prompt background model moderation n
        output_compression output_format quality size w
      = (Return ([], report), w')
      /\ generate_error_report report
      /\ remote_calls w' = remote_calls w)
  /\ (forall image_files prompt background mask_file model n quality size w,
      exists report w',
        edit_image env image_files prompt background mask_file model n
          quality size w
        = (Return ([], report), w')
        /\ edit_error_report report
        /\ remote_calls w' = remote_calls w).
Proof.
  intros env Hkey. split; intros.
  - unfold generate_image, try_except, config_get. rewrite Hkey.
    destruct (truthy (strip prompt)); cbv beta iota delta [negb ret].
    + exists key_not_found, w.
      split; [reflexivity|]. split; [right; now left|reflexivity].
    + exists prompt_empty, w.
      split; [reflexivity|]. split; [now left|reflexivity].
  - unfold edit_image, try_except, config_get. rewrite Hkey.
    destruct (is_None image_files); cbv beta iota delta [ret].
    { exists upload_an_image, w.
      split; [reflexivity|]. split; [now left|reflexivity]. }
    destruct (truthy (strip prompt)); cbv beta iota delta [negb ret].
    + exists key_not_found, w.
      split; [reflexivity|]. split; [right; right; now left|reflexivity].
    + exists edit_prompt_empty, w.
      split; [reflexivity|]. split; [right; now left|reflexivity].
Qed.

Lemma missing_credential_rejected_witness :
  config (demo_env ∅ (Return (demo_response 1))) !! OPENAI_API_KEY = None
  /\ exists report w',
       edit_image (demo_env ∅ (Return (demo_response 1)))
         (OneFile (lit "photo.png")) (lit "Add a rainbow") (lit "auto") None
         (lit "gpt-image-1") 1 (lit "medium") (lit "auto") empty_world
       = (Return ([], report), w')
       /\ edit_error_report report
       /\ remote_calls w' = remote_calls empty_world.
Proof.
  split; [reflexivity|].
  apply (missing_credential_rejected (demo_env ∅ (Return (demo_response 1)))).
  reflexivity.
Defined.

(** C7. [edit_image] called with no source image, [None] or an empty
    list, returns no path and an error report, and the image service is
    not called. *)
Theorem no_source_image_rejected :
  forall env image_files prompt background mask_file model n quality size w,
  no_source_images image_files ->
  exists report w',
    edit_image env image_files prompt background mask_file model n quality
      size w
    = (Return ([], report), w')
    /\ edit_error_report report
    /\ remote_calls w' = remote_calls w.
Proof.
  intros env image_files prompt background mask_file model n quality size w
    [->| ->]; unfold edit_image, try_except;
    cbv beta iota delta [is_None ret].
  - exists upload_an_image, w.
    split; [reflexivity|]. split; [now left|reflexivity].
  - destruct (truthy (strip prompt)); cbv beta iota delta [negb ret].
    2:{ exists edit_prompt_empty, w.
        split; [reflexivity|]. split; [right; now left|reflexivity]. }
    destruct (config_get env OPENAI_API_KEY) as [api_key|].
    2:{ exists key_not_found, w.
        split; [reflexivity|]. split; [right; right; now left|reflexivity]. }
    destruct (truthy api_key); cbv beta iota delta [negb ret].
    2:{ exists key_not_found, w.
        split; [reflexivity|]. split; [right; right; now left|reflexivity]. }
    unfold bind at 1, OpenAI. destruct (OpenAI_error env api_key) as [e|];
      cbv beta iota delta [fail_if raise ret].
    + exists (edit_failed e), w.
      split; [reflexivity|]. split; [|reflexivity].
      right; right; right. now exists e.
    + exists (edit_failed (Exn IndexError (lit "list index out of range"))), w.
      split; [reflexivity|]. split; [|reflexivity].
      right; right; right. eauto.
Qed.

Lemma no_source_image_rejected_witness :
  no_source_images (FileList [])
  /\ exists report w',
       edit_image (demo_env demo_config (Return (demo_response 1)))
         (FileList []) (lit "Add a rainbow") (lit "auto") None
         (lit "gpt-image-1") 1 (lit "medium") (lit "auto") empty_world
       = (Return ([], report), w')
       /\ edit_error_report report
       /\ remote_calls w' = remote_calls empty_world.
Proof.
  split; [now right|].
  apply (no_source_image_rejected (demo_env demo_config (Return (demo_response 1)))).
  now right.
Defined.

(** ** Names of the saved files *)

(** C8. Every path returned by [generate_image] is
    [generated_images/generated_{timestamp}_{n}.{ext}], with [ext] being
    [jpg] for the format [jpeg] and the format itself otherwise, and
    every path returned by [edit_image] is
    [generated_images/edited_{timestamp}_{n}.png]; [n] counts from 1. *)
Theorem saved_paths_follow_naming_scheme :
  (forall env prompt background model moderation n output_compression
      output_format quality size w paths report w',
    generate_image env prompt background model moderation n
      output_compression output_format quality size w
    = (Return (paths, report), w') ->
    exists timestamp extension,
      (output_format = lit "jpeg" -> extension = lit "jpg")
      /\ (output_format <> lit "jpeg" -> extension = output_format)
      /\ forall k path, paths !! k = Some path ->
           path = lit "generated_images/generated_" ++ str_of_int timestamp
                  ++ lit "_" ++ str_of_int (Z.of_nat k + 1) ++ lit "."
                  ++ extension)
  /\ (forall env image_files prompt background mask_file model n quality size
        w paths report w',
      edit_image env image_files prompt background mask_file model n quality
        size w
      = (Return (paths, report), w') ->
      exists timestamp,
        forall k path, paths !! k = Some path ->
          path = lit "generated_images/edited_" ++ str_of_int timestamp
                 ++ lit "_" ++ str_of_int (Z.of_nat k + 1) ++ lit ".png").
Proof.
  split.
  - intros env prompt background model moderation n output_compression
      output_format quality size w paths report w' H.
    assert (Hext :
      let extension :=
        if eqb output_format (lit "jpeg") then lit "jpg" else output_format in
      (output_format = lit "jpeg" -> extension = lit "jpg")
      /\ (output_format <> lit "jpeg" -> extension = output_format)).
    { unfold eqb. cbv zeta. case_bool_decide; split; intros; congruence. }
    apply generate_image_inv in H as [[-> _]|H].
    + exists 0, (if eqb output_format (lit "jpeg") then lit "jpg" else output_format).
      split; [apply Hext|]. split; [apply Hext|].
      intros k path Hk. rewrite lookup_nil in Hk. discriminate.
    + destruct H as (response & items & u & c & created_text & per_image & H).
      cbv zeta in H. destruct H as
      (Hprompt & Hkey & Hresp & Hcalls & Hdata & Hu & Hpaths & Hdir & Hstored & Hc
      & Ht & Hdiv & Hrep).
      exists (created response),
        (if eqb output_format (lit "jpeg") then lit "jpg" else output_format).
      split; [apply Hext|]. split; [apply Hext|].
      intros k path Hk. rewrite Hpaths in Hk. apply imap_lookup_const in Hk as ->.
      apply filepath_generated.
  - intros env image_files prompt background mask_file model n quality size
      w paths report w' H.
    apply edit_image_inv in H as [[-> _]|H].
    + exists 0. intros k path Hk. rewrite lookup_nil in Hk. discriminate.
    + destruct H as (images & image & mask & response & items & u & c
                     & created_text & per_image & H).
      cbv zeta in H. destruct H as
      (Hfiles & Hprompt & Hkey & Hresp & Hcalls & Hdata & Hu & Hpaths & Hdir
      & Hstored & Hc & Ht & Hdiv & Hrep).
      exists (created response).
      intros k path Hk. rewrite Hpaths in Hk. apply imap_lookup_const in Hk as ->.
      apply filepath_edited.
Qed.

Lemma saved_paths_follow_naming_scheme_witness :
  fst (demo_generate 2 2 (lit "jpeg"))
  = Return (returned (demo_generate 2 2 (lit "jpeg")) ([], []))
  /\ length (fst (returned (demo_generate 2 2 (lit "jpeg")) ([], []))) = 2%nat
  /\ exists timestamp extension,
       (lit "jpeg" = lit "jpeg" -> extension = lit "jpg")
       /\ (lit "jpeg" <> lit "jpeg" -> extension = lit "jpeg")
       /\ forall k path,
            fst (returned (demo_generate 2 2 (lit "jpeg")) ([], [])) !! k
            = Some path ->
            path = lit "generated_images/generated_" ++ str_of_int timestamp
                   ++ lit "_" ++ str_of_int (Z.of_nat k + 1) ++ lit "."
                   ++ extension.
Proof.
  split; [vm_compute; reflexivity|]. split; [vm_compute; reflexivity|].
  apply (proj1 saved_paths_follow_naming_scheme
           (demo_env demo_config (Return (demo_response 2)))
           (lit "A serene mountain lake") (lit "auto") (lit "gpt-image-1")
           (lit "low") 2 85 (lit "jpeg") (lit "medium") (lit "auto") empty_world
           (fst (returned (demo_generate 2 2 (lit "jpeg")) ([], [])))
           (snd (returned (demo_generate 2 2 (lit "jpeg")) ([], [])))
           (snd (demo_generate 2 2 (lit "jpeg")))).
  vm_compute. reflexivity.
Defined.

(** ** Contents of the success report *)

(** C2, as the code has it. A call of [generate_image] that returns
    paths returns one path for each image in the response of the
    service, hence [n] paths when the service returns the [n] images
    asked for; its report contains the quality and the size as they were
    supplied, and the output format in upper case. *)
Theorem generate_success_report_contents :
  forall env prompt background model moderation n output_compression
    output_format quality size w paths report w',
  generate_image env prompt background model moderation n output_compression
    output_format quality size w
  = (Return (paths, report), w') ->
  paths <> [] ->
  exists response items,
    generate_response env
      {| gp_model := model; gp_prompt := prompt; gp_background := background;
         gp_moderation := moderation; gp_n := n;
         gp_output_compression := output_compression;
         gp_output_format := output_format; gp_quality := quality;
         gp_size := size |}
    = Return response
    /\ data response = Some items
    /\ length paths = length items
    /\ (len items = n -> len paths = n)
    /\ contains report quality
    /\ contains report size
    /\ contains report (upper (upper_table env) output_format).
Proof.
  intros env prompt background model moderation n output_compression
    output_format quality size w paths report w' H Hne.
  apply generate_image_inv in H as [[-> _]|H]; [congruence|].
  destruct H as (response & items & u & c & created_text & per_image & H).
  cbv zeta in H.
  destruct H as
      (Hprompt & Hkey & Hresp & Hcalls & Hdata & Hu & Hpaths & Hdir & Hstored & Hc
      & Ht & Hdiv & Hrep).
  assert (Hlen : length paths = length items).
  { rewrite Hpaths. apply length_imap. }
  exists response, items. split_and!; try assumption.
  - unfold len. congruence.
  - rewrite Hrep. unfold generation_info.
    apply contains_lines with (l := lit "- **Quality:** " ++ quality).
    + do 5 right. left. reflexivity.
    + apply contains_end.
  - rewrite Hrep. unfold generation_info.
    apply contains_lines with (l := lit "- **Size:** " ++ size ++ lit " ").
    + do 6 right. left. reflexivity.
    + apply contains_here.
  - rewrite Hrep. unfold generation_info.
    apply contains_lines
      with (l := lit "- **Format:** " ++ upper (upper_table env) output_format).
    + do 7 right. left. reflexivity.
    + apply contains_end.
Qed.

Lemma generate_success_report_contents_witness :
  fst (demo_generate 2 2 (lit "png"))
  = Return (returned (demo_generate 2 2 (lit "png")) ([], []))
  /\ fst (returned (demo_generate 2 2 (lit "png")) ([], [])) <> []
  /\ exists response items,
       Return (demo_response 2) = Return response
       /\ data response = Some items
       /\ length (fst (returned (demo_generate 2 2 (lit "png")) ([], [])))
          = length items
       /\ (len items = 2 ->
           len (fst (returned (demo_generate 2 2 (lit "png")) ([], []))) = 2)
       /\ contains (snd (returned (demo_generate 2 2 (lit "png")) ([], [])))
            (lit "medium")
       /\ contains (snd (returned (demo_generate 2 2 (lit "png")) ([], [])))
            (lit "auto")
       /\ contains (snd (returned (demo_generate 2 2 (lit "png")) ([], [])))
            (upper (fun c => [c]) (lit "png")).
Proof.
  split; [vm_compute; reflexivity|]. split; [vm_compute; discriminate|].
  apply (generate_success_report_contents
           (demo_env demo_config (Return (demo_response 2)))
           (lit "A serene mountain lake") (lit "auto") (lit "gpt-image-1")
           (lit "low") 2 85 (lit "png") (lit "medium") (lit "auto") empty_world
           (fst (returned (demo_generate 2 2 (lit "png")) ([], [])))
           (snd (returned (demo_generate 2 2 (lit "png")) ([], [])))
           (snd (demo_generate 2 2 (lit "png")))).
  - vm_compute. reflexivity.
  - vm_compute. discriminate.
Defined.

(** The claim C2 as it was stated fails on a valid request: the report
    of a successful call for one [jpeg] image shows the format as
    [JPEG] and nowhere contains [jpeg]; and the number of paths follows
    the response, two paths when the service answers a request for one
    image with two. *)
Lemma generate_report_format_not_verbatim :
  (fst (demo_generate 1 1 (lit "jpeg"))
   = Return (returned (demo_generate 1 1 (lit "jpeg")) ([], []))
   /\ length (fst (returned (demo_generate 1 1 (lit "jpeg")) ([], []))) = 1%nat
   /\ contains (snd (returned (demo_generate 1 1 (lit "jpeg")) ([], [])))
        (lit "JPEG")
   /\ ~ contains (snd (returned (demo_generate 1 1 (lit "jpeg")) ([], [])))
          (lit "jpeg"))
  /\ (fst (demo_generate 2 1 (lit "jpeg"))
      = Return (returned (demo_generate 2 1 (lit "jpeg")) ([], []))
      /\ len (fst (returned (demo_generate 2 1 (lit "jpeg")) ([], []))) <> 1).
Proof.
  split; [split; [|split; [|split]]|split].
  - vm_compute. reflexivity.
  - vm_compute. reflexivity.
  - apply containsb_sound. vm_compute. reflexivity.
  - apply not_contains. vm_compute. reflexivity.
  - vm_compute. reflexivity.
  - vm_compute. discriminate.
Qed.

(** ** Costs *)

(** C3. [generate_image] prices the text tokens at 5.00 and the output
    tokens at 40.00 per million and adds the two: the report of every
    successful call shows, for the usage of the response it received,
    the input cost [(text_tokens / 1000000) * 5.00], the output cost
    [(output_tokens / 1000000) * 40.00] and their sum.  In particular,
    when the response counts 1000 text tokens and 2000 output tokens the
    three costs are the floats 0.005, 0.08 and 0.085, and the report
    shows them as 0.0050, 0.0800 and 0.0850. *)
Theorem generate_costs_formula :
  (forall env prompt background model moderation n output_compression
     output_format quality size w paths report w',
     generate_image env prompt background model moderation n
       output_compression output_format quality size w
     = (Return (paths, report), w') ->
     paths <> [] ->
     exists response u text_share output_share,
       generate_response env
         {| gp_model := model; gp_prompt := prompt;
            gp_background := background; gp_moderation := moderation;
            gp_n := n; gp_output_compression := output_compression;
            gp_output_format := output_format; gp_quality := quality;
            gp_size := size |}
       = Return response
       /\ usage response = Some u
       /\ int_truediv (text_tokens u) 1000000 = Return text_share
       /\ int_truediv (output_tokens u) 1000000 = Return output_share
       /\ contains report
            (lit "- **Input Cost:** $"
             ++ format_4f (fmul text_share (float_lit 5)) ++ nl)
       /\ contains report
            (lit "- **Output Cost:** $"
             ++ format_4f (fmul output_share (float_lit 40)) ++ nl)
       /\ contains report
            (lit "- **Total Cost:** $"
             ++ format_4f (fadd (fmul text_share (float_lit 5))
                             (fmul output_share (float_lit 40)))
             ++ nl))
  /\ (forall env prompt background model moderation n output_compression
        output_format quality size w paths report w' response u,
      generate_image env prompt background model moderation n
        output_compression output_format quality size w
      = (Return (paths, report), w') ->
      paths <> [] ->
      generate_response env
        {| gp_model := model; gp_prompt := prompt;
           gp_background := background; gp_moderation := moderation;
           gp_n := n; gp_output_compression := output_compression;
           gp_output_format := output_format; gp_quality := quality;
           gp_size := size |}
      = Return response ->
      usage response = Some u ->
      text_tokens u = 1000 -> output_tokens u = 2000 ->
      generate_costs u
      = Return {| input_cost := decimal 5 1000; output_cost := decimal 8 100;
                  total_cost := decimal 85 1000 |}
      /\ contains report (lit "- **Input Cost:** $0.0050" ++ nl)
      /\ contains report (lit "- **Output Cost:** $0.0800" ++ nl)
      /\ contains report (lit "- **Total Cost:** $0.0850" ++ nl)).
Proof.
  assert (Hline : forall (ls : list pystr) (a b : pystr),
            In (a ++ b) ls -> contains (lines ls) (a ++ b ++ nl)).
  { intros ls a b Hin. rewrite (app_assoc a b nl).
    generalize dependent (a ++ b). clear a b. intros l. unfold lines.
    induction ls as [|l0 ls IH]; intros Hin; [destruct Hin|].
    cbn [map concat]. destruct Hin as [->|Hin].
    - exists [], (concat (map (fun l => l ++ nl) ls)). reflexivity.
    - apply contains_app_r, IH, Hin. }
  assert (Hshown : forall env model paths quality size output_format
            background output_compression created_text u c per_image prompt,
            let report :=
              generation_info env model paths quality size output_format
                background output_compression created_text u c per_image
                prompt in
            contains report
              (lit "- **Input Cost:** $" ++ format_4f (input_cost c) ++ nl)
            /\ contains report
                 (lit "- **Output Cost:** $" ++ format_4f (output_cost c) ++ nl)
            /\ contains report
                 (lit "- **Total Cost:** $" ++ format_4f (total_cost c) ++ nl)).
  { intros. subst report. unfold generation_info. split_and!.
    - apply (Hline _ (lit "- **Input Cost:** $") (format_4f (input_cost c))).
      do 19 right. left. reflexivity.
    - apply (Hline _ (lit "- **Output Cost:** $") (format_4f (output_cost c))).
      do 20 right. left. reflexivity.
    - apply (Hline _ (lit "- **Total Cost:** $") (format_4f (total_cost c))).
      do 21 right. left. reflexivity. }
  split.
  - intros env prompt background model moderation n output_compression
      output_format quality size w paths report w' H Hne.
    apply generate_image_inv in H as [[-> _]|H]; [congruence|].
    destruct H as (response & items & u & c & created_text & per_image & H).
    cbv zeta in H.
    destruct H as
      (_ & _ & Hresp & _ & _ & Hu & _ & _ & _ & Hc & _ & _ & Hrep).
    unfold generate_costs in Hc.
    destruct (int_truediv (text_tokens u) 1000000) as [text_share|] eqn:Ht;
      [|discriminate].
    destruct (int_truediv (output_tokens u) 1000000) as [output_share|] eqn:Ho;
      [|discriminate].
    cbn [obind] in Hc. injection Hc as <-.
    exists response, u, text_share, output_share.
    split; [exact Hresp|]. split; [exact Hu|].
    split; [exact Ht|]. split; [exact Ho|].
    rewrite Hrep.
    apply (Hshown env model paths quality size output_format background
             output_compression created_text u
             {| input_cost := fmul text_share (float_lit 5);
                output_cost := fmul output_share (float_lit 40);
                total_cost := fadd (fmul text_share (float_lit 5))
                                (fmul output_share (float_lit 40)) |}
             per_image prompt).
  - intros env prompt background model moderation n output_compression
      output_format quality size w paths report w' response u H Hne Hresp Hu
      Htext Hout.
    apply generate_image_inv in H as [[-> _]|H]; [congruence|].
    destruct H as (response' & items & u' & c & created_text & per_image & H).
    cbv zeta in H.
    destruct H as
      (_ & _ & Hresp' & _ & _ & Hu' & _ & _ & _ & Hc & _ & _ & Hrep).
    rewrite Hresp in Hresp'. injection Hresp' as <-.
    rewrite Hu in Hu'. injection Hu' as <-.
    assert (Hcosts : generate_costs u
                     = Return {| input_cost := decimal 5 1000;
                                 output_cost := decimal 8 100;
                                 total_cost := decimal 85 1000 |}).
    { unfold generate_costs. rewrite Htext, Hout. vm_compute. reflexivity. }
    split; [exact Hcosts|].
    rewrite Hcosts in Hc. injection Hc as <-.
    rewrite Hrep.
    change (lit "- **Input Cost:** $0.0050")
      with (lit "- **Input Cost:** $" ++ format_4f (decimal 5 1000)).
    change (lit "- **Output Cost:** $0.0800")
      with (lit "- **Output Cost:** $" ++ format_4f (decimal 8 100)).
    change (lit "- **Total Cost:** $0.0850")
      with (lit "- **Total Cost:** $" ++ format_4f (decimal 85 1000)).
    apply (Hshown env model paths quality size output_format background
             output_compression created_text u
             {| input_cost := decimal 5 1000; output_cost := decimal 8 100;
                total_cost := decimal 85 1000 |} per_image prompt).
Qed.

Lemma generate_costs_formula_witness :
  fst (demo_generate 2 2 (lit "png"))
  = Return (returned (demo_generate 2 2 (lit "png")) ([], []))
  /\ fst (returned (demo_generate 2 2 (lit "png")) ([], [])) <> []
  /\ text_tokens demo_usage = 1000
  /\ output_tokens demo_usage = 2000
  /\ generate_costs demo_usage
     = Return {| input_cost := decimal 5 1000; output_cost := decimal 8 100;
                 total_cost := decimal 85 1000 |}
  /\ contains (snd (returned (demo_generate 2 2 (lit "png")) ([], [])))
       (lit "- **Input Cost:** $0.0050" ++ nl)
  /\ contains (snd (returned (demo_generate 2 2 (lit "png")) ([], [])))
       (lit "- **Output Cost:** $0.0800" ++ nl)
  /\ contains (snd (returned (demo_generate 2 2 (lit "png")) ([], [])))
       (lit "- **Total Cost:** $0.0850" ++ nl).
Proof.
  split; [vm_compute; reflexivity|]. split; [vm_compute; discriminate|].
  split; [reflexivity|]. split; [reflexivity|].
  exact (proj2 generate_costs_formula
           (demo_env demo_config (Return (demo_response 2)))
           (lit "A serene mountain lake") (lit "auto") (lit "gpt-image-1")
           (lit "low") 2 85 (lit "png") (lit "medium") (lit "auto") empty_world
           (fst (returned (demo_generate 2 2 (lit "png")) ([], [])))
           (snd (returned (demo_generate 2 2 (lit "png")) ([], [])))
           (snd (demo_generate 2 2 (lit "png")))
           (demo_response 2) demo_usage
           ltac:(vm_compute; reflexivity) ltac:(vm_compute; discriminate)
           eq_refl eq_refl eq_refl eq_refl).
Defined.

(** C4, as the code has it.  [edit_image] prices the text tokens at
    5.00 and the input image tokens at 10.00 per million for the input
    cost and the output tokens at 40.00 per million for the output cost;
    the total is their sum.  The cost per image is the total divided by
    the number of images saved, which is the number of images in the
    response of the service: neither the requested count [n] nor the
    number of source images.  These are the figures the report of a
    successful call shows. *)
Theorem edit_costs_formula :
  (forall u,
     edit_costs u
     = let+ text_share := int_truediv (text_tokens u) 1000000 in
       let+ image_share := int_truediv (image_tokens u) 1000000 in
       let+ output_share := int_truediv (output_tokens u) 1000000 in
       let input_cost :=
         fadd (fmul text_share (float_lit 5)) (fmul image_share (float_lit 10)) in
       let output_cost := fmul output_share (float_lit 40) in
       Return {| input_cost := input_cost; output_cost := output_cost;
                 total_cost := fadd input_cost output_cost |})
  /\ (forall env image_files prompt background mask_file model n quality size
        w paths report w',
      edit_image env image_files prompt background mask_file model n quality
        size w
      = (Return (paths, report), w') ->
      paths <> [] ->
      exists p response items u c count,
        edit_response env p = Return response
        /\ data response = Some items
        /\ length paths = length items
        /\ usage response = Some u
        /\ edit_costs u = Return c
        /\ float_of_int (len paths) = Return count
        /\ contains report
             (lit "- **Input Cost:** $" ++ format_4f (input_cost c)
              ++ lit " (text + images)")
        /\ contains report (lit "- **Output Cost:** $" ++ format_4f (output_cost c))
        /\ contains report (lit "- **Total Cost:** $" ++ format_4f (total_cost c))
        /\ contains report
             (lit "- **Cost per Output Image:** $"
              ++ format_4f (fdiv (total_cost c) count))).
Proof.
  split.
  - intros u. unfold edit_costs.
    destruct (int_truediv (text_tokens u) 1000000); [|reflexivity].
    destruct (int_truediv (image_tokens u) 1000000); [|reflexivity].
    destruct (int_truediv (output_tokens u) 1000000); reflexivity.
  - intros env image_files prompt background mask_file model n quality size
      w paths report w' H Hne.
    apply edit_image_inv in H as [[-> _]|H]; [congruence|].
    destruct H as (images & image & mask & response & items & u & c
                   & created_text & per_image & H).
    cbv zeta in H.
    destruct H as
      (Hfiles & Hprompt & Hkey & Hresp & Hcalls & Hdata & Hu & Hpaths & Hdir
      & Hstored & Hc & Ht & Hdiv & Hrep).
    apply float_div_int_inv in Hdiv as (count & Hcount & ->).
    eexists _, response, items, u, c, count.
    split; [exact Hresp|]. split; [exact Hdata|].
    split; [rewrite Hpaths; apply length_imap|].
    split; [exact Hu|]. split; [exact Hc|].
    split; [exact Hcount|].
    rewrite Hrep. unfold edit_info.
    split; [|split; [|split]].
    + apply contains_lines
        with (l := lit "- **Input Cost:** $" ++ format_4f (input_cost c)
                   ++ lit " (text + images)"); [|apply contains_refl].
      do 19 right. left. reflexivity.
    + apply contains_lines
        with (l := lit "- **Output Cost:** $" ++ format_4f (output_cost c));
        [|apply contains_refl].
      do 20 right. left. reflexivity.
    + apply contains_lines
        with (l := lit "- **Total Cost:** $" ++ format_4f (total_cost c));
        [|apply contains_refl].
      do 21 right. left. reflexivity.
    + apply contains_lines
        with (l := lit "- **Cost per Output Image:** $"
                   ++ format_4f (fdiv (total_cost c) count));
        [|apply contains_refl].
      do 22 right. left. reflexivity.
Qed.

Lemma edit_costs_formula_witness :
  fst (demo_edit None (Return (demo_response 2)))
  = Return (returned (demo_edit None (Return (demo_response 2))) ([], []))
  /\ fst (returned (demo_edit None (Return (demo_response 2))) ([], [])) <> []
  /\ exists p response items u c count,
       edit_response (demo_env demo_config (Return (demo_response 2))) p
       = Return response
       /\ data response = Some items
       /\ length (fst (returned (demo_edit None (Return (demo_response 2)))
                         ([], [])))
          = length items
       /\ usage response = Some u
       /\ edit_costs u = Return c
       /\ float_of_int
            (len (fst (returned (demo_edit None (Return (demo_response 2)))
                         ([], []))))
          = Return count
       /\ contains
            (snd (returned (demo_edit None (Return (demo_response 2))) ([], [])))
            (lit "- **Input Cost:** $" ++ format_4f (input_cost c)
             ++ lit " (text + images)")
       /\ contains
            (snd (returned (demo_edit None (Return (demo_response 2))) ([], [])))
            (lit "- **Output Cost:** $" ++ format_4f (output_cost c))
       /\ contains
            (snd (returned (demo_edit None (Return (demo_response 2))) ([], [])))
            (lit "- **Total Cost:** $" ++ format_4f (total_cost c))
       /\ contains
            (snd (returned (demo_edit None (Return (demo_response 2))) ([], [])))
            (lit "- **Cost per Output Image:** $"
             ++ format_4f (fdiv (total_cost c) count)).
Proof.
  split; [vm_compute; reflexivity|]. split; [vm_compute; discriminate|].
  apply (proj2 edit_costs_formula
           (demo_env demo_config (Return (demo_response 2)))
           (OneFile (lit "photo.png")) (lit "Add a rainbow") (lit "auto") None
           (lit "gpt-image-1") 1 (lit "medium") (lit "auto") empty_world
           (fst (returned (demo_edit None (Return (demo_response 2))) ([], [])))
           (snd (returned (demo_edit None (Return (demo_response 2))) ([], [])))
           (snd (demo_edit None (Return (demo_response 2))))).
  - vm_compute. reflexivity.
  - vm_compute. discriminate.
Defined.

(** The claim C4 as it was stated fails.  A request for one image
    ([n = 1]) that the service answers with two images has the total
    cost 0.0900 and is shown the cost per image 0.0450, the total
    divided by the two images saved and not by the requested count.
    Nor is the divisor the number of source images: a request with two
    source images answered with one image is shown 0.0900 per image. *)
Lemma edit_per_image_cost_not_by_image_count :
  (demo_edit None (Return (demo_response 2))
   = edit_image (demo_env demo_config (Return (demo_response 2)))
       (OneFile (lit "photo.png")) (lit "Add a rainbow") (lit "auto") None
       (lit "gpt-image-1") 1 (lit "medium") (lit "auto") empty_world
   /\ fst (demo_edit None (Return (demo_response 2)))
      = Return (returned (demo_edit None (Return (demo_response 2))) ([], []))
   /\ length (fst (returned (demo_edit None (Return (demo_response 2)))
                     ([], [])))
      = 2%nat
   /\ contains
        (snd (returned (demo_edit None (Return (demo_response 2))) ([], [])))
        (lit "- **Total Cost:** $0.0900" ++ nl)
   /\ contains
        (snd (returned (demo_edit None (Return (demo_response 2))) ([], [])))
        (lit "- **Cost per Output Image:** $0.0450" ++ nl)
   /\ ~ contains
          (snd (returned (demo_edit None (Return (demo_response 2))) ([], [])))
          (lit "- **Cost per Output Image:** $0.0900"))
  /\ (demo_edit_two
      = edit_image (demo_env demo_config (Return (demo_response 1)))
          (FileList [lit "photo.png"; lit "logo.png"]) (lit "Add a rainbow")
          (lit "auto") (Some (lit "mask.png")) (lit "gpt-image-1") 1
          (lit "medium") (lit "auto") busy_world
      /\ fst demo_edit_two = Return (returned demo_edit_two ([], []))
      /\ length (fst (returned demo_edit_two ([], []))) = 1%nat
      /\ contains (snd (returned demo_edit_two ([], [])))
           (lit "- **Input Images:** 2" ++ nl)
      /\ contains (snd (returned demo_edit_two ([], [])))
           (lit "- **Total Cost:** $0.0900" ++ nl)
      /\ contains (snd (returned demo_edit_two ([], [])))
           (lit "- **Cost per Output Image:** $0.0900" ++ nl)
      /\ ~ contains (snd (returned demo_edit_two ([], [])))
             (lit "- **Cost per Output Image:** $0.0450")).
Proof.
  split; split_and!.
  - reflexivity.
  - vm_compute. reflexivity.
  - vm_compute. reflexivity.
  - apply containsb_sound. vm_compute. reflexivity.
  - apply containsb_sound. vm_compute. reflexivity.
  - apply not_contains. vm_compute. reflexivity.
  - reflexivity.
  - vm_compute. reflexivity.
  - vm_compute. reflexivity.
  - apply containsb_sound. vm_compute. reflexivity.
  - apply containsb_sound. vm_compute. reflexivity.
  - apply containsb_sound. vm_compute. reflexivity.
  - apply not_contains. vm_compute. reflexivity.
Qed.

(** ** Streams of [edit_image] *)

(** C9 does not hold of the code.  When the service fails, [edit_image]
    returns its error report and leaves the stream of the source image
    and the stream of the mask open: the streams are closed only after
    a call that returned. *)
Theorem edit_image_leaves_streams_open :
  forall env path mask_path prompt background model n quality size w api_key e,
  truthy (strip prompt) = true ->
  config_get env OPENAI_API_KEY = Some api_key ->
  truthy api_key = true ->
  OpenAI_error env api_key = None ->
  open_error env path ReadBinary = None ->
  truthy mask_path = true ->
  open_error env mask_path ReadBinary = None ->
  edit_response env
    {| ep_model := model; ep_image := OneStream (next_handle w);
       ep_prompt := prompt; ep_background := background; ep_n := n;
       ep_quality := quality; ep_size := size;
       ep_mask := Some (S (next_handle w)) |}
  = Raise e ->
  exists w',
    edit_image env (OneFile path) prompt background (Some mask_path) model n
      quality size w
    = (Return ([], edit_failed e), w')
    /\ streams w' !! next_handle w = Some path
    /\ streams w' !! S (next_handle w) = Some mask_path.
Proof.
  intros env path mask_path prompt background model n quality size w api_key e
    Hprompt Hkey Htruthy Hclient Hopen Hmask Hopen_mask Hservice.
  unfold edit_image, try_except.
  cbv beta iota delta [is_None]. rewrite Hprompt, Hkey, Htruthy.
  cbv beta iota delta [negb bind OpenAI fail_if]. rewrite Hclient.
  cbv beta iota delta [ret open_images bind open]. rewrite Hopen.
  cbv beta iota zeta delta [ret bind].
  change (len [next_handle w]) with 1.
  cbv beta iota zeta delta
    [ret image_param Z.ltb Z.compare Pos.compare Pos.compare_cont bind
     open_mask open].
  rewrite Hmask, Hopen_mask.
  cbv beta iota zeta delta [ret bind images_edit].
  cbn [next_handle streams]. rewrite Hservice.
  eexists. split; [reflexivity|]. cbn [streams]. split.
  - rewrite lookup_insert_ne by lia. apply lookup_insert_eq.
  - apply lookup_insert_eq.
Qed.

Lemma edit_image_leaves_streams_open_witness :
  exists w',
    demo_edit (Some (lit "mask.png")) (Raise rate_limited)
    = (Return ([], edit_failed rate_limited), w')
    /\ streams w' !! 0%nat = Some (lit "photo.png")
    /\ streams w' !! 1%nat = Some (lit "mask.png").
Proof.
  apply (edit_image_leaves_streams_open
           (demo_env demo_config (Raise rate_limited))
           (lit "photo.png") (lit "mask.png") (lit "Add a rainbow") (lit "auto")
           (lit "gpt-image-1") 1 (lit "medium") (lit "auto") empty_world
           (lit "sk-demo") rate_limited); reflexivity.
Defined.

(** The same run in full, and the run in which the service answers:
    there both streams are closed. *)
Example edit_image_streams_demo :
  demo_edit (Some (lit "mask.png")) (Raise rate_limited)
  = (Return ([], edit_failed rate_limited),
     {| files := ∅;
        streams := {[ 0%nat := lit "photo.png"; 1%nat := lit "mask.png" ]};
        next_handle := 2;
        remote_calls :=
          [CallEdit
             {| ep_model := lit "gpt-image-1"; ep_image := OneStream 0;
                ep_prompt := lit "Add a rainbow"; ep_background := lit "auto";
                ep_n := 1; ep_quality := lit "medium"; ep_size := lit "auto";
                ep_mask := Some 1%nat |}] |})
  /\ streams (snd (demo_edit (Some (lit "mask.png")) (Return (demo_response 1))))
     = ∅.
Proof. split; vm_compute; reflexivity. Qed.

(** ** No images, no success *)

(** C10. When the service returns a response without images, both
    operations return no path and an error report: dividing the total
    cost by the number of paths raises, and the handler turns that into
    the report.  A report that begins as the success reports do comes
    with at least one path. *)
Theorem zero_images_is_an_error :
  (forall total_cost,
     float_div_int total_cost (len (@nil pystr))
     = Raise (Exn ZeroDivisionError (lit "float division by zero")))
  /\ (forall env prompt background model moderation n output_compression
      output_format quality size w response,
    generate_response env
      {| gp_model := model; gp_prompt := prompt; gp_background := background;
         gp_moderation := moderation; gp_n := n;
         gp_output_compression := output_compression;
         gp_output_format := output_format; gp_quality := quality;
         gp_size := size |}
    = Return response ->
    data response = Some [] ->
    exists report w',
      generate_image env prompt background model moderation n
        output_compression output_format quality size w
      = (Return ([], report), w')
      /\ generate_error_report report)
  /\ (forall env prompt background model moderation n output_compression
        output_format quality size w paths report w',
      generate_image env prompt background model moderation n
        output_compression output_format quality size w
      = (Return (paths, report), w') ->
      startswith report success_mark = true ->
      paths <> [])
  /\ (forall env image_files prompt background mask_file model n quality size
        w,
      (forall image mask response,
         edit_response env
           {| ep_model := model; ep_image := image; ep_prompt := prompt;
              ep_background := background; ep_n := n; ep_quality := quality;
              ep_size := size; ep_mask := mask |}
         = Return response ->
         data response = Some []) ->
      exists report w',
        edit_image env image_files prompt background mask_file model n
          quality size w
        = (Return ([], report), w')
        /\ edit_error_report report)
  /\ (forall env image_files prompt background mask_file model n quality size
        w paths report w',
      edit_image env image_files prompt background mask_file model n quality
        size w
      = (Return (paths, report), w') ->
      startswith report success_mark = true ->
      paths <> []).
Proof.
  split; [|split; [|split; [|split]]].
  - intros total_cost. apply float_div_int_zero.
  - intros env prompt background model moderation n output_compression
      output_format quality size w response Hresp0 Hdata0.
    destruct (generate_image_returns env prompt background model moderation n
                output_compression output_format quality size w)
      as ([paths report] & w' & H).
    exists report, w'.
    destruct (generate_image_inv _ _ _ _ _ _ _ _ _ _ _ _ _ _ H) as [[-> Herr]|H'].
    { split; [exact H|exact Herr]. }
    destruct H' as (response' & items & u & c & created_text & per_image & H').
    cbv zeta in H'.
    destruct H' as
      (Hprompt & Hkey & Hresp & Hcalls & Hdata & Hu & Hpaths & Hdir & Hstored & Hc
      & Ht & Hdiv & Hrep).
    rewrite Hresp0 in Hresp. injection Hresp as <-.
    rewrite Hdata0 in Hdata. injection Hdata as <-.
    rewrite Hpaths in Hdiv. change (len (imap _ [])) with 0 in Hdiv.
    rewrite float_div_int_zero in Hdiv. discriminate.
  - intros env prompt background model moderation n output_compression
      output_format quality size w paths report w' H Hmark ->.
    apply generate_image_inv in H as [[_ Herr]|H].
    + apply generate_error_report_unmarked in Herr. congruence.
    + destruct H as (response & items & u & c & created_text & per_image & H).
      cbv zeta in H.
      destruct H as
      (Hprompt & Hkey & Hresp & Hcalls & Hdata & Hu & Hpaths & Hdir & Hstored & Hc
      & Ht & Hdiv & Hrep).
      change (len []) with 0 in Hdiv.
      rewrite float_div_int_zero in Hdiv. discriminate.
  - intros env image_files prompt background mask_file model n quality size w
      Hzero.
    destruct (edit_image_returns env image_files prompt background mask_file
                model n quality size w) as ([paths report] & w' & H).
    exists report, w'.
    destruct (edit_image_inv _ _ _ _ _ _ _ _ _ _ _ _ _ H) as [[-> Herr]|H'].
    { split; [exact H|exact Herr]. }
    destruct H' as (images & image & mask & response & items & u & c
                    & created_text & per_image & H').
    cbv zeta in H'.
    destruct H' as
      (Hfiles & Hprompt & Hkey & Hresp & Hcalls & Hdata & Hu & Hpaths & Hdir
      & Hstored & Hc & Ht & Hdiv & Hrep).
    apply Hzero in Hresp. rewrite Hresp in Hdata. injection Hdata as <-.
    rewrite Hpaths in Hdiv. change (len (imap _ [])) with 0 in Hdiv.
    rewrite float_div_int_zero in Hdiv. discriminate.
  - intros env image_files prompt background mask_file model n quality size
      w paths report w' H Hmark ->.
    apply edit_image_inv in H as [[_ Herr]|H].
    + apply edit_error_report_unmarked in Herr. congruence.
    + destruct H as (images & image & mask & response & items & u & c
                     & created_text & per_image & H).
      cbv zeta in H.
      destruct H as
      (Hfiles & Hprompt & Hkey & Hresp & Hcalls & Hdata & Hu & Hpaths & Hdir
      & Hstored & Hc & Ht & Hdiv & Hrep).
      change (len []) with 0 in Hdiv.
      rewrite float_div_int_zero in Hdiv. discriminate.
Qed.

Lemma zero_images_is_an_error_witness :
  (data (demo_response 0) = Some []
   /\ fst (demo_generate 0 1 (lit "jpeg"))
      = Return ([], generation_failed
                      (Exn ZeroDivisionError (lit "float division by zero")))
   /\ exists report w',
        generate_image (demo_env demo_config (Return (demo_response 0)))
          (lit "A serene mountain lake") (lit "auto") (lit "gpt-image-1")
          (lit "low") 1 85 (lit "jpeg") (lit "medium") (lit "auto") empty_world
        = (Return ([], report), w')
        /\ generate_error_report report)
  /\ (startswith (snd (returned (demo_generate 1 1 (lit "jpeg")) ([], [])))
        success_mark = true
      /\ fst (returned (demo_generate 1 1 (lit "jpeg")) ([], [])) <> []).
Proof.
  split.
  - split; [reflexivity|]. split; [vm_compute; reflexivity|].
    apply (proj1 (proj2 zero_images_is_an_error)
             (demo_env demo_config (Return (demo_response 0)))
             (lit "A serene mountain lake") (lit "auto") (lit "gpt-image-1")
             (lit "low") 1 85 (lit "jpeg") (lit "medium") (lit "auto")
             empty_world (demo_response 0)); reflexivity.
  - split; [vm_compute; reflexivity|].
    apply (proj1 (proj2 (proj2 zero_images_is_an_error))
             (demo_env demo_config (Return (demo_response 1)))
             (lit "A serene mountain lake") (lit "auto") (lit "gpt-image-1")
             (lit "low") 1 85 (lit "jpeg") (lit "medium") (lit "auto")
             empty_world
             (fst (returned (demo_generate 1 1 (lit "jpeg")) ([], [])))
             (snd (returned (demo_generate 1 1 (lit "jpeg")) ([], [])))
             (snd (demo_generate 1 1 (lit "jpeg")))).
    + vm_compute. reflexivity.
    + vm_compute. reflexivity.
Defined.

(** * Further properties of the two operations *)

(** ** Relations every run keeps *)

Section Preserves.
Context (R : World -> World -> Prop) `{!PreOrder R}.

Lemma preserves_ret {A} (a : A) : preserves R (ret a).
Proof. intros w o w' H. apply ret_inv in H as [_ ->]. reflexivity. Qed.

Lemma preserves_raise {A} (e : exn) : preserves R (raise (A := A) e).
Proof. intros w o w'. unfold raise. intros [= _ <-]. reflexivity. Qed.

Lemma preserves_lift {A} (x : outcome A) : preserves R (lift x).
Proof. intros w o w' H. apply lift_inv in H as [_ ->]. reflexivity. Qed.

Lemma preserves_fail_if (x : option exn) : preserves R (fail_if x).
Proof. destruct x; [apply preserves_raise|apply preserves_ret]. Qed.

Lemma preserves_bind {A B} (c : M A) (k : A -> M B) :
  preserves R c -> (forall a, preserves R (k a)) -> preserves R (bind c k).
Proof.
  intros Hc Hk w o w' H.
  apply bind_inv in H as [(a & w1 & H1 & H2)|(e & H1 & _)].
  - transitivity w1; [eapply Hc|eapply Hk]; eassumption.
  - eapply Hc; eassumption.
Qed.

Lemma preserves_try_except {A} (body : M A) (handler : exn -> M A) :
  preserves R body -> (forall e, preserves R (handler e)) ->
  preserves R (try_except body handler).
Proof.
  intros Hb Hh w o w'. unfold try_except.
  destruct (body w) as [[a|e] w1] eqn:E.
  - intros [= _ <-]. eapply Hb; eassumption.
  - intros H. transitivity w1; [eapply Hb|eapply Hh]; eassumption.
Qed.

Lemma preserves_OpenAI env api_key : preserves R (OpenAI env api_key).
Proof. apply preserves_fail_if. Qed.

Lemma preserves_makedirs env path : preserves R (makedirs env path).
Proof. apply preserves_fail_if. Qed.

Lemma preserves_iterate d : preserves R (iterate d).
Proof. destruct d; [apply preserves_ret|apply preserves_raise]. Qed.

Lemma preserves_input_tokens_details u : preserves R (input_tokens_details u).
Proof. destruct u; [apply preserves_ret|apply preserves_raise]. Qed.

Lemma preserves_image_param images image_count :
  preserves R (image_param images image_count).
Proof.
  unfold image_param. destruct (1 <? image_count); [apply preserves_ret|].
  destruct images; [apply preserves_raise|apply preserves_ret].
Qed.

(** The loop keeps what each of its iterations keeps. *)
Lemma preserves_save_images env filename :
  (forall k image_bytes,
     preserves R (with_open env (filepath_at filename k) WriteBinary
                    (fun f => write env f image_bytes))) ->
  forall items i acc, preserves R (save_images env filename i items acc).
Proof.
  intros Hone. induction items as [|image_data rest IH]; intros i acc.
  - apply preserves_ret.
  - cbn [save_images]. apply preserves_bind; [apply preserves_lift|].
    intros image_bytes. apply preserves_bind; [apply Hone|].
    intros _. apply IH.
Qed.
End Preserves.

#[local] Instance quiet_preorder : PreOrder quiet.
Proof. split; [intros w; reflexivity|intros w1 w2 w3; unfold quiet; congruence]. Qed.

#[local] Instance files_kept_preorder : PreOrder files_kept.
Proof.
  split.
  - intros w p. split; auto.
  - intros w1 w2 w3 H12 H23 p.
    destruct (H12 p) as [Hs12 Ho12], (H23 p) as [Hs23 Ho23].
    split; [auto|]. intros Hp. rewrite Ho23, Ho12; auto.
Qed.

#[local] Instance streams_restored_preorder : PreOrder streams_restored.
Proof.
  split.
  - intros w Hw. split; [exact Hw|reflexivity].
  - intros w1 w2 w3 H12 H23 Hw.
    destruct (H12 Hw) as [Hw2 E12]. destruct (H23 Hw2) as [Hw3 E23].
    split; [exact Hw3|congruence].
Qed.

(** *** The steps that touch the world *)


Lemma save_one_quiet env filepath image_bytes :
  preserves quiet
    (with_open env filepath WriteBinary (fun f => write env f image_bytes)).
Proof. intros w o w' H. now apply save_one_inv in H as (H & _). Qed.

(** Writing an image changes its own file and no other. *)
Lemma save_one_files env filepath image_bytes w o w' :
  with_open env filepath WriteBinary (fun f => write env f image_bytes) w
  = (o, w') ->
  forall p, p <> filepath -> files w' !! p = files w !! p.
Proof.
  unfold with_open, bind, open, finally, write.
  destruct (open_error env filepath WriteBinary) as [e|].
  - intros [= <- <-]. reflexivity.
  - cbv beta iota. cbn [streams files next_handle remote_calls].
    rewrite lookup_insert_eq.
    destruct (write_error env filepath image_bytes) as [e|];
      intros [= <- <-] p Hp;
      cbn [streams files next_handle remote_calls close_world].
    + now rewrite lookup_insert_ne.
    + now rewrite !lookup_insert_ne.
Qed.


(** A stream opened by [with] is closed when the block is left, so the
    open streams are the same again. *)
Lemma save_one_streams env filepath image_bytes :
  preserves streams_restored
    (with_open env filepath WriteBinary (fun f => write env f image_bytes)).
Proof.
  intros w o w'. unfold with_open, bind, open, finally, write.
  destruct (open_error env filepath WriteBinary) as [e|].
  - intros [= <- <-]. reflexivity.
  - cbv beta iota. cbn [streams files next_handle remote_calls].
    rewrite lookup_insert_eq.
    assert (Hclosed : fresh_handles w ->
              delete (next_handle w) (<[next_handle w := filepath]> (streams w))
              = streams w).
    { intros Hw. rewrite delete_insert_eq. apply delete_id.
      destruct (streams w !! next_handle w) eqn:E; [|reflexivity].
      apply Hw in E. lia. }
    destruct (write_error env filepath image_bytes) as [e|];
      intros [= <- <-] Hw; unfold fresh_handles;
      cbn [streams files next_handle remote_calls close_world];
      rewrite (Hclosed Hw); (split; [|reflexivity]);
      intros h path Hh; apply Hw in Hh; lia.
Qed.


Lemma images_generate_streams env p :
  preserves streams_restored (images_generate env p).
Proof.
  intros w o w'. unfold images_generate. intros [= _ <-] Hw.
  split; [exact Hw|reflexivity].
Qed.



(** Walks through a body built from [let*]: every step is discharged by
    the lemma for it. *)
Ltac rule lem := apply lem; try exact _.

Ltac walk leaf :=
  repeat first
    [ rule @preserves_ret | rule @preserves_raise | rule @preserves_lift
    | rule preserves_OpenAI | rule preserves_makedirs
    | rule preserves_iterate | rule preserves_input_tokens_details
    | rule preserves_image_param
    | leaf
    | rule @preserves_bind; [|intros ?]
    | progress cbv zeta ].

Lemma generate_image_preserves (R : World -> World -> Prop) `{!PreOrder R}
    env prompt background model moderation n output_compression output_format
    quality size :
  (forall p, preserves R (images_generate env p)) ->
  (forall ts ext k image_bytes,
     preserves R
       (with_open env (filepath_at (generate_filename ts ext) k) WriteBinary
          (fun f => write env f image_bytes))) ->
  preserves R
    (generate_image env prompt background model moderation n output_compression
       output_format quality size).
Proof.
  intros Hcall Hsave. unfold generate_image.
  rule @preserves_try_except; [|intros e; rule @preserves_ret].
  destruct (negb (truthy (strip prompt))); [rule @preserves_ret|].
  destruct (config_get env OPENAI_API_KEY) as [api_key|]; [|rule @preserves_ret].
  destruct (negb (truthy api_key)); [rule @preserves_ret|].
  walk ltac:(first [apply Hcall
                   | rule preserves_save_images; intros; apply Hsave]).
Qed.

Section PreservesEdit.
Context (R : World -> World -> Prop) `{!PreOrder R} (env : Env).
Hypothesis open_read : forall path, preserves R (open env path ReadBinary).
Hypothesis close_any : forall h, preserves R (close h).

Lemma preserves_open_all paths : preserves R (open_all env paths).
Proof.
  induction paths as [|p rest IH]; cbn [open_all]; walk ltac:(first [apply open_read | apply IH]).
Qed.

Lemma preserves_close_all images : preserves R (close_all images).
Proof.
  induction images as [|h rest IH]; cbn [close_all]; walk ltac:(first [apply close_any | apply IH]).
Qed.

Lemma preserves_open_images image_files :
  preserves R (open_images env image_files).
Proof.
  destruct image_files; cbn [open_images];
    walk ltac:(first [apply open_read | apply preserves_open_all]).
Qed.

Lemma preserves_open_mask mask_file : preserves R (open_mask env mask_file).
Proof.
  unfold open_mask. destruct mask_file as [path|]; [destruct (truthy path)|];
    walk ltac:(apply open_read).
Qed.

Lemma preserves_close_mask mask : preserves R (close_mask mask).
Proof. destruct mask; cbn [close_mask]; walk ltac:(apply close_any). Qed.

End PreservesEdit.




(** ** Files *)



(** ** Streams *)

(** X2. [generate_image] leaves no stream open: on every path the open
    streams are those that were open before the call, provided handles
    are handed out fresh. *)
Theorem generate_image_restores_streams :
  forall env prompt background model moderation n output_compression
    output_format quality size w,
  fresh_handles w ->
  streams (snd (generate_image env prompt background model moderation n
                  output_compression output_format quality size w))
  = streams w.
Proof.
  intros env prompt background model moderation n output_compression
    output_format quality size w Hw.
  assert (H : preserves streams_restored
                (generate_image env prompt background model moderation n
                   output_compression output_format quality size)).
  { apply generate_image_preserves;
      [exact _|apply images_generate_streams|intros; apply save_one_streams]. }
  eapply H; [apply surjective_pairing|exact Hw].
Qed.

Lemma generate_image_restores_streams_witness :
  fresh_handles busy_world
  /\ streams (snd (generate_image
                     (demo_env demo_config (Return (demo_response 2)))
                     (lit "A serene mountain lake") (lit "auto")
                     (lit "gpt-image-1") (lit "low") 2 85 (lit "png")
                     (lit "medium") (lit "auto") busy_world))
     = streams busy_world.
Proof.
  split; [apply (bool_decide_unpack _); vm_compute; exact I|].
  apply (generate_image_restores_streams
           (demo_env demo_config (Return (demo_response 2)))
           (lit "A serene mountain lake") (lit "auto") (lit "gpt-image-1")
           (lit "low") 2 85 (lit "png") (lit "medium") (lit "auto") busy_world).
  apply (bool_decide_unpack _). vm_compute. exact I.
Defined.

(** ** Calls to the image service *)

Lemma open_read_quiet env path : preserves quiet (open env path ReadBinary).
Proof. intros w o w' H. now apply open_read_inv in H as [_ H]. Qed.

Lemma close_quiet h : preserves quiet (close h).
Proof. intros w o w' H. now apply close_inv in H as [_ [_ H]]. Qed.

Ltac quiet_tail H :=
  match type of H with
  | ?c ?w = _ =>
    let Hq := fresh "Hq" in
    assert (Hq : preserves quiet c);
    [ cbv zeta;
      walk ltac:(first [ apply preserves_open_images; [exact _|apply open_read_quiet]
                       | apply preserves_open_mask; [exact _|apply open_read_quiet]
                       | apply preserves_close_all; [exact _|apply close_quiet]
                       | apply preserves_close_mask; [exact _|apply close_quiet]
                       | rule preserves_save_images; intros; apply save_one_quiet ])
    | apply Hq in H ]
  end.

(** X3. One call of [generate_image] invokes [client.images.generate]
    at most once: the function has no loop around the invocation and
    its handler does not invoke the client again.  The invocation
    carries the arguments as they were given: the prompt is neither
    trimmed nor cut.  (Requests that the client library sends again
    within the one invocation are not counted.) *)
Theorem generate_image_invokes_client_once :
  forall env prompt background model moderation n output_compression
    output_format quality size w,
  let w' := snd (generate_image env prompt background model moderation n
                   output_compression output_format quality size w) in
  client_invocations w' = client_invocations w
  \/ client_invocations w'
     = client_invocations w
       ++ [CallGenerate
             {| gp_model := model; gp_prompt := prompt;
                gp_background := background; gp_moderation := moderation;
                gp_n := n; gp_output_compression := output_compression;
                gp_output_format := output_format; gp_quality := quality;
                gp_size := size |}].
Proof.
  intros. subst w'. unfold client_invocations.
  destruct (generate_image env prompt background model moderation n
              output_compression output_format quality size w)
    as [o w'] eqn:H.
  cbn [snd]. unfold generate_image, try_except in H.
  destruct (negb (truthy (strip prompt))).
  { apply ret_inv in H as [_ ->]. now left. }
  destruct (config_get env OPENAI_API_KEY) as [api_key|].
  2:{ apply ret_inv in H as [_ ->]. now left. }
  destruct (negb (truthy api_key)).
  { apply ret_inv in H as [_ ->]. now left. }
  match type of H with
  | match ?body with _ => _ end = _ => destruct body as [r w1] eqn:Hbody
  end.
  assert (Hw : w' = w1).
  { destruct r; [now injection H|now apply ret_inv in H as [_ ->]]. }
  subst w1. clear H.
  apply bind_inv in Hbody as [(? & w2 & Hclient & Hbody)|(e & Hclient & _)].
  2:{ apply (preserves_OpenAI quiet) in Hclient. now left. }
  apply (preserves_OpenAI quiet) in Hclient.
  apply bind_inv in Hbody as [(response & w3 & Hcall & Hbody)|(e & Hcall & _)];
    apply images_generate_inv in Hcall as (_ & Hcalls & _).
  2:{ right. rewrite Hcalls, Hclient. reflexivity. }
  quiet_tail Hbody. right. rewrite Hbody, Hcalls, Hclient. reflexivity.
Qed.

Lemma open_all_length env paths : forall w hs w',
  open_all env paths w = (Return hs, w') -> length hs = length paths.
Proof.
  induction paths as [|p rest IH]; intros w hs w' H; cbn [open_all] in H.
  - apply ret_inv in H as [[= ->] _]. reflexivity.
  - apply bind_inv in H as [(f & w1 & _ & H)|(? & _ & [=])].
    apply bind_inv in H as [(fs & w2 & Hrest & H)|(? & _ & [=])].
    apply ret_inv in H as [[= ->] _]. cbn [length]. f_equal. eapply IH, Hrest.
Qed.

Lemma open_images_length env image_files w hs w' :
  open_images env image_files w = (Return hs, w') ->
  length hs = count_files image_files.
Proof.
  destruct image_files as [|path|paths]; cbn [open_images count_files]; intros H.
  - unfold raise in H. discriminate.
  - apply bind_inv in H as [(f & w1 & _ & H)|(? & _ & [=])].
    apply ret_inv in H as [[= ->] _]. reflexivity.
  - eapply open_all_length, H.
Qed.

Lemma image_param_shape (images : list handle) w image w' :
  image_param images (len images) w = (Return image, w') ->
  image_shape image (length images).
Proof.
  unfold image_param, len. destruct (Z.ltb_spec 1 (Z.of_nat (length images))) as [Hlt|Hle].
  - intros H. apply ret_inv in H as [[= ->] _]. cbn. split; [reflexivity|lia].
  - destruct images as [|first rest]; intros H.
    + unfold raise in H. discriminate.
    + apply ret_inv in H as [[= ->] _]. cbn in *. lia.
Qed.

Lemma open_mask_Some env mask_file w mask w' :
  open_mask env mask_file w = (Return mask, w') ->
  (is_Some mask <-> truthy_opt mask_file = true).
Proof.
  unfold open_mask, truthy_opt. destruct mask_file as [path|];
    [destruct (truthy path)|]; intros H.
  - apply bind_inv in H as [(f & w1 & _ & H)|(? & _ & [=])].
    apply ret_inv in H as [[= ->] _]. split; eauto.
  - apply ret_inv in H as [[= ->] _]. split; [intros [? [=]]|discriminate].
  - apply ret_inv in H as [[= ->] _]. split; [intros [? [=]]|discriminate].
Qed.

(** X4. One call of [edit_image] invokes [client.images.edit] at most
    once (requests that the client library sends again within the one
    invocation are not counted).
    The request carries the text arguments as they were given; its
    [image] is the stream itself when one source image was given and
    the list of streams when more were given, and it has a mask exactly
    when a non-empty mask path was given. *)
Theorem edit_image_invokes_client_once :
  forall env image_files prompt background mask_file model n quality size w,
  let w' := snd (edit_image env image_files prompt background mask_file model
                   n quality size w) in
  client_invocations w' = client_invocations w
  \/ exists image mask,
       client_invocations w'
       = client_invocations w
         ++ [CallEdit
               {| ep_model := model; ep_image := image; ep_prompt := prompt;
                  ep_background := background; ep_n := n;
                  ep_quality := quality; ep_size := size; ep_mask := mask |}]
       /\ image_shape image (count_files image_files)
       /\ (is_Some mask <-> truthy_opt mask_file = true).
Proof.
  intros. subst w'. unfold client_invocations.
  destruct (edit_image env image_files prompt background mask_file model n
              quality size w) as [o w'] eqn:H.
  cbn [snd]. unfold edit_image, try_except in H.
  destruct (is_None image_files).
  { apply ret_inv in H as [_ ->]. now left. }
  destruct (negb (truthy (strip prompt))).
  { apply ret_inv in H as [_ ->]. now left. }
  destruct (config_get env OPENAI_API_KEY) as [api_key|].
  2:{ apply ret_inv in H as [_ ->]. now left. }
  destruct (negb (truthy api_key)).
  { apply ret_inv in H as [_ ->]. now left. }
  match type of H with
  | match ?body with _ => _ end = _ => destruct body as [r w1] eqn:Hbody
  end.
  assert (Hw : w' = w1).
  { destruct r; [now injection H|now apply ret_inv in H as [_ ->]]. }
  subst w1. clear H.
  apply bind_inv in Hbody as [(? & w2 & Hclient & Hbody)|(e & Hclient & _)];
    apply (preserves_OpenAI quiet) in Hclient; [|now left].
  apply bind_inv in Hbody as [(images & w3 & Himages & Hbody)|(e & Himages & _)].
  2:{ apply (preserves_open_images quiet env (open_read_quiet env)) in Himages.
      left. unfold quiet in *. congruence. }
  pose proof (open_images_length _ _ _ _ _ Himages) as Hlen.
  apply (preserves_open_images quiet env (open_read_quiet env)) in Himages.
  apply bind_inv in Hbody as [(image & w4 & Himage & Hbody)|(e & Himage & _)].
  2:{ apply image_param_inv in Himage as ->. left. unfold quiet in *. congruence. }
  pose proof (image_param_shape _ _ _ _ Himage) as Hshape.
  apply image_param_inv in Himage as ->.
  apply bind_inv in Hbody as [(mask & w5 & Hmask & Hbody)|(e & Hmask & _)].
  2:{ apply (preserves_open_mask quiet env (open_read_quiet env)) in Hmask.
      left. unfold quiet in *. congruence. }
  pose proof (open_mask_Some _ _ _ _ _ Hmask) as Hsome.
  apply (preserves_open_mask quiet env (open_read_quiet env)) in Hmask.
  assert (Hcalls5 : remote_calls w5 = remote_calls w).
  { unfold quiet in *. congruence. }
  apply bind_inv in Hbody as [(response & w6 & Hcall & Hbody)|(e & Hcall & _)];
    apply images_edit_inv in Hcall as (_ & Hcalls & _).
  2:{ right. exists image, mask. rewrite Hcalls, Hcalls5, <- Hlen. auto. }
  quiet_tail Hbody. right. exists image, mask.
  rewrite Hbody, Hcalls, Hcalls5, <- Hlen. auto.
Qed.

(** ** Streams of [edit_image] when the service answers *)

Lemma open_read_spec env path w h w' :
  open env path ReadBinary w = (Return h, w') ->
  h = next_handle w
  /\ next_handle w' = S (next_handle w)
  /\ streams w' = <[next_handle w := path]> (streams w).
Proof.
  unfold open. destruct (open_error env path ReadBinary); [discriminate|].
  intros [= <- <-]. auto.
Qed.

Lemma open_read_returns env path w :
  open_error env path ReadBinary = None ->
  exists h w', open env path ReadBinary w = (Return h, w').
Proof. intros H. unfold open. rewrite H. eauto. Qed.

Lemma opened_nil w : opened [] w w.
Proof. split; [lia|]. split; [intros h Hh; inversion Hh|auto]. Qed.

Lemma opened_one env path w h w' :
  open env path ReadBinary w = (Return h, w') -> opened [h] w w'.
Proof.
  intros H. apply open_read_spec in H as (-> & Hn & Hs).
  split; [lia|]. split.
  - intros h Hh. apply list_elem_of_singleton in Hh as ->. lia.
  - intros h Hh. rewrite Hs. apply lookup_insert_ne.
    intros <-. apply Hh. now apply list_elem_of_singleton.
Qed.

Lemma opened_app hs1 hs2 w1 w2 w3 :
  opened hs1 w1 w2 -> opened hs2 w2 w3 -> opened (hs1 ++ hs2) w1 w3.
Proof.
  intros (Hn1 & Hin1 & Hout1) (Hn2 & Hin2 & Hout2).
  split; [lia|]. split.
  - intros h Hh. apply elem_of_app in Hh as [Hh|Hh];
      [apply Hin1 in Hh|apply Hin2 in Hh]; lia.
  - intros h Hh. rewrite Hout2, Hout1; [reflexivity| |];
      intros Hin; apply Hh, elem_of_app; auto.
Qed.

Lemma open_all_opened env paths : forall w hs w',
  open_all env paths w = (Return hs, w') -> opened hs w w'.
Proof.
  induction paths as [|p rest IH]; intros w hs w' H; cbn [open_all] in H.
  - apply ret_inv in H as [[= ->] ->]. apply opened_nil.
  - apply bind_inv in H as [(f & w1 & Hf & H)|(? & _ & [=])].
    apply bind_inv in H as [(fs & w2 & Hrest & H)|(? & _ & [=])].
    apply ret_inv in H as [[= ->] ->].
    apply (opened_app [f] fs w w1 w2); [eapply opened_one, Hf|eapply IH, Hrest].
Qed.


Lemma close_all_streams images : forall w o w',
  close_all images w = (o, w') ->
  next_handle w' = next_handle w
  /\ forall h, streams w' !! h
               = if decide (h ∈ images) then None else streams w !! h.
Proof.
  induction images as [|img rest IH]; intros w o w' H; cbn [close_all] in H.
  - apply ret_inv in H as [_ ->]. split; [reflexivity|].
    intros h. destruct (decide (h ∈ [])) as [Hin|_]; [inversion Hin|reflexivity].
  - apply bind_inv in H as [(u & w1 & Hc & H)|(e & Hc & _)];
      unfold close in Hc; [|discriminate]. injection Hc as <- <-.
    apply IH in H as [Hn Hs]. split; [exact Hn|].
    intros h. rewrite Hs. cbn [close_world streams].
    destruct (decide (h ∈ rest)) as [Hin|Hout].
    + rewrite decide_True by (now right). reflexivity.
    + destruct (decide (h = img)) as [->|Hne].
      * rewrite decide_True by (now left). apply lookup_delete_eq.
      * rewrite decide_False.
        -- now apply lookup_delete_ne.
        -- intros Hin. apply elem_of_cons in Hin as [?|?]; auto.
Qed.

Lemma open_images_opened env image_files w hs w' :
  open_images env image_files w = (Return hs, w') -> opened hs w w'.
Proof.
  destruct image_files as [|path|paths]; cbn [open_images]; intros H.
  - unfold raise in H. discriminate.
  - apply bind_inv in H as [(f & w1 & Hf & H)|(? & _ & [=])].
    apply ret_inv in H as [[= ->] ->]. eapply opened_one, Hf.
  - eapply open_all_opened, H.
Qed.


Lemma open_mask_opened env mask_file w mask w' :
  open_mask env mask_file w = (Return mask, w') ->
  opened (option_list mask) w w'.
Proof.
  unfold open_mask. destruct mask_file as [path|]; [destruct (truthy path)|];
    intros H.
  - apply bind_inv in H as [(f & w1 & Hf & H)|(? & _ & [=])].
    apply ret_inv in H as [[= ->] ->]. eapply opened_one, Hf.
  - apply ret_inv in H as [[= ->] ->]. apply opened_nil.
  - apply ret_inv in H as [[= ->] ->]. apply opened_nil.
Qed.


Lemma close_mask_streams mask w o w' :
  close_mask mask w = (o, w') ->
  next_handle w' = next_handle w
  /\ forall h, streams w' !! h
               = if decide (h ∈ option_list mask) then None else streams w !! h.
Proof.
  destruct mask as [m|]; cbn [close_mask option_list]; intros H.
  - unfold close in H. injection H as <- <-. split; [reflexivity|].
    intros h. cbn [close_world streams].
    destruct (decide (h = m)) as [->|Hne].
    + rewrite decide_True by (now left). apply lookup_delete_eq.
    + rewrite decide_False by (intros Hin; apply list_elem_of_singleton in Hin; auto).
      now apply lookup_delete_ne.
  - apply ret_inv in H as [_ ->]. split; [reflexivity|].
    intros h. rewrite decide_False by (intros Hin; inversion Hin). reflexivity.
Qed.

(** Streams that were opened and closed again leave the table of open
    streams as it was. *)
Lemma closed_again hs w w1 w2 :
  fresh_handles w -> opened hs w w1 ->
  next_handle w2 = next_handle w1 ->
  (forall h, streams w2 !! h
             = if decide (h ∈ hs) then None else streams w1 !! h) ->
  fresh_handles w2 /\ streams w2 = streams w.
Proof.
  intros Hw (Hn & Hin & Hout) Hn2 Hs.
  assert (E : streams w2 = streams w).
  { apply map_eq. intros h. rewrite Hs.
    destruct (decide (h ∈ hs)) as [Hh|Hh]; [|now apply Hout].
    destruct (streams w !! h) eqn:E; [|reflexivity].
    apply Hw in E. apply Hin in Hh. lia. }
  split; [|exact E].
  intros h path Hh. rewrite E in Hh. apply Hw in Hh. lia.
Qed.

Ltac streams_tail H :=
  match type of H with
  | ?c ?w = _ =>
    let Hq := fresh "Hq" in
    assert (Hq : preserves streams_restored c);
    [ cbv zeta;
      walk ltac:(rule preserves_save_images; intros; apply save_one_streams)
    | apply Hq in H ]
  end.

(** The streams a call opens when its files can be read. *)
Lemma open_all_seq env paths :
  (forall path, path ∈ paths -> open_error env path ReadBinary = None) ->
  forall w, exists w',
    open_all env paths w = (Return (seq (next_handle w) (length paths)), w')
    /\ next_handle w' = (next_handle w + length paths)%nat.
Proof.
  induction paths as [|p rest IH]; intros Hopen w; cbn [open_all length seq].
  - exists w. split; [reflexivity|lia].
  - destruct (open_read_returns env p w) as (f & w1 & Hf);
      [apply Hopen; now left|].
    pose proof (open_read_spec _ _ _ _ _ Hf) as (-> & Hn & _).
    destruct (IH (fun path Hin => Hopen path (proj2 (elem_of_cons _ _ _) (or_intror Hin)))
                w1) as (w2 & Hrest & Hn2).
    exists w2. rewrite (bind_Return _ _ _ _ _ Hf), (bind_Return _ _ _ _ _ Hrest).
    rewrite Hn. split; [reflexivity|lia].
Qed.

Lemma open_images_seq env image_files :
  is_None image_files = false ->
  (forall path, path ∈ source_paths image_files ->
     open_error env path ReadBinary = None) ->
  forall w, exists w',
    open_images env image_files w
    = (Return (seq (next_handle w) (count_files image_files)), w')
    /\ next_handle w' = (next_handle w + count_files image_files)%nat.
Proof.
  destruct image_files as [|path|paths]; cbn [is_None]; [discriminate|..];
    intros _ Hopen w; cbn [open_images source_paths count_files] in *.
  - destruct (open_read_returns env path w) as (f & w1 & Hf);
      [apply Hopen; now left|].
    pose proof (open_read_spec _ _ _ _ _ Hf) as (-> & Hn & _).
    exists w1. rewrite (bind_Return _ _ _ _ _ Hf).
    split; [reflexivity|lia].
  - apply open_all_seq, Hopen.
Qed.

Lemma image_param_seq h0 k w image w' :
  image_param (seq h0 k) (len (seq h0 k)) w = (Return image, w') ->
  image = if 1 <? Z.of_nat k then StreamList (seq h0 k) else OneStream h0.
Proof.
  unfold image_param, len. rewrite length_seq.
  destruct (1 <? Z.of_nat k).
  - intros H. now apply ret_inv in H as [[= ->] _].
  - destruct k as [|k]; cbn [seq]; intros H.
    + unfold raise in H. discriminate.
    + now apply ret_inv in H as [[= ->] _].
Qed.

Lemma open_mask_at env mask_file :
  (forall path, path ∈ mask_path mask_file ->
     open_error env path ReadBinary = None) ->
  forall w, exists w',
    open_mask env mask_file w
    = (Return (if truthy_opt mask_file then Some (next_handle w) else None), w').
Proof.
  unfold open_mask, mask_path, truthy_opt. intros Hopen w.
  destruct mask_file as [path|]; [destruct (truthy path)|].
  - destruct (open_read_returns env path w) as (f & w1 & Hf);
      [apply Hopen; now left|].
    pose proof (open_read_spec _ _ _ _ _ Hf) as (-> & _).
    exists w1. now rewrite (bind_Return _ _ _ _ _ Hf).
  - now exists w.
  - now exists w.
Qed.

(** X5. When the source images and the mask of the call can be opened
    and the image service answers the request of the call, [edit_image]
    leaves no stream open, whatever happens afterwards: the open streams
    are those that were open before the call. *)
Theorem edit_image_closes_streams :
  forall env image_files prompt background mask_file model n quality size w
    response,
  (forall path, path ∈ source_paths image_files ++ mask_path mask_file ->
     open_error env path ReadBinary = None) ->
  edit_response env
    (edit_request (next_handle w) image_files prompt background mask_file
       model n quality size)
  = Return response ->
  fresh_handles w ->
  streams (snd (edit_image env image_files prompt background mask_file model n
                  quality size w))
  = streams w.
Proof.
  intros env image_files prompt background mask_file model n quality size w
    response Hopen Hservice Hw.
  destruct (edit_image env image_files prompt background mask_file model n
              quality size w) as [o w'] eqn:H.
  cbn [snd]. unfold edit_image, try_except in H.
  destruct (is_None image_files) eqn:Hnone.
  { now apply ret_inv in H as [_ ->]. }
  destruct (negb (truthy (strip prompt))).
  { now apply ret_inv in H as [_ ->]. }
  destruct (config_get env OPENAI_API_KEY) as [api_key|].
  2:{ now apply ret_inv in H as [_ ->]. }
  destruct (negb (truthy api_key)).
  { now apply ret_inv in H as [_ ->]. }
  match type of H with
  | match ?body with _ => _ end = _ => destruct body as [r w1] eqn:Hbody
  end.
  assert (Hw1 : w' = w1).
  { destruct r; [now injection H|now apply ret_inv in H as [_ ->]]. }
  subst w1. clear H.
  apply bind_inv in Hbody as [(? & w2 & Hclient & Hbody)|(e & Hclient & _)];
    unfold OpenAI in Hclient; apply fail_if_inv in Hclient as [-> _];
    [|reflexivity].
  destruct (open_images_seq env image_files Hnone
              (fun path Hin => Hopen path (proj2 (elem_of_app _ _ _) (or_introl Hin)))
              w) as (w3' & Himg & Hn3).
  apply bind_inv in Hbody as [(images & w3 & Himages & Hbody)|(e & Himages & _)].
  2:{ rewrite Himg in Himages. discriminate. }
  rewrite Himg in Himages. injection Himages as <- <-.
  apply open_images_opened in Himg as Himages.
  apply bind_inv in Hbody as [(image & w4 & Himage & Hbody)|(e & Himage & _)].
  2:{ pose proof (image_param_inv _ _ _ _ _ Himage) as ->.
      unfold image_param in Himage.
      destruct (1 <? len (seq (next_handle w) (count_files image_files)));
        [unfold ret in Himage; discriminate|].
      destruct (seq (next_handle w) (count_files image_files)) eqn:Eseq;
        [|unfold ret in Himage; discriminate].
      destruct Himages as (_ & _ & Hout). apply map_eq. intros h.
      apply Hout. intros Hin. inversion Hin. }
  pose proof (image_param_inv _ _ _ _ _ Himage) as ->.
  apply image_param_seq in Himage as ->.
  destruct (open_mask_at env mask_file
              (fun path Hin => Hopen path (proj2 (elem_of_app _ _ _) (or_intror Hin)))
              w3') as (w5' & Hm).
  apply bind_inv in Hbody as [(mask & w5 & Hmask & Hbody)|(e & Hmask & _)].
  2:{ rewrite Hm in Hmask. discriminate. }
  rewrite Hm in Hmask. injection Hmask as <- <-.
  apply open_mask_opened in Hm as Hmask.
  pose proof (opened_app _ _ _ _ _ Himages Hmask) as Hopened.
  apply bind_inv in Hbody as [(response' & w6 & Hcall & Hbody)|(e & Hcall & _)].
  2:{ unfold images_edit in Hcall. injection Hcall as Hcall _.
      rewrite Hn3 in Hcall. unfold edit_request in Hservice.
      rewrite Hservice in Hcall. discriminate. }
  unfold images_edit in Hcall. injection Hcall as _ <-.
  apply bind_inv in Hbody as [(? & w7 & Hclose & Hbody)|(e & Hclose & _)].
  2:{ now apply close_all_inv in Hclose as [[=] _]. }
  apply close_all_streams in Hclose as [Hn7 Hs7]. cbn [streams next_handle] in *.
  apply bind_inv in Hbody as [(? & w8 & Hclosem & Hbody)|(e & Hclosem & _)].
  2:{ now apply close_mask_inv in Hclosem as [[=] _]. }
  apply close_mask_streams in Hclosem as [Hn8 Hs8].
  match type of Hopened with
  | opened (?images ++ option_list ?mask) _ _ =>
    assert (Hclosed : fresh_handles w8 /\ streams w8 = streams w);
    [ apply (closed_again (images ++ option_list mask) w w5' w8); auto;
      [congruence|];
      intros h; rewrite Hs8, Hs7;
      destruct (decide (h ∈ option_list mask)) as [Hmk|Hmk];
      destruct (decide (h ∈ images)) as [Hi|Hi];
      destruct (decide (h ∈ images ++ option_list mask)) as [Hb|Hb];
      try reflexivity; exfalso;
      rewrite elem_of_app in Hb; tauto
    | ]
  end.
  destruct Hclosed as [Hw8 Hs8'].
  streams_tail Hbody. destruct (Hbody Hw8) as [_ ->]. exact Hs8'.
Qed.

Lemma edit_image_closes_streams_witness :
  (forall path,
     path ∈ source_paths (OneFile (lit "photo.png"))
            ++ mask_path (Some (lit "mask.png")) ->
     open_error strict_env path ReadBinary = None)
  /\ edit_response strict_env
       (edit_request (next_handle busy_world) (OneFile (lit "photo.png"))
          (lit "Add a rainbow") (lit "auto") (Some (lit "mask.png"))
          (lit "gpt-image-1") 1 (lit "medium") (lit "auto"))
     = Return (demo_response 1)
  /\ fresh_handles busy_world
  /\ fst (returned strict_edit ([lit "photo.png"], [])) = []
  /\ streams (snd strict_edit) = streams busy_world.
Proof.
  assert (Hopen : forall path,
            path ∈ source_paths (OneFile (lit "photo.png"))
                   ++ mask_path (Some (lit "mask.png")) ->
            open_error strict_env path ReadBinary = None).
  { intros path Hin. vm_compute in Hin.
    apply elem_of_cons in Hin as [->|Hin]; [vm_compute; reflexivity|].
    apply elem_of_cons in Hin as [->|Hin]; [vm_compute; reflexivity|].
    inversion Hin. }
  split; [exact Hopen|]. split; [vm_compute; reflexivity|].
  split; [apply (bool_decide_unpack _); vm_compute; exact I|].
  split; [vm_compute; reflexivity|].
  exact (edit_image_closes_streams strict_env (OneFile (lit "photo.png"))
           (lit "Add a rainbow") (lit "auto") (Some (lit "mask.png"))
           (lit "gpt-image-1") 1 (lit "medium") (lit "auto") busy_world
           (demo_response 1) Hopen ltac:(vm_compute; reflexivity)
           ltac:(apply (bool_decide_unpack _); vm_compute; exact I)).
Defined.

(** ** The prompt in the report *)

Lemma lines_app (ls1 ls2 : list pystr) : lines (ls1 ++ ls2) = lines ls1 ++ lines ls2.
Proof. unfold lines. now rewrite map_app, concat_app. Qed.

Lemma lines_last (ls : list pystr) (l : pystr) :
  lines (ls ++ [l]) = lines ls ++ l ++ nl.
Proof.
  rewrite lines_app. unfold lines at 2. cbn [map concat].
  now rewrite app_nil_r.
Qed.

Lemma prompt_echo_shown prompt :
  prompt_echo prompt = dquote ++ shown_prompt prompt ++ dquote.
Proof.
  unfold prompt_echo, shown_prompt, slice_to, len.
  destruct (Z.ltb_spec 300 (Z.of_nat (length prompt))) as [Hlt|Hle].
  - now rewrite <- app_assoc.
  - rewrite take_ge by lia. reflexivity.
Qed.

(** X6. The success report of either operation ends with the prompt in
    double quotes: the prompt itself when it has at most 300 characters,
    and otherwise its first 300 characters followed by three dots. *)
Theorem report_ends_with_prompt :
  (forall env prompt background model moderation n output_compression
     output_format quality size w paths report w',
     generate_image env prompt background model moderation n
       output_compression output_format quality size w
     = (Return (paths, report), w') ->
     paths <> [] ->
     exists pre, report = pre ++ dquote ++ shown_prompt prompt ++ dquote ++ nl)
  /\ (forall env image_files prompt background mask_file model n quality size
        w paths report w',
      edit_image env image_files prompt background mask_file model n quality
        size w
      = (Return (paths, report), w') ->
      paths <> [] ->
      exists pre, report = pre ++ dquote ++ shown_prompt prompt ++ dquote ++ nl)
  /\ (forall prompt, len prompt <= 300 -> shown_prompt prompt = prompt)
  /\ (forall prompt, 300 < len prompt ->
        shown_prompt prompt = take 300 prompt ++ lit "..."
        /\ length (shown_prompt prompt) = 303%nat).
Proof.
  split; [|split; [|split]].
  - intros env prompt background model moderation n output_compression
      output_format quality size w paths report w' H Hne.
    apply generate_image_inv in H as [[-> _]|H]; [congruence|].
    destruct H as (response & items & u & c & created_text & per_image & H).
    cbv zeta in H.
    destruct H as
      (_ & _ & _ & _ & _ & _ & _ & _ & _ & _ & _ & _ & ->).
    unfold generation_info.
    match goal with
    | |- context [lines ?l] =>
      change l with (removelast l ++ [prompt_echo prompt])
    end.
    rewrite lines_last, prompt_echo_shown.
    match goal with |- context [lines ?l] => exists (lines l) end.
    f_equal. now rewrite <- !app_assoc.
  - intros env image_files prompt background mask_file model n quality size
      w paths report w' H Hne.
    apply edit_image_inv in H as [[-> _]|H]; [congruence|].
    destruct H as (images & image & mask & response & items & u & c
                   & created_text & per_image & H).
    cbv zeta in H.
    destruct H as
      (_ & _ & _ & _ & _ & _ & _ & _ & _ & _ & _ & _ & _ & ->).
    unfold edit_info.
    match goal with
    | |- context [lines ?l] =>
      change l with (removelast l ++ [prompt_echo prompt])
    end.
    rewrite lines_last, prompt_echo_shown.
    match goal with |- context [lines ?l] => exists (lines l) end.
    f_equal. now rewrite <- !app_assoc.
  - intros prompt Hlen. unfold shown_prompt.
    destruct (Z.ltb_spec 300 (len prompt)); [lia|reflexivity].
  - intros prompt Hlen. unfold shown_prompt.
    destruct (Z.ltb_spec 300 (len prompt)); [|lia].
    split; [reflexivity|].
    rewrite length_app, length_take. unfold len in Hlen.
    change (length (lit "...")) with 3%nat. lia.
Qed.

Lemma report_ends_with_prompt_witness :
  fst demo_generate_long = Return (returned demo_generate_long ([], []))
  /\ fst (returned demo_generate_long ([], [])) <> []
  /\ exists pre,
       snd (returned demo_generate_long ([], []))
       = pre ++ dquote ++ shown_prompt long_prompt ++ dquote ++ nl.
Proof.
  split; [vm_compute; reflexivity|]. split; [vm_compute; discriminate|].
  apply (proj1 report_ends_with_prompt
           (demo_env demo_config (Return (demo_response 1)))
           long_prompt (lit "auto") (lit "gpt-image-1") (lit "low") 1 85
           (lit "png") (lit "medium") (lit "auto") empty_world
           (fst (returned demo_generate_long ([], [])))
           (snd (returned demo_generate_long ([], [])))
           (snd demo_generate_long)).
  - vm_compute. reflexivity.
  - vm_compute. discriminate.
Defined.

(** ** What the saved files hold *)

Lemma digits_of_uint_inj d : forall d',
  digits_of_uint d = digits_of_uint d' -> d = d'.
Proof.
  induction d; intros d' H; destruct d'; cbn in H; try discriminate;
    try reflexivity; injection H as H; f_equal; auto.
Qed.

(** [str] is injective on the positive integers. *)
Lemma str_of_int_inj a b :
  0 < a -> 0 < b -> str_of_int a = str_of_int b -> a = b.
Proof.
  intros Ha Hb. destruct a as [|p|p], b as [|q|q]; try lia.
  cbn [str_of_int Z.to_N digits_of_N]. intros H.
  apply digits_of_uint_inj, DecimalPos.Unsigned.to_uint_inj in H. congruence.
Qed.

Lemma filepath_generated_inj ts ext k k' :
  0 <= k -> 0 <= k' ->
  filepath_at (generate_filename ts ext) k
  = filepath_at (generate_filename ts ext) k' ->
  k = k'.
Proof.
  intros Hk Hk'. rewrite !filepath_generated. intros H.
  do 3 apply app_inv_head in H. apply app_inv_tail in H.
  apply str_of_int_inj in H; lia.
Qed.

Lemma filepath_edited_inj ts k k' :
  0 <= k -> 0 <= k' ->
  filepath_at (edited_filename ts) k = filepath_at (edited_filename ts) k' ->
  k = k'.
Proof.
  intros Hk Hk'. rewrite !filepath_edited. intros H.
  do 3 apply app_inv_head in H. apply app_inv_tail in H.
  apply str_of_int_inj in H; lia.
Qed.

(** The loop writes the files of its own images and no other. *)
Lemma save_images_other env filename items : forall i acc w o w' p,
  save_images env filename i items acc w = (o, w') ->
  (forall j, (j < length items)%nat -> p <> filepath_at filename (i + Z.of_nat j)) ->
  files w' !! p = files w !! p.
Proof.
  induction items as [|image_data rest IH]; intros i acc w o w' p H Hp.
  - now apply ret_inv in H as [_ ->].
  - cbn [save_images] in H.
    apply bind_inv in H as [(image_bytes & w1 & Hd & H)|(e & Hd & _)];
      apply lift_inv in Hd as [_ ->]; [|reflexivity].
    assert (Hp0 : p <> filepath_at filename i).
    { specialize (Hp 0%nat). rewrite Z.add_0_r in Hp. apply Hp. cbn. lia. }
    apply bind_inv in H as [(u & w2 & Hw & H)|(e & Hw & _)].
    2:{ eapply save_one_files; eauto. }
    rewrite (IH _ _ _ _ _ p H).
    + eapply save_one_files; eauto.
    + intros j Hj. replace (i + 1 + Z.of_nat j) with (i + Z.of_nat (S j)) by lia.
      apply Hp. cbn. lia.
Qed.

(** After a loop that went through, the file of every image holds the
    decoded payload of that image. *)
Lemma save_images_content env filename :
  (forall k k', 0 <= k -> 0 <= k' ->
     filepath_at filename k = filepath_at filename k' -> k = k') ->
  forall items i acc w paths w',
  0 <= i ->
  save_images env filename i items acc w = (Return paths, w') ->
  forall j item, items !! j = Some item ->
    exists image_bytes,
      b64decode env (b64_json item) = Return image_bytes
      /\ files w' !! filepath_at filename (i + Z.of_nat j) = Some image_bytes.
Proof.
  intros Hinj. induction items as [|image_data rest IH];
    intros i acc w paths w' Hi H j item Hj; [discriminate|].
  cbn [save_images] in H.
  apply bind_inv in H as [(image_bytes & w1 & Hd & H)|(? & _ & [=])].
  apply lift_inv in Hd as [Hd ->].
  apply bind_inv in H as [(u & w2 & Hw & H)|(? & _ & [=])].
  destruct j as [|j]; cbn in Hj.
  - injection Hj as <-. exists image_bytes. split; [auto|].
    rewrite Z.add_0_r.
    rewrite (save_images_other _ _ _ _ _ _ _ _ (filepath_at filename i) H).
    + apply save_one_inv in Hw as (_ & _ & Hfile). now apply (Hfile u).
    + intros j' _ E. apply Hinj in E; lia.
  - replace (i + Z.of_nat (S j)) with (i + 1 + Z.of_nat j) by lia.
    eapply IH; eauto. lia.
Qed.

(** The run of the loop inside a call that returned paths. *)
Lemma generate_image_loop env prompt background model moderation n
    output_compression output_format quality size w paths report w' :
  generate_image env prompt background model moderation n output_compression
    output_format quality size w = (Return (paths, report), w') ->
  paths <> [] ->
  exists response items w1,
    generate_response env
      {| gp_model := model; gp_prompt := prompt; gp_background := background;
         gp_moderation := moderation; gp_n := n;
         gp_output_compression := output_compression;
         gp_output_format := output_format; gp_quality := quality;
         gp_size := size |}
    = Return response
    /\ data response = Some items
    /\ save_images env
         (generate_filename (created response)
            (if eqb output_format (lit "jpeg") then lit "jpg" else output_format))
         0 items [] w1
       = (Return paths, w').
Proof.
  unfold generate_image, try_except. intros H Hne.
  destruct (truthy (strip prompt)); unfold negb in H; cbv iota in H.
  2:{ early_return H. congruence. }
  destruct (config_get env OPENAI_API_KEY) as [api_key|].
  2:{ early_return H. congruence. }
  destruct (truthy api_key); unfold negb in H; cbv iota in H.
  2:{ early_return H. congruence. }
  match type of H with
  | match ?body with _ => _ end = _ => destruct body as [[r|e] w1] eqn:Hbody
  end.
  2:{ early_return H. congruence. }
  injection H as -> ->.
  next Hbody as ? w2 Hclient.
  next Hbody as response w3 Hcall.
  apply images_generate_inv in Hcall as (Hresp & _).
  next Hbody as ? w4 Hdir. apply fail_if_inv in Hdir as [-> _].
  next Hbody as items w5 Hdata.
  apply iterate_inv in Hdata as [-> Hdata]. specialize (Hdata _ eq_refl).
  next Hbody as image_paths w6 Hsave.
  next Hbody as u w7 Hu. apply input_tokens_details_inv in Hu as [-> _].
  next Hbody as c w8 Hc. apply lift_inv in Hc as [_ ->].
  next Hbody as created_text w9 Ht. apply lift_inv in Ht as [_ ->].
  next Hbody as per_image w10 Hdiv. apply lift_inv in Hdiv as [_ ->].
  apply ret_inv in Hbody as [[= -> _] <-].
  exists response, items, w3. auto.
Qed.

Lemma edit_image_loop env image_files prompt background mask_file model n
    quality size w paths report w' :
  edit_image env image_files prompt background mask_file model n quality size w
  = (Return (paths, report), w') ->
  paths <> [] ->
  exists image mask response items w1,
    edit_response env
      {| ep_model := model; ep_image := image; ep_prompt := prompt;
         ep_background := background; ep_n := n; ep_quality := quality;
         ep_size := size; ep_mask := mask |}
    = Return response
    /\ data response = Some items
    /\ save_images env (edited_filename (created response)) 0 items [] w1
       = (Return paths, w').
Proof.
  unfold edit_image, try_except. intros H Hne.
  destruct (is_None image_files).
  { early_return H. congruence. }
  destruct (truthy (strip prompt)); unfold negb in H; cbv iota in H.
  2:{ early_return H. congruence. }
  destruct (config_get env OPENAI_API_KEY) as [api_key|].
  2:{ early_return H. congruence. }
  destruct (truthy api_key); unfold negb in H; cbv iota in H.
  2:{ early_return H. congruence. }
  match type of H with
  | match ?body with _ => _ end = _ => destruct body as [[r|e] w1] eqn:Hbody
  end.
  2:{ early_return H. congruence. }
  injection H as -> ->.
  next Hbody as ? w2 Hclient.
  next Hbody as images w3 Himages.
  next Hbody as image w4 Himage.
  next Hbody as mask w5 Hmask.
  next Hbody as response w6 Hcall.
  apply images_edit_inv in Hcall as (Hresp & _).
  next Hbody as ? w7 Hclose.
  next Hbody as ? w8 Hclosem.
  next Hbody as ? w9 Hdir. apply fail_if_inv in Hdir as [-> _].
  next Hbody as items w10 Hdata.
  apply iterate_inv in Hdata as [-> Hdata]. specialize (Hdata _ eq_refl).
  next Hbody as image_paths w11 Hsave.
  next Hbody as u w12 Hu. apply input_tokens_details_inv in Hu as [-> _].
  next Hbody as c w13 Hc. apply lift_inv in Hc as [_ ->].
  next Hbody as created_text w14 Ht. apply lift_inv in Ht as [_ ->].
  next Hbody as per_image w15 Hdiv. apply lift_inv in Hdiv as [_ ->].
  apply ret_inv in Hbody as [[= -> _] <-].
  exists image, mask, response, items, w8. auto.
Qed.

(** The paths and the files after a loop that went through. *)
Lemma saved_loop env filename items w1 paths w' :
  (forall k k', 0 <= k -> 0 <= k' ->
     filepath_at filename k = filepath_at filename k' -> k = k') ->
  save_images env filename 0 items [] w1 = (Return paths, w') ->
  NoDup paths
  /\ forall k item, items !! k = Some item ->
       exists path image_bytes,
         paths !! k = Some path
         /\ b64decode env (b64_json item) = Return image_bytes
         /\ files w' !! path = Some image_bytes.
Proof.
  intros Hinj Hsave.
  pose proof (save_images_content env filename Hinj _ _ _ _ _ _ (Z.le_refl 0) Hsave)
    as Hcontent.
  apply save_images_inv in Hsave as (_ & _ & Hpaths).
  destruct (Hpaths _ eq_refl) as [-> _]. cbn [app]. split.
  - apply NoDup_alt. intros i j x Hi Hj.
    apply imap_lookup_const in Hi, Hj. subst x.
    apply Hinj in Hj; lia.
  - intros k item Hk. destruct (Hcontent k item Hk) as (image_bytes & Hd & Hf).
    exists (filepath_at filename (Z.of_nat k)), image_bytes.
    split; [|auto]. rewrite list_lookup_imap, Hk. reflexivity.
Qed.

(** X7. After a call that returns paths, the paths are pairwise
    distinct, there is one for each image of the response, and the file
    at the k-th path holds the base64-decoded payload of the k-th
    image. *)
Theorem saved_files_hold_images :
  (forall env prompt background model moderation n output_compression
     output_format quality size w paths report w',
     generate_image env prompt background model moderation n
       output_compression output_format quality size w
     = (Return (paths, report), w') ->
     paths <> [] ->
     NoDup paths
     /\ exists response items,
          generate_response env
            {| gp_model := model; gp_prompt := prompt;
               gp_background := background; gp_moderation := moderation;
               gp_n := n; gp_output_compression := output_compression;
               gp_output_format := output_format; gp_quality := quality;
               gp_size := size |}
          = Return response
          /\ data response = Some items
          /\ forall k item, items !! k = Some item ->
               exists path image_bytes,
                 paths !! k = Some path
                 /\ b64decode env (b64_json item) = Return image_bytes
                 /\ files w' !! path = Some image_bytes)
  /\ (forall env image_files prompt background mask_file model n quality size
        w paths report w',
      edit_image env image_files prompt background mask_file model n quality
        size w
      = (Return (paths, report), w') ->
      paths <> [] ->
      NoDup paths
      /\ exists image mask response items,
           edit_response env
             {| ep_model := model; ep_image := image; ep_prompt := prompt;
                ep_background := background; ep_n := n; ep_quality := quality;
                ep_size := size; ep_mask := mask |}
           = Return response
           /\ data response = Some items
           /\ forall k item, items !! k = Some item ->
                exists path image_bytes,
                  paths !! k = Some path
                  /\ b64decode env (b64_json item) = Return image_bytes
                  /\ files w' !! path = Some image_bytes).
Proof.
  split.
  - intros env prompt background model moderation n output_compression
      output_format quality size w paths report w' H Hne.
    apply generate_image_loop in H as (response & items & w1 & Hresp & Hdata & Hsave);
      [|exact Hne].
    apply saved_loop in Hsave as [Hnodup Hfiles];
      [|intros k k'; apply filepath_generated_inj].
    split; [exact Hnodup|]. exists response, items. auto.
  - intros env image_files prompt background mask_file model n quality size
      w paths report w' H Hne.
    apply edit_image_loop in H
      as (image & mask & response & items & w1 & Hresp & Hdata & Hsave);
      [|exact Hne].
    apply saved_loop in Hsave as [Hnodup Hfiles];
      [|intros k k'; apply filepath_edited_inj].
    split; [exact Hnodup|]. exists image, mask, response, items. auto.
Qed.

Lemma saved_files_hold_images_witness :
  fst (demo_generate 2 2 (lit "png"))
  = Return (returned (demo_generate 2 2 (lit "png")) ([], []))
  /\ fst (returned (demo_generate 2 2 (lit "png")) ([], [])) <> []
  /\ NoDup (fst (returned (demo_generate 2 2 (lit "png")) ([], [])))
  /\ exists response items,
       Return (demo_response 2) = Return response
       /\ data response = Some items
       /\ forall k item, items !! k = Some item ->
            exists path image_bytes,
              fst (returned (demo_generate 2 2 (lit "png")) ([], [])) !! k
              = Some path
              /\ b64decode (demo_env demo_config (Return (demo_response 2)))
                   (b64_json item)
                 = Return image_bytes
              /\ files (snd (demo_generate 2 2 (lit "png"))) !! path
                 = Some image_bytes.
Proof.
  split; [vm_compute; reflexivity|]. split; [vm_compute; discriminate|].
  apply (proj1 saved_files_hold_images
           (demo_env demo_config (Return (demo_response 2)))
           (lit "A serene mountain lake") (lit "auto") (lit "gpt-image-1")
           (lit "low") 2 85 (lit "png") (lit "medium") (lit "auto") empty_world
           (fst (returned (demo_generate 2 2 (lit "png")) ([], [])))
           (snd (returned (demo_generate 2 2 (lit "png")) ([], [])))
           (snd (demo_generate 2 2 (lit "png")))).
  - vm_compute. reflexivity.
  - vm_compute. discriminate.
Defined.

(** ** Names across calls *)

Lemma generate_image_paths env prompt background model moderation n
    output_compression output_format quality size w paths report w' :
  generate_image env prompt background model moderation n output_compression
    output_format quality size w = (Return (paths, report), w') ->
  paths <> [] ->
  exists response items,
    generate_response env
      {| gp_model := model; gp_prompt := prompt; gp_background := background;
         gp_moderation := moderation; gp_n := n;
         gp_output_compression := output_compression;
         gp_output_format := output_format; gp_quality := quality;
         gp_size := size |}
    = Return response
    /\ data response = Some items
    /\ paths = imap (fun k _ =>
                       filepath_at
                         (generate_filename (created response)
                            (if eqb output_format (lit "jpeg") then lit "jpg"
                             else output_format))
                         (Z.of_nat k)) items.
Proof.
  intros H Hne.
  apply generate_image_loop in H as (response & items & w1 & Hresp & Hdata & Hsave);
    [|exact Hne].
  apply save_images_inv in Hsave as (_ & _ & Hpaths).
  destruct (Hpaths _ eq_refl) as [-> _]. exists response, items. auto.
Qed.

(** X8. The two operations never write to the same file: a path
    returned by [generate_image] is never a path returned by
    [edit_image]. *)
Theorem generated_and_edited_paths_differ :
  forall env1 prompt1 background1 model1 moderation n1 output_compression
    output_format quality1 size1 w1 paths1 report1 w1'
    env2 image_files prompt2 background2 mask_file model2 n2 quality2 size2 w2
    paths2 report2 w2' path,
  generate_image env1 prompt1 background1 model1 moderation n1
    output_compression output_format quality1 size1 w1
  = (Return (paths1, report1), w1') ->
  edit_image env2 image_files prompt2 background2 mask_file model2 n2 quality2
    size2 w2
  = (Return (paths2, report2), w2') ->
  path ∈ paths1 -> path ∉ paths2.
Proof.
  intros env1 prompt1 background1 model1 moderation n1 output_compression
    output_format quality1 size1 w1 paths1 report1 w1'
    env2 image_files prompt2 background2 mask_file model2 n2 quality2 size2 w2
    paths2 report2 w2' path Hgen Hedit Hin1 Hin2.
  apply generate_image_inv in Hgen as [[-> _]|Hgen]; [inversion Hin1|].
  apply edit_image_inv in Hedit as [[-> _]|Hedit]; [inversion Hin2|].
  destruct Hgen as (response & items & u & c & created_text & per_image & Hgen).
  destruct Hedit as (images & image & mask & response' & items' & u' & c'
                     & created_text' & per_image' & Hedit).
  cbv zeta in Hgen, Hedit.
  destruct Hgen as (_ & _ & _ & _ & _ & _ & -> & _).
  destruct Hedit as (_ & _ & _ & _ & _ & _ & _ & -> & _).
  apply list_elem_of_lookup in Hin1 as [i Hi], Hin2 as [j Hj].
  apply imap_lookup_const in Hi, Hj. rewrite Hi in Hj.
  rewrite filepath_generated, filepath_edited in Hj.
  change (lit "generated_images/generated_")
    with (lit "generated_images/" ++ lit "generated_") in Hj.
  change (lit "generated_images/edited_")
    with (lit "generated_images/" ++ lit "edited_") in Hj.
  rewrite <- !app_assoc in Hj. apply app_inv_head in Hj.
  change (lit "generated_") with (103%N :: lit "enerated_") in Hj.
  change (lit "edited_") with (101%N :: lit "dited_") in Hj.
  discriminate.
Qed.

Lemma generated_and_edited_paths_differ_witness :
  fst (demo_generate 2 2 (lit "png"))
  = Return (returned (demo_generate 2 2 (lit "png")) ([], []))
  /\ fst demo_edit_two = Return (returned demo_edit_two ([], []))
  /\ lit "generated_images/generated_1700000000_1.png"
     ∈ fst (returned (demo_generate 2 2 (lit "png")) ([], []))
  /\ lit "generated_images/generated_1700000000_1.png"
     ∉ fst (returned demo_edit_two ([], [])).
Proof.
  split; [vm_compute; reflexivity|]. split; [vm_compute; reflexivity|].
  split; [apply (bool_decide_unpack _); vm_compute; exact I|].
  apply (generated_and_edited_paths_differ
           (demo_env demo_config (Return (demo_response 2)))
           (lit "A serene mountain lake") (lit "auto") (lit "gpt-image-1")
           (lit "low") 2 85 (lit "png") (lit "medium") (lit "auto") empty_world
           (fst (returned (demo_generate 2 2 (lit "png")) ([], [])))
           (snd (returned (demo_generate 2 2 (lit "png")) ([], [])))
           (snd (demo_generate 2 2 (lit "png")))
           (demo_env demo_config (Return (demo_response 1)))
           (FileList [lit "photo.png"; lit "logo.png"]) (lit "Add a rainbow")
           (lit "auto") (Some (lit "mask.png")) (lit "gpt-image-1") 1
           (lit "medium") (lit "auto") busy_world
           (fst (returned demo_edit_two ([], [])))
           (snd (returned demo_edit_two ([], [])))
           (snd demo_edit_two)).
  - vm_compute. reflexivity.
  - vm_compute. reflexivity.
  - apply (bool_decide_unpack _). vm_compute. exact I.
Defined.

(** X9. File names carry the timestamp of the response, the index and
    the extension and nothing else.  So when two calls of
    [generate_image] with the same output format get responses with the
    same timestamp, the second call, when it returns paths, returns
    the paths of the first and overwrites its files: the k-th file then
    holds the k-th image of the second response. *)
Theorem same_timestamp_overwrites :
  forall env output_format
    prompt1 background1 model1 moderation1 n1 output_compression1 quality1 size1
    prompt2 background2 model2 moderation2 n2 output_compression2 quality2 size2
    w paths1 report1 w1 paths2 report2 w2 response1 response2 items2,
  generate_image env prompt1 background1 model1 moderation1 n1
    output_compression1 output_format quality1 size1 w
  = (Return (paths1, report1), w1) ->
  generate_image env prompt2 background2 model2 moderation2 n2
    output_compression2 output_format quality2 size2 w1
  = (Return (paths2, report2), w2) ->
  paths2 <> [] ->
  generate_response env
    {| gp_model := model1; gp_prompt := prompt1; gp_background := background1;
       gp_moderation := moderation1; gp_n := n1;
       gp_output_compression := output_compression1;
       gp_output_format := output_format; gp_quality := quality1;
       gp_size := size1 |}
  = Return response1 ->
  generate_response env
    {| gp_model := model2; gp_prompt := prompt2; gp_background := background2;
       gp_moderation := moderation2; gp_n := n2;
       gp_output_compression := output_compression2;
       gp_output_format := output_format; gp_quality := quality2;
       gp_size := size2 |}
  = Return response2 ->
  created response1 = created response2 ->
  data response2 = Some items2 ->
  forall k path item,
    paths1 !! k = Some path -> items2 !! k = Some item ->
    paths2 !! k = Some path
    /\ exists image_bytes,
         b64decode env (b64_json item) = Return image_bytes
         /\ files w2 !! path = Some image_bytes.
Proof.
  intros env output_format
    prompt1 background1 model1 moderation1 n1 output_compression1 quality1 size1
    prompt2 background2 model2 moderation2 n2 output_compression2 quality2 size2
    w paths1 report1 w1 paths2 report2 w2 response1 response2 items2
    Hrun1 Hrun2 Hne2 Hresp1 Hresp2 Hcreated Hdata2 k path item Hk1 Hk2.
  assert (Hne1 : paths1 <> []) by (intros ->; discriminate).
  apply generate_image_paths in Hrun1 as (r1 & items1 & Hr1 & _ & Hpaths1);
    [|exact Hne1].
  rewrite Hresp1 in Hr1. injection Hr1 as <-.
  rewrite Hpaths1 in Hk1. apply imap_lookup_const in Hk1.
  pose proof Hrun2 as Hloop.
  apply generate_image_loop in Hloop
    as (r2 & items & w1' & Hr2 & Hitems & Hsave); [|exact Hne2].
  rewrite Hresp2 in Hr2. injection Hr2 as <-.
  rewrite Hdata2 in Hitems. injection Hitems as <-.
  apply saved_loop in Hsave as [_ Hfiles];
    [|intros i j; apply filepath_generated_inj].
  destruct (Hfiles k item Hk2) as (path2 & image_bytes & Hp2 & Hd & Hf).
  apply generate_image_paths in Hrun2 as (r2 & items & Hr2 & Hitems & Hpaths2);
    [|exact Hne2].
  rewrite Hresp2 in Hr2. injection Hr2 as <-.
  pose proof Hp2 as Hp2'. rewrite Hpaths2 in Hp2'.
  apply imap_lookup_const in Hp2'.
  assert (E : path2 = path) by (rewrite Hk1, Hp2', Hcreated; reflexivity).
  rewrite E in Hp2, Hf. split; [exact Hp2|]. exists image_bytes. auto.
Qed.

Lemma same_timestamp_overwrites_witness :
  fst (demo_generate 2 2 (lit "png"))
  = Return (returned (demo_generate 2 2 (lit "png")) ([], []))
  /\ fst demo_generate_again = Return (returned demo_generate_again ([], []))
  /\ fst (returned demo_generate_again ([], [])) <> []
  /\ fst (returned (demo_generate 2 2 (lit "png")) ([], [])) !! 1%nat
     = Some (lit "generated_images/generated_1700000000_2.png")
  /\ fst (returned demo_generate_again ([], [])) !! 1%nat
     = Some (lit "generated_images/generated_1700000000_2.png")
  /\ exists image_bytes,
       b64decode (demo_env demo_config (Return (demo_response 2)))
         (Some (lit "aGk="))
       = Return image_bytes
       /\ files (snd demo_generate_again)
            !! lit "generated_images/generated_1700000000_2.png"
          = Some image_bytes.
Proof.
  split; [vm_compute; reflexivity|]. split; [vm_compute; reflexivity|].
  split; [vm_compute; discriminate|]. split; [vm_compute; reflexivity|].
  apply (same_timestamp_overwrites
           (demo_env demo_config (Return (demo_response 2))) (lit "png")
           (lit "A serene mountain lake") (lit "auto") (lit "gpt-image-1")
           (lit "low") 2 85 (lit "medium") (lit "auto")
           (lit "A stormy sea") (lit "auto") (lit "gpt-image-1") (lit "low") 2
           85 (lit "high") (lit "auto")
           empty_world
           (fst (returned (demo_generate 2 2 (lit "png")) ([], [])))
           (snd (returned (demo_generate 2 2 (lit "png")) ([], [])))
           (snd (demo_generate 2 2 (lit "png")))
           (fst (returned demo_generate_again ([], [])))
           (snd (returned demo_generate_again ([], [])))
           (snd demo_generate_again)
           (demo_response 2) (demo_response 2)
           (replicate 2 {| b64_json := Some (lit "aGk=") |})
           ltac:(vm_compute; reflexivity) ltac:(vm_compute; reflexivity)
           ltac:(vm_compute; discriminate) eq_refl eq_refl eq_refl eq_refl
           1%nat (lit "generated_images/generated_1700000000_2.png")
           {| b64_json := Some (lit "aGk=") |}).
  - vm_compute. reflexivity.
  - reflexivity.
Defined.

(** ** Validation *)

(** X10. The first check that fails decides the message, and a call
    rejected by a check changes nothing: [generate_image] looks at the
    prompt and then at the credential, [edit_image] at the source
    images, then at the prompt, then at the credential. *)
Theorem first_failing_check_decides :
  (forall env prompt background model moderation n output_compression
     output_format quality size w,
     (strip prompt = [] ->
      generate_image env prompt background model moderation n
        output_compression output_format quality size w
      = (Return ([], prompt_empty), w))
     /\ (strip prompt <> [] ->
         truthy_opt (config_get env OPENAI_API_KEY) = false ->
         generate_image env prompt background model moderation n
           output_compression output_format quality size w
         = (Return ([], key_not_found), w)))
  /\ (forall env image_files prompt background mask_file model n quality size w,
      (image_files = NoFiles ->
       edit_image env image_files prompt background mask_file model n quality
         size w
       = (Return ([], upload_an_image), w))
      /\ (image_files <> NoFiles -> strip prompt = [] ->
          edit_image env image_files prompt background mask_file model n
            quality size w
          = (Return ([], edit_prompt_empty), w))
      /\ (image_files <> NoFiles -> strip prompt <> [] ->
          truthy_opt (config_get env OPENAI_API_KEY) = false ->
          edit_image env image_files prompt background mask_file model n
            quality size w
          = (Return ([], key_not_found), w))).
Proof.
  assert (Htruthy : forall s : pystr, s <> [] -> truthy s = true).
  { intros [|c s] Hs; [congruence|reflexivity]. }
  split; intros.
  - split.
    + intros Hempty. unfold generate_image, try_except. rewrite Hempty.
      reflexivity.
    + intros Hprompt Hkey. unfold generate_image, try_except.
      rewrite (Htruthy _ Hprompt). cbv beta iota delta [negb].
      destruct (config_get env OPENAI_API_KEY) as [api_key|]; [|reflexivity].
      cbn [truthy_opt] in Hkey. rewrite Hkey. reflexivity.
  - split; [|split].
    + intros ->. reflexivity.
    + intros Hfiles Hempty. unfold edit_image, try_except. rewrite Hempty.
      destruct image_files; [congruence|reflexivity|reflexivity].
    + intros Hfiles Hprompt Hkey. unfold edit_image, try_except.
      rewrite (Htruthy _ Hprompt).
      assert (is_None image_files = false) as ->
        by (destruct image_files; [congruence|reflexivity|reflexivity]).
      cbv beta iota delta [negb].
      destruct (config_get env OPENAI_API_KEY) as [api_key|]; [|reflexivity].
      cbn [truthy_opt] in Hkey. rewrite Hkey. reflexivity.
Qed.

Lemma first_failing_check_decides_witness :
  FileList [lit "photo.png"] <> NoFiles
  /\ strip (lit "  ") = []
  /\ edit_image (demo_env ∅ (Return (demo_response 1)))
       (FileList [lit "photo.png"]) (lit "  ") (lit "auto") None
       (lit "gpt-image-1") 1 (lit "medium") (lit "auto") busy_world
     = (Return ([], edit_prompt_empty), busy_world).
Proof.
  split; [discriminate|]. split; [reflexivity|].
  exact (proj1 (proj2 (proj2 first_failing_check_decides
                         (demo_env ∅ (Return (demo_response 1)))
                         (FileList [lit "photo.png"]) (lit "  ") (lit "auto")
                         None (lit "gpt-image-1") 1 (lit "medium") (lit "auto")
                         busy_world))
           ltac:(discriminate) eq_refl).
Defined.

(** X11. A credential that is in the configuration without a value, or
    with the empty string as its value, counts as missing. *)
Theorem empty_credential_counts_as_missing :
  forall env,
  config env !! OPENAI_API_KEY = Some None
  \/ config env !! OPENAI_API_KEY = Some (Some []) ->
  (forall prompt background model moderation n output_compression
     output_format quality size w,
     strip prompt <> [] ->
     generate_image env prompt background model moderation n
       output_compression output_format quality size w
     = (Return ([], key_not_found), w))
  /\ (forall image_files prompt background mask_file model n quality size w,
      image_files <> NoFiles -> strip prompt <> [] ->
      edit_image env image_files prompt background mask_file model n quality
        size w
      = (Return ([], key_not_found), w)).
Proof.
  intros env Hcfg.
  assert (Hkey : truthy_opt (config_get env OPENAI_API_KEY) = false).
  { unfold config_get. destruct Hcfg as [-> | ->]; reflexivity. }
  assert (Htruthy : forall s : pystr, s <> [] -> truthy s = true).
  { intros [|c s] Hs; [congruence|reflexivity]. }
  split; intros.
  - unfold generate_image, try_except.
    rewrite (Htruthy _ H). cbv beta iota delta [negb].
    destruct (config_get env OPENAI_API_KEY) as [api_key|]; [|reflexivity].
    cbn [truthy_opt] in Hkey. rewrite Hkey. reflexivity.
  - unfold edit_image, try_except. rewrite (Htruthy _ H0).
    assert (is_None image_files = false) as ->
      by (destruct image_files; [congruence|reflexivity|reflexivity]).
    cbv beta iota delta [negb].
    destruct (config_get env OPENAI_API_KEY) as [api_key|]; [|reflexivity].
    cbn [truthy_opt] in Hkey. rewrite Hkey. reflexivity.
Qed.

Lemma empty_credential_counts_as_missing_witness :
  config (demo_env empty_credential (Return (demo_response 1)))
    !! OPENAI_API_KEY
  = Some (Some [])
  /\ strip (lit "A serene mountain lake") <> []
  /\ generate_image (demo_env empty_credential (Return (demo_response 1)))
       (lit "A serene mountain lake") (lit "auto") (lit "gpt-image-1")
       (lit "low") 1 85 (lit "png") (lit "medium") (lit "auto") busy_world
     = (Return ([], key_not_found), busy_world).
Proof.
  split; [vm_compute; reflexivity|]. split; [vm_compute; discriminate|].
  apply (empty_credential_counts_as_missing
           (demo_env empty_credential (Return (demo_response 1)))).
  - right. vm_compute. reflexivity.
  - vm_compute. discriminate.
Defined.

(** ** Failures after validation *)

Lemma generation_failed_shows e : contains (generation_failed e) (exn_str e).
Proof.
  unfold generation_failed.
  apply contains_lines with (l := lit "**Error:** " ++ exn_str e);
    [|apply contains_end].
  do 2 right. left. reflexivity.
Qed.

Lemma edit_failed_shows e : contains (edit_failed e) (exn_str e).
Proof.
  unfold edit_failed.
  apply contains_lines with (l := lit "**Error:** " ++ exn_str e);
    [|apply contains_end].
  do 2 right. left. reflexivity.
Qed.

Lemma image_param_at h0 k w :
  (0 < k)%nat ->
  image_param (seq h0 k) (len (seq h0 k)) w
  = (Return (if 1 <? Z.of_nat k then StreamList (seq h0 k) else OneStream h0),
     w).
Proof.
  intros Hk. unfold image_param, len. rewrite length_seq.
  destruct (1 <? Z.of_nat k); [reflexivity|].
  destruct k as [|k]; [lia|reflexivity].
Qed.

Lemma count_source_paths image_files :
  count_files image_files = length (source_paths image_files).
Proof. now destruct image_files. Qed.

(** X12. When the invocation of the client raises, the operation
    returns no path and a report that shows the message of the
    exception; the client was invoked once and is not invoked again by
    the handler, and no file is written.  For [edit_image] this is the
    case of a call whose source images and mask can be opened. *)
Theorem service_failure_is_reported :
  (forall env prompt background model moderation n output_compression
     output_format quality size w api_key e,
     strip prompt <> [] ->
     config_get env OPENAI_API_KEY = Some api_key -> api_key <> [] ->
     OpenAI_error env api_key = None ->
     generate_response env
       {| gp_model := model; gp_prompt := prompt; gp_background := background;
          gp_moderation := moderation; gp_n := n;
          gp_output_compression := output_compression;
          gp_output_format := output_format; gp_quality := quality;
          gp_size := size |}
     = Raise e ->
     exists report w',
       generate_image env prompt background model moderation n
         output_compression output_format quality size w
       = (Return ([], report), w')
       /\ contains report (exn_str e)
       /\ files w' = files w
       /\ length (client_invocations w')
          = S (length (client_invocations w)))
  /\ (forall env image_files prompt background mask_file model n quality size
        w api_key e,
      source_paths image_files <> [] ->
      strip prompt <> [] ->
      config_get env OPENAI_API_KEY = Some api_key -> api_key <> [] ->
      OpenAI_error env api_key = None ->
      (forall path, path ∈ source_paths image_files ++ mask_path mask_file ->
         open_error env path ReadBinary = None) ->
      edit_response env
        (edit_request (next_handle w) image_files prompt background mask_file
           model n quality size)
      = Raise e ->
      exists report w',
        edit_image env image_files prompt background mask_file model n quality
          size w
        = (Return ([], report), w')
        /\ contains report (exn_str e)
        /\ files w' = files w
        /\ length (client_invocations w')
           = S (length (client_invocations w))).
Proof.
  unfold client_invocations.
  assert (Htruthy : forall s : pystr, s <> [] -> truthy s = true).
  { intros [|c s] Hs; [congruence|reflexivity]. }
  split.
  - intros env prompt background model moderation n output_compression
      output_format quality size w api_key e Hprompt Hkey Hnonempty Hclient
      Hservice.
    destruct (generate_image_service_failure env prompt background model
                moderation n output_compression output_format quality size w
                api_key e (Htruthy _ Hprompt) Hkey (Htruthy _ Hnonempty)
                Hclient Hservice) as (w' & Hrun & Hfiles & Hcalls).
    exists (generation_failed e), w'.
    split; [exact Hrun|]. split; [apply generation_failed_shows|auto].
  - intros env image_files prompt background mask_file model n quality size w
      api_key e Hsources Hprompt Hkey Hnonempty Hclient Hopen Hservice.
    assert (Hnone : is_None image_files = false).
    { destruct image_files; [now destruct Hsources|reflexivity..]. }
    assert (Hcount : (0 < count_files image_files)%nat).
    { rewrite count_source_paths.
      destruct (source_paths image_files); [congruence|cbn [length]; lia]. }
    destruct (open_images_seq env image_files Hnone
                (fun path Hin =>
                   Hopen path (proj2 (elem_of_app _ _ _) (or_introl Hin)))
                w) as (w3 & Himg & Hn3).
    destruct (open_mask_at env mask_file
                (fun path Hin =>
                   Hopen path (proj2 (elem_of_app _ _ _) (or_intror Hin)))
                w3) as (w5 & Hm).
    rewrite Hn3 in Hm.
    pose proof (open_images_inv _ _ _ _ _ Himg) as [Hf3 Hc3].
    pose proof (open_mask_inv _ _ _ _ _ Hm) as [Hf5 Hc5].
    pose proof (image_param_at (next_handle w) _ w3 Hcount) as Himage.
    assert (Hc : OpenAI env api_key w = (Return tt, w)).
    { unfold OpenAI. now rewrite Hclient. }
    unfold edit_request in Hservice.
    exists (edit_failed e),
      {| files := files w5; streams := streams w5;
         next_handle := next_handle w5;
         remote_calls :=
           remote_calls w5
           ++ [CallEdit
                 (edit_request (next_handle w) image_files prompt background
                    mask_file model n quality size)] |}.
    split.
    + unfold edit_image, try_except.
      rewrite Hnone, (Htruthy _ Hprompt), Hkey, (Htruthy _ Hnonempty).
      cbv beta iota delta [negb].
      rewrite (bind_Return _ _ _ _ _ Hc), (bind_Return _ _ _ _ _ Himg).
      cbv zeta.
      rewrite (bind_Return _ _ _ _ _ Himage), (bind_Return _ _ _ _ _ Hm).
      unfold bind at 1, images_edit. rewrite Hservice. reflexivity.
    + split; [apply edit_failed_shows|]. cbn [files remote_calls].
      split; [congruence|]. rewrite length_app, Hc5, Hc3. cbn [length]. lia.
Qed.

Lemma service_failure_is_reported_witness :
  strip (lit "A serene mountain lake") <> []
  /\ config_get (demo_env demo_config (Raise rate_limited)) OPENAI_API_KEY
     = Some (lit "sk-demo")
  /\ lit "sk-demo" <> []
  /\ exists report w',
       generate_image (demo_env demo_config (Raise rate_limited))
         (lit "A serene mountain lake") (lit "auto") (lit "gpt-image-1")
         (lit "low") 1 85 (lit "png") (lit "medium") (lit "auto") busy_world
       = (Return ([], report), w')
       /\ contains report (exn_str rate_limited)
       /\ files w' = files busy_world
       /\ length (client_invocations w')
          = S (length (client_invocations busy_world)).
Proof.
  split; [vm_compute; discriminate|]. split; [vm_compute; reflexivity|].
  split; [vm_compute; discriminate|].
  apply (proj1 service_failure_is_reported
           (demo_env demo_config (Raise rate_limited))
           (lit "A serene mountain lake") (lit "auto") (lit "gpt-image-1")
           (lit "low") 1 85 (lit "png") (lit "medium") (lit "auto") busy_world
           (lit "sk-demo") rate_limited).
  - vm_compute. discriminate.
  - vm_compute. reflexivity.
  - vm_compute. discriminate.
  - reflexivity.
  - reflexivity.
Defined.

(** A loop that cannot fail goes through. *)
Lemma save_images_returns env filename items :
  (forall path, open_error env path WriteBinary = None) ->
  (forall path image_bytes, write_error env path image_bytes = None) ->
  (forall item, item ∈ items ->
     exists image_bytes, b64decode env (b64_json item) = Return image_bytes) ->
  forall i acc w,
  exists paths w', save_images env filename i items acc w = (Return paths, w').
Proof.
  intros Hopen Hwrite. induction items as [|image_data rest IH];
    intros Hdecode i acc w; cbn [save_images].
  - unfold ret. eauto.
  - destruct (Hdecode image_data) as [image_bytes Hd]; [now left|].
    rewrite Hd. unfold bind at 1, lift.
    unfold bind at 1, with_open, bind at 1, open. rewrite Hopen.
    unfold finally, write. cbn [streams]. rewrite lookup_insert_eq, Hwrite.
    apply IH. intros item Hin. apply Hdecode. now right.
Qed.

(** X13. Nothing is cleaned up after a late failure.  When the response
    of the service carries no usage record, [generate_image] has already
    written every image: it returns no path and an error report, and the
    files stay on disk, each holding its decoded image. *)
Theorem missing_usage_leaves_files :
  forall env prompt background model moderation n output_compression
    output_format quality size w api_key response items,
  strip prompt <> [] ->
  config_get env OPENAI_API_KEY = Some api_key -> api_key <> [] ->
  OpenAI_error env api_key = None ->
  generate_response env
    {| gp_model := model; gp_prompt := prompt; gp_background := background;
       gp_moderation := moderation; gp_n := n;
       gp_output_compression := output_compression;
       gp_output_format := output_format; gp_quality := quality;
       gp_size := size |}
  = Return response ->
  usage response = None ->
  data response = Some items ->
  makedirs_error env (lit "generated_images") = None ->
  (forall path, open_error env path WriteBinary = None) ->
  (forall path image_bytes, write_error env path image_bytes = None) ->
  (forall item, item ∈ items ->
     exists image_bytes, b64decode env (b64_json item) = Return image_bytes) ->
  exists e w',
    generate_image env prompt background model moderation n output_compression
      output_format quality size w
    = (Return ([], generation_failed e), w')
    /\ exn_kind e = AttributeError
    /\ forall k item, items !! k = Some item ->
         exists image_bytes,
           b64decode env (b64_json item) = Return image_bytes
           /\ files w'
                !! filepath_at
                     (generate_filename (created response)
                        (if eqb output_format (lit "jpeg") then lit "jpg"
                         else output_format))
                     (Z.of_nat k)
              = Some image_bytes.
Proof.
  intros env prompt background model moderation n output_compression
    output_format quality size w api_key response items Hprompt Hkey Hnonempty
    Hclient Hservice Husage Hdata Hdir Hopen Hwrite Hdecode.
  assert (Htruthy : forall s : pystr, s <> [] -> truthy s = true).
  { intros [|c s] Hs; [congruence|reflexivity]. }
  unfold generate_image, try_except.
  rewrite (Htruthy _ Hprompt), Hkey, (Htruthy _ Hnonempty).
  cbv beta iota delta [negb bind OpenAI fail_if]. rewrite Hclient.
  cbv beta iota zeta delta [ret bind images_generate]. rewrite Hservice.
  cbv beta iota zeta delta [makedirs fail_if]. rewrite Hdir.
  cbv beta iota zeta delta [ret]. rewrite Hdata, Husage.
  cbv beta iota zeta delta [iterate ret].
  match goal with
  | |- context [save_images env ?fn 0 items [] ?w0] =>
    destruct (save_images_returns env fn items Hopen Hwrite Hdecode 0 [] w0)
      as (paths & w' & Hsave);
    pose proof (save_images_content env fn
                  (fun k k' => filepath_generated_inj _ _ k k')
                  _ _ _ _ _ _ (Z.le_refl 0) Hsave) as Hcontent
  end.
  rewrite Hsave. cbv beta iota zeta delta [input_tokens_details raise ret].
  eexists _, w'. split; [reflexivity|]. split; [reflexivity|].
  exact Hcontent.
Qed.

Lemma missing_usage_leaves_files_witness :
  usage (response_without_usage 2) = None
  /\ exists e w',
       generate_image
         (demo_env demo_config (Return (response_without_usage 2)))
         (lit "A serene mountain lake") (lit "auto") (lit "gpt-image-1")
         (lit "low") 2 85 (lit "png") (lit "medium") (lit "auto") empty_world
       = (Return ([], generation_failed e), w')
       /\ exn_kind e = AttributeError
       /\ forall k item,
            replicate 2 {| b64_json := Some (lit "aGk=") |} !! k = Some item ->
            exists image_bytes,
              b64decode
                (demo_env demo_config (Return (response_without_usage 2)))
                (b64_json item)
              = Return image_bytes
              /\ files w'
                   !! filepath_at
                        (generate_filename (created (response_without_usage 2))
                           (if eqb (lit "png") (lit "jpeg") then lit "jpg"
                            else lit "png"))
                        (Z.of_nat k)
                 = Some image_bytes.
Proof.
  split; [reflexivity|].
  apply (missing_usage_leaves_files
           (demo_env demo_config (Return (response_without_usage 2)))
           (lit "A serene mountain lake") (lit "auto") (lit "gpt-image-1")
           (lit "low") 2 85 (lit "png") (lit "medium") (lit "auto") empty_world
           (lit "sk-demo") (response_without_usage 2)
           (replicate 2 {| b64_json := Some (lit "aGk=") |})).
  - vm_compute. discriminate.
  - vm_compute. reflexivity.
  - vm_compute. discriminate.
  - reflexivity.
  - reflexivity.
  - reflexivity.
  - reflexivity.
  - reflexivity.
  - reflexivity.
  - reflexivity.
  - intros item Hin. apply elem_of_replicate in Hin as [-> _].
    eexists. reflexivity.
Defined.

(** ** Counts in the reports *)

Lemma edit_image_report env image_files prompt background mask_file model n
    quality size w paths report w' :
  edit_image env image_files prompt background mask_file model n quality size w
  = (Return (paths, report), w') ->
  paths <> [] ->
  exists created_text u c per_image,
    report = edit_info model (Z.of_nat (count_files image_files)) paths quality
               size background mask_file created_text u c per_image prompt.
Proof.
  unfold edit_image, try_except. intros H Hne.
  destruct (is_None image_files).
  { early_return H. congruence. }
  destruct (truthy (strip prompt)); unfold negb in H; cbv iota in H.
  2:{ early_return H. congruence. }
  destruct (config_get env OPENAI_API_KEY) as [api_key|].
  2:{ early_return H. congruence. }
  destruct (truthy api_key); unfold negb in H; cbv iota in H.
  2:{ early_return H. congruence. }
  match type of H with
  | match ?body with _ => _ end = _ => destruct body as [[r|e] w1] eqn:Hbody
  end.
  2:{ early_return H. congruence. }
  injection H as -> ->.
  next Hbody as ? w2 Hclient.
  next Hbody as images w3 Himages. apply open_images_length in Himages.
  next Hbody as image w4 Himage.
  next Hbody as mask w5 Hmask.
  next Hbody as response w6 Hcall.
  next Hbody as ? w7 Hclose.
  next Hbody as ? w8 Hclosem.
  next Hbody as ? w9 Hdir.
  next Hbody as items w10 Hdata.
  next Hbody as image_paths w11 Hsave.
  next Hbody as u w12 Hu.
  next Hbody as c w13 Hc.
  next Hbody as created_text w14 Ht.
  next Hbody as per_image w15 Hdiv.
  apply ret_inv in Hbody as [[= -> ->] _].
  exists created_text, u, c, per_image. unfold len. now rewrite Himages.
Qed.

(** X14. The success reports state what was done: the report of
    [generate_image] the number of paths returned, the report of
    [edit_image] the number of source images given, the number of paths
    returned, and whether a non-empty mask path was given. *)
Theorem reports_state_the_counts :
  (forall env prompt background model moderation n output_compression
     output_format quality size w paths report w',
     generate_image env prompt background model moderation n
       output_compression output_format quality size w
     = (Return (paths, report), w') ->
     paths <> [] ->
     contains report (lit "- **Images Created:** " ++ str_of_int (len paths) ++ nl))
  /\ (forall env image_files prompt background mask_file model n quality size
        w paths report w',
      edit_image env image_files prompt background mask_file model n quality
        size w
      = (Return (paths, report), w') ->
      paths <> [] ->
      contains report
        (lit "- **Input Images:** "
         ++ str_of_int (Z.of_nat (count_files image_files)) ++ nl)
      /\ contains report
           (lit "- **Output Images:** " ++ str_of_int (len paths) ++ nl)
      /\ contains report
           (lit "- **Mask Applied:** "
            ++ (if truthy_opt mask_file then lit "Yes" else lit "No") ++ nl)).
Proof.
  assert (Hline : forall (ls : list pystr) (a b : pystr),
            In (a ++ b) ls -> contains (lines ls) (a ++ b ++ nl)).
  { intros ls a b Hin. rewrite (app_assoc a b nl).
    generalize dependent (a ++ b). clear a b. intros l.
    unfold lines. induction ls as [|l0 ls IH]; intros Hin; [destruct Hin|].
    cbn [map concat]. destruct Hin as [->|Hin].
    - exists [], (concat (map (fun l => l ++ nl) ls)). reflexivity.
    - apply contains_app_r, IH, Hin. }
  split.
  - intros env prompt background model moderation n output_compression
      output_format quality size w paths report w' H Hne.
    apply generate_image_inv in H as [[-> _]|H]; [congruence|].
    destruct H as (response & items & u & c & created_text & per_image & H).
    cbv zeta in H.
    destruct H as (_ & _ & _ & _ & _ & _ & _ & _ & _ & _ & _ & _ & ->).
    unfold generation_info.
    apply (Hline _ (lit "- **Images Created:** ") (str_of_int (len paths))).
    do 4 right. left. reflexivity.
  - intros env image_files prompt background mask_file model n quality size
      w paths report w' H Hne.
    apply edit_image_report in H as (created_text & u & c & per_image & ->);
      [|exact Hne].
    unfold edit_info. split; [|split].
    + apply (Hline _ (lit "- **Input Images:** ")
               (str_of_int (Z.of_nat (count_files image_files)))).
      do 4 right. left. reflexivity.
    + apply (Hline _ (lit "- **Output Images:** ") (str_of_int (len paths))).
      do 5 right. left. reflexivity.
    + apply (Hline _ (lit "- **Mask Applied:** ")
               (if truthy_opt mask_file then lit "Yes" else lit "No")).
      do 9 right. left. reflexivity.
Qed.

Lemma reports_state_the_counts_witness :
  fst demo_edit_two = Return (returned demo_edit_two ([], []))
  /\ fst (returned demo_edit_two ([], [])) <> []
  /\ contains (snd (returned demo_edit_two ([], [])))
       (lit "- **Input Images:** " ++ str_of_int 2 ++ nl)
  /\ contains (snd (returned demo_edit_two ([], [])))
       (lit "- **Output Images:** "
        ++ str_of_int (len (fst (returned demo_edit_two ([], [])))) ++ nl)
  /\ contains (snd (returned demo_edit_two ([], [])))
       (lit "- **Mask Applied:** " ++ lit "Yes" ++ nl).
Proof.
  split; [vm_compute; reflexivity|]. split; [vm_compute; discriminate|].
  apply (proj2 reports_state_the_counts
           (demo_env demo_config (Return (demo_response 1)))
           (FileList [lit "photo.png"; lit "logo.png"]) (lit "Add a rainbow")
           (lit "auto") (Some (lit "mask.png")) (lit "gpt-image-1") 1
           (lit "medium") (lit "auto") busy_world
           (fst (returned demo_edit_two ([], [])))
           (snd (returned demo_edit_two ([], [])))
           (snd demo_edit_two)).
  - vm_compute. reflexivity.
  - vm_compute. discriminate.
Defined.
